(** * Leveraged rotation strategy backtest engine: model and properties

    A shallow embedding of [Backtest/backtest_engine.py].

    Modelling conventions.
    - A Python/numpy float is a value of [float]: a rational number, one of
      the two infinities, or NaN.  Arithmetic on finite values is exact
      (rounding is not modelled, nor is the sign of zero); every finite
      result is kept in lowest terms, so that equal numbers are equal terms.
      The special values follow IEEE 754: [0/0], [inf-inf], [0*inf] and
      [inf/inf] are NaN, [x/0] is an infinity for [x <> 0], and every
      comparison with NaN is false.
    - The two numpy operations with irrational results, [np.sqrt] and the
      power operator, are fields of a [NumLib] record that the metric
      functions take as an argument.
    - A date is a day number (days since 1970-01-01); the code works with
      timestamps at midnight.  Date strings are taken as already parsed.
    - A pandas Series is the list of its (date, value) entries in index
      order; a DataFrame of closing prices is the list of its rows.  The
      index is taken to be increasing, as a price table's is, and a label
      slice [.loc[a:b]] selects the entries whose date lies in the range.
    - pandas reductions skip NaN, as they do by default.
    - Console output is not modelled. *)

From Stdlib Require Import ZArith QArith Qabs Qreduction List Bool Lia.
Import ListNotations.

Set Implicit Arguments.

(** ** Floating-point values *)

Inductive float : Type :=
| Fin (q : Q)
| PInf
| NInf
| NaN.

Definition fin (q : Q) : float := Fin (Qred q).

Definition F0 : float := Fin 0.
Definition F1 : float := Fin 1.

Definition of_Z (z : Z) : float := Fin (inject_Z z).

Definition isnan (x : float) : bool :=
  match x with NaN => true | _ => false end.

Definition notna (x : float) : bool := negb (isnan x).

Definition isfinite (x : float) : bool :=
  match x with Fin _ => true | _ => false end.

Definition Qsgn (q : Q) : Z := Z.sgn (Qnum q).

Definition Qeqb (a b : Q) : bool := Qeq_bool a b.
Definition Qltb (a b : Q) : bool := negb (Qle_bool b a).

Definition fneg (x : float) : float :=
  match x with
  | Fin q => fin (- q)
  | PInf => NInf
  | NInf => PInf
  | NaN => NaN
  end.

Definition fadd (x y : float) : float :=
  match x, y with
  | NaN, _ | _, NaN => NaN
  | Fin a, Fin b => fin (a + b)
  | PInf, NInf | NInf, PInf => NaN
  | PInf, _ | _, PInf => PInf
  | NInf, _ | _, NInf => NInf
  end.

Definition fsub (x y : float) : float := fadd x (fneg y).

(** The infinity with the sign of [s] ([s] is -1, 0 or 1); NaN for 0. *)
Definition signed_inf (s : Z) : float :=
  match s with
  | Z0 => NaN
  | Zpos _ => PInf
  | Zneg _ => NInf
  end.

Definition fmul (x y : float) : float :=
  match x, y with
  | NaN, _ | _, NaN => NaN
  | Fin a, Fin b => fin (a * b)
  | Fin a, PInf | PInf, Fin a => signed_inf (Qsgn a)
  | Fin a, NInf | NInf, Fin a => signed_inf (- Qsgn a)
  | PInf, PInf | NInf, NInf => PInf
  | PInf, NInf | NInf, PInf => NInf
  end.

Definition fdiv (x y : float) : float :=
  match x, y with
  | NaN, _ | _, NaN => NaN
  | Fin a, Fin b =>
      if Qeqb b 0 then signed_inf (Qsgn a) else fin (a / b)
  | Fin _, (PInf | NInf) => F0
  | PInf, Fin b => if Qltb b 0 then NInf else PInf
  | NInf, Fin b => if Qltb b 0 then PInf else NInf
  | (PInf | NInf), (PInf | NInf) => NaN
  end.

Definition fabs (x : float) : float :=
  match x with
  | Fin q => fin (Qabs q)
  | PInf | NInf => PInf
  | NaN => NaN
  end.

(** Comparisons; each is false as soon as an operand is NaN. *)
Definition flt (x y : float) : bool :=
  match x, y with
  | NaN, _ | _, NaN => false
  | Fin a, Fin b => Qltb a b
  | _, NInf => false
  | NInf, _ => true
  | PInf, _ => false
  | _, PInf => true
  end.

Definition fle (x y : float) : bool :=
  match x, y with
  | NaN, _ | _, NaN => false
  | Fin a, Fin b => Qle_bool a b
  | NInf, _ => true
  | _, PInf => true
  | _, NInf => false
  | PInf, _ => false
  end.

Definition fgt (x y : float) : bool := flt y x.
Definition fge (x y : float) : bool := fle y x.

(** [np.maximum] and the minimum on values that are not NaN. *)
Definition fmax (x y : float) : float := if flt x y then y else x.
Definition fmin (x y : float) : float := if flt y x then y else x.

(** ** Dates *)

Definition date : Type := Z.

(** Day number of a civil date of the proleptic Gregorian calendar. *)
Definition ymd (y m d : Z) : date :=
  (let y' := if m <=? 2 then y - 1 else y in
   let era := y' / 400 in
   let yoe := y' - era * 400 in
   let mp := (m + 9) mod 12 in
   let doy := (153 * mp + 2) / 5 + d - 1 in
   let doe := yoe * 365 + yoe / 4 - yoe / 100 + doy in
   era * 146097 + doe - 719468)%Z.

(** Calendar year of a day number. *)
Definition year_of (z : date) : Z :=
  (let z' := z + 719468 in
   let era := z' / 146097 in
   let doe := z' - era * 146097 in
   let yoe := (doe - doe / 1460 + doe / 36524 - doe / 146096) / 365 in
   let doy := doe - (365 * yoe + yoe / 4 - yoe / 100) in
   let mp := (5 * doy + 2) / 153 in
   let m := if mp <? 10 then mp + 3 else mp - 9 in
   if m <=? 2 then yoe + era * 400 + 1 else yoe + era * 400)%Z.

(** ** Series *)

Definition Series (A : Type) : Type := list (date * A).

Definition index {A} (s : Series A) : list date := map fst s.
Definition values {A} (s : Series A) : list A := map snd s.

Definition smap {A B} (f : A -> B) (s : Series A) : Series B :=
  map (fun p => (fst p, f (snd p))) s.

(** Element-wise binary operation of two series on the same index. *)
Definition smap2 {A B C} (f : A -> B -> C) (s : Series A) (t : Series B)
  : Series C :=
  map (fun p => (fst (fst p), f (snd (fst p)) (snd (snd p)))) (combine s t).

(** ** Exceptions *)

(** The exceptions the engine raises itself, and those raised by the
    library calls it makes on degenerate data. *)
Inductive exn : Type :=
| ValueError_start_not_before_end
| RuntimeError_end_too_close_to_today
| RuntimeError_end_in_future
| RuntimeError_download_failed
| RuntimeError_no_data_from_start
| ValueError_negative_window
| ValueError_all_NaN
| IndexError
| KeyError
| ZeroDivisionError.

Definition result (A : Type) : Type := (exn + A)%type.

Definition ret {A} (a : A) : result A := inr a.
Definition raise {A} (e : exn) : result A := inl e.

Definition bind {A B} (m : result A) (k : A -> result B) : result B :=
  match m with
  | inl e => inl e
  | inr a => k a
  end.

Notation "x <- m ;; k" := (bind m (fun x => k))
  (at level 61, m at next level, right associativity).
Notation "' pat <- m ;; k" := (bind m (fun x => match x with pat => k end))
  (at level 61, pat pattern, m at next level, right associativity).

(** ** pandas operations *)

(** [s.iloc[0]] and [s.iloc[-1]]; [IndexError] on an empty series. *)
Definition iloc0 {A} (s : Series A) : result A :=
  match s with
  | [] => raise IndexError
  | (_, x) :: _ => ret x
  end.

Fixpoint iloc_last {A} (s : Series A) : result A :=
  match s with
  | [] => raise IndexError
  | [(_, x)] => ret x
  | _ :: s' => iloc_last s'
  end.

Definition index0 {A} (s : Series A) : result date :=
  match s with
  | [] => raise IndexError
  | (d, _) :: _ => ret d
  end.

Fixpoint index_last {A} (s : Series A) : result date :=
  match s with
  | [] => raise IndexError
  | [(d, _)] => ret d
  | _ :: s' => index_last s'
  end.

(** [s.shift(1)]: every value moves to the next label, the first is NaN. *)
Fixpoint shift_from (prev : float) (s : Series float) : Series float :=
  match s with
  | [] => []
  | (d, x) :: s' => (d, prev) :: shift_from x s'
  end.

Definition shift (s : Series float) : Series float := shift_from NaN s.

(** [s.pct_change(fill_method=None)], that is [s / s.shift(1) - 1]. *)
Definition pct_change (s : Series float) : Series float :=
  smap2 (fun x prev => fsub (fdiv x prev) F1) s (shift s).

Definition fillna0 (s : Series float) : Series float :=
  smap (fun x => if isnan x then F0 else x) s.

(** [s.replace([np.inf, -np.inf], np.nan)]. *)
Definition replace_inf_nan (s : Series float) : Series float :=
  smap (fun x => match x with PInf | NInf => NaN | _ => x end) s.

(** [s.ffill()] and [s.bfill()] on a list of values. *)
Fixpoint ffill_from (prev : float) (l : list float) : list float :=
  match l with
  | [] => []
  | x :: l' => let y := if isnan x then prev else x in y :: ffill_from y l'
  end.

Definition ffill_values (l : list float) : list float := ffill_from NaN l.

Definition sffill (s : Series float) : Series float :=
  combine (index s) (ffill_values (values s)).

(** Sum, and the NaN-skipping reductions [mean], [var] (with [ddof=1]),
    [min]. *)
Definition fsum (l : list float) : float := fold_right fadd F0 l.

Definition of_nat (n : nat) : float := of_Z (Z.of_nat n).

Definition dropna_values (l : list float) : list float := filter notna l.

Definition mean (l : list float) : float :=
  let xs := dropna_values l in
  fdiv (fsum xs) (of_nat (length xs)).

Definition var (l : list float) : float :=
  let xs := dropna_values l in
  if (length xs <=? 1)%nat then NaN
  else
    let m := mean xs in
    fdiv (fsum (map (fun x => fmul (fsub x m) (fsub x m)) xs))
         (of_nat (length xs - 1)).

Fixpoint min_from (best : float) (l : list float) : float :=
  match l with
  | [] => best
  | x :: l' =>
      if isnan x then min_from best l'
      else if isnan best then min_from x l'
      else min_from (fmin best x) l'
  end.

Definition smin (s : Series float) : float := min_from NaN (values s).

(** [s.idxmin()]: the label of the first occurrence of the minimum. *)
Fixpoint idxmin_from (best : option (date * float)) (s : Series float)
  : option (date * float) :=
  match s with
  | [] => best
  | (d, x) :: s' =>
      if isnan x then idxmin_from best s'
      else match best with
           | None => idxmin_from (Some (d, x)) s'
           | Some (_, b) =>
               if flt x b then idxmin_from (Some (d, x)) s'
               else idxmin_from best s'
           end
  end.

Definition idxmin (s : Series float) : result date :=
  match idxmin_from None s with
  | Some (d, _) => ret d
  | None => raise ValueError_all_NaN
  end.

(** [s.cumprod()] and [s.cummax()]: a NaN entry stays NaN and does not
    enter the running value. *)
Fixpoint cumprod_from (acc : float) (s : Series float) : Series float :=
  match s with
  | [] => []
  | (d, x) :: s' =>
      if isnan x then (d, NaN) :: cumprod_from acc s'
      else let a := fmul acc x in (d, a) :: cumprod_from a s'
  end.

Definition cumprod (s : Series float) : Series float := cumprod_from F1 s.

Fixpoint cummax_from (acc : float) (s : Series float) : Series float :=
  match s with
  | [] => []
  | (d, x) :: s' =>
      if isnan x then (d, NaN) :: cummax_from acc s'
      else let a := fmax acc x in (d, a) :: cummax_from a s'
  end.

Definition cummax (s : Series float) : Series float := cummax_from NInf s.

(** [s.rolling(w).f()]: at each label, [f] of the last [w] values when
    there are [w] of them and none is NaN ([min_periods] defaults to the
    window), NaN otherwise.  [hist] holds the values seen so far, the most
    recent first. *)
Definition window_apply (w : nat) (f : list float -> float)
  (hist : list float) : float :=
  let win := firstn w hist in
  if (length win <? w)%nat || existsb isnan win then NaN else f win.

Fixpoint rolling_from (w : nat) (f : list float -> float)
  (hist : list float) (s : Series float) : Series float :=
  match s with
  | [] => []
  | (d, x) :: s' =>
      (d, window_apply w f (x :: hist)) :: rolling_from w f (x :: hist) s'
  end.

(** A negative window is refused by [rolling]. *)
Definition rolling (w : Z) (f : list float -> float) (s : Series float)
  : result (Series float) :=
  if (w <? 0)%Z then raise ValueError_negative_window
  else ret (rolling_from (Z.to_nat w) f [] s).

(** Label slices and boolean masks. *)
Definition loc_from {A} (a : date) (s : Series A) : Series A :=
  filter (fun p => (a <=? fst p)%Z) s.

Definition loc_at {A} (a : date) (s : Series A) : option A :=
  option_map snd (find (fun p => (fst p =? a)%Z) s).

(** [target.loc[sel] = source.loc[sel]] for two series on the same index. *)
Definition loc_assign (sel : date -> bool) (target source : Series float)
  : Series float :=
  map (fun p => let d := fst (fst p) in
              (d, if sel d then snd (snd p) else snd (fst p)))
      (combine target source).

Definition first_valid_index (s : Series float) : option date :=
  option_map fst (find (fun p => notna (snd p)) s).

Definition last_valid_index (s : Series float) : option date :=
  first_valid_index (rev s).

(** ** Price tables *)

Inductive ticker : Type := GSPC | IXIC | NDX | QQQ | TQQQ | IAU | GCF.

Definition TICKERS : list ticker := [GSPC; IXIC; NDX; QQQ; TQQQ; IAU; GCF].

(** One row of the table of closing prices. *)
Record Row : Type := mkRow {
  row_date : date;
  p_GSPC : float;
  p_IXIC : float;
  p_NDX : float;
  p_QQQ : float;
  p_TQQQ : float;
  p_IAU : float;
  p_GCF : float
}.

Definition DataFrame : Type := list Row.

Definition price (t : ticker) (r : Row) : float :=
  match t with
  | GSPC => p_GSPC r
  | IXIC => p_IXIC r
  | NDX => p_NDX r
  | QQQ => p_QQQ r
  | TQQQ => p_TQQQ r
  | IAU => p_IAU r
  | GCF => p_GCF r
  end.

(** [close[t]] and [close.index]. *)
Definition column (t : ticker) (close : DataFrame) : Series float :=
  map (fun r => (row_date r, price t r)) close.

Definition df_index (close : DataFrame) : list date := map row_date close.

(** [df.ffill()] and [df.bfill()], column by column. *)
Definition fill_row (prev r : Row) : Row :=
  let fill t := if isnan (price t r) then price t prev else price t r in
  mkRow (row_date r) (fill GSPC) (fill IXIC) (fill NDX) (fill QQQ)
        (fill TQQQ) (fill IAU) (fill GCF).

Fixpoint ffill_rows (prev : Row) (df : DataFrame) : DataFrame :=
  match df with
  | [] => []
  | r :: df' => let r' := fill_row prev r in r' :: ffill_rows r' df'
  end.

Definition df_ffill (df : DataFrame) : DataFrame :=
  match df with
  | [] => []
  | r :: df' => r :: ffill_rows r df'
  end.

Definition df_bfill (df : DataFrame) : DataFrame := rev (df_ffill (rev df)).

(** ** Returns calculation *)

(** The label slices of [build_stock_returns]: whole calendar years
    ["y1":"y2"], from a year on ["y":], and from a day on. *)
Definition in_years (y1 y2 : Z) (d : date) : bool :=
  ((ymd y1 1 1 <=? d) && (d <? ymd (y2 + 1) 1 1))%Z.

Definition from_year (y : Z) (d : date) : bool := (ymd y 1 1 <=? d)%Z.

Definition from_day (a : date) (d : date) : bool := (a <=? d)%Z.

Definition upto_day (a : date) (d : date) : bool := (d <=? a)%Z.

(** [pd.Series(index=close.index, dtype=float)]: all NaN. *)
Definition empty_series (close : DataFrame) : Series float :=
  map (fun r => (row_date r, NaN)) close.

(** [s / s.iloc[0]]. *)
Definition rebase (s : Series float) : result (Series float) :=
  x0 <- iloc0 s ;;
  ret (smap (fun x => fdiv x x0) s).

(** [(1 + r).cumprod()]. *)
Definition compound (r : Series float) : Series float :=
  cumprod (smap (fadd F1) r).

(** The unleveraged return of the stock leg, stitched across eras
    ([r_series] after cleaning). *)
Definition stitch_stock_returns (close : DataFrame) : Series float :=
  let r_sp := pct_change (column GSPC close) in
  let r_ixic := pct_change (column IXIC close) in
  let r_ndx := pct_change (column NDX close) in
  let r_qqq := pct_change (column QQQ close) in
  let r_series := empty_series close in
  let r_series := loc_assign (in_years 1927 1970) r_series r_sp in
  let r_series := loc_assign (in_years 1971 1985) r_series r_ixic in
  let r_series := loc_assign (in_years 1986 1999) r_series r_ndx in
  let r_series := loc_assign (in_years 2000 2009) r_series r_qqq in
  let r_series := loc_assign (from_year 2010) r_series r_qqq in
  fillna0 (replace_inf_nan r_series).

(** [r_stock_3x]: leverage applied to the stitched return, then the
    leveraged fund's own return from 2010-01-01 on. *)
Definition leveraged_stock_returns (close : DataFrame) (leverage : float)
  : Series float :=
  let r_tqqq := pct_change (column TQQQ close) in
  let r_series := stitch_stock_returns close in
  let r_stock_3x := smap (fun r => fmul r leverage) r_series in
  loc_assign (from_day (ymd 2010 1 1)) r_stock_3x (fillna0 r_tqqq).

Definition build_stock_returns (close : DataFrame) (leverage : float)
  : result (Series float * Series float * Series float) :=
  let r_series := stitch_stock_returns close in
  stock_nav_1x <- rebase (compound r_series) ;;
  let r_stock_3x := leveraged_stock_returns close leverage in
  stock_nav <- rebase (compound r_stock_3x) ;;
  ret (r_stock_3x, stock_nav, stock_nav_1x).

(** [.loc[:a]] and [.loc[a:]] with [a] possibly [None], which leaves
    that side of the slice open. *)
Definition upto_opt (a : option date) (d : date) : bool :=
  match a with None => true | Some a => upto_day a d end.

Definition from_opt (a : option date) (d : date) : bool :=
  match a with None => true | Some a => from_day a d end.

(** [r_gold] after cleaning. *)
Definition gold_returns (close : DataFrame) : Series float :=
  let r_gold := empty_series close in
  let iau_start := first_valid_index (column IAU close) in
  let r_gold :=
    loc_assign (upto_opt iau_start) r_gold (pct_change (column GCF close)) in
  let r_gold :=
    loc_assign (from_opt iau_start) r_gold (pct_change (column IAU close)) in
  fillna0 (replace_inf_nan r_gold).

Definition build_gold_returns (close : DataFrame)
  : result (Series float * Series float) :=
  let r_gold := gold_returns close in
  gold_nav <- rebase (compound r_gold) ;;
  ret (r_gold, gold_nav).

(** ** Signal generation *)

Definition generate_signal (stock_nav : Series float) (ma_period : Z)
  : result (Series bool * Series float) :=
  ma <- rolling ma_period mean stock_nav ;;
  let signal := smap2 fgt (shift stock_nav) (shift ma) in
  ret (signal, ma).

(** ** Metrics calculation *)

(** The numpy operations whose results are not rational in general. *)
Record NumLib : Type := mkNumLib {
  np_sqrt : float -> float;
  np_pow : float -> float -> float
}.

(** [s.loc[a]] for a scalar; [KeyError] when the label is absent. *)
Definition loc_scalar {A} (a : date) (s : Series A) : result A :=
  match loc_at a s with
  | Some x => ret x
  | None => raise KeyError
  end.

(** [s.std()], with [ddof=1]. *)
Definition std (L : NumLib) (l : list float) : float := np_sqrt L (var l).

Definition calculate_cagr (L : NumLib) (nav : Series float) : result float :=
  d_last <- index_last nav ;;
  d_first <- index0 nav ;;
  let days := (d_last - d_first)%Z in
  let years := fdiv (of_Z days) (of_Z 365) in
  v_last <- iloc_last nav ;;
  v_first <- iloc0 nav ;;
  if (days =? 0)%Z then raise ZeroDivisionError
  else ret (fsub (np_pow L (fdiv v_last v_first) (fdiv F1 years)) F1).

Definition calculate_volatility (L : NumLib) (returns : Series float)
  : float :=
  fmul (std L (values returns)) (np_sqrt L (of_Z 252)).

Definition calculate_sharpe (L : NumLib) (returns : Series float) : float :=
  let vol := calculate_volatility L returns in
  if fgt vol F0
  then fdiv (fmul (mean (values returns)) (of_Z 252)) vol
  else NaN.

Definition calculate_sortino (L : NumLib) (returns : Series float) : float :=
  let negative := filter (fun x => flt x F0) (values returns) in
  let downside := fmul (std L negative) (np_sqrt L (of_Z 252)) in
  if fgt downside F0
  then fdiv (fmul (mean (values returns)) (of_Z 252)) downside
  else NaN.

Definition calculate_max_drawdown (nav : Series float) : float :=
  let high := cummax nav in
  let dd := smap2 (fun n h => fsub (fdiv n h) F1) nav high in
  smin dd.

Definition calculate_drawdown_series (nav : Series float) : Series float :=
  let high := cummax nav in
  smap2 (fun n h => fsub (fdiv n h) F1) nav high.

Definition calculate_recovery_days (nav : Series float)
  : result (option Z) :=
  let high := cummax nav in
  let dd := smap2 (fun n h => fsub (fdiv n h) F1) nav high in
  mdd_idx <- idxmin dd ;;
  let post_mdd := loc_from mdd_idx nav in
  high_at_mdd <- loc_scalar mdd_idx high ;;
  let recovered := filter (fun p => fge (snd p) high_at_mdd) post_mdd in
  match recovered with
  | (recovery_date, _) :: _ => ret (Some (recovery_date - mdd_idx)%Z)
  | [] => ret None
  end.

Definition calculate_rolling_sharpe (L : NumLib) (returns : Series float)
  (window : Z) : result (Series float) :=
  m <- rolling window mean returns ;;
  s <- rolling window (std L) returns ;;
  let rolling_mean := smap (fun x => fmul x (of_Z 252)) m in
  let rolling_std := smap (fun x => fmul x (np_sqrt L (of_Z 252))) s in
  let rolling_sharpe := smap2 fdiv rolling_mean rolling_std in
  ret (replace_inf_nan rolling_sharpe).

(** [(returns > 0).mean()]. *)
Definition calculate_win_rate (returns : Series float) : float :=
  let wins := filter (fun x => fgt x F0) (values returns) in
  fdiv (of_nat (length wins)) (of_nat (length returns)).

Definition calculate_calmar (cagr mdd : float) : float :=
  if flt mdd F0 then fdiv cagr (fabs mdd) else NaN.

Record Metrics : Type := mkMetrics {
  m_final_nav : float;
  m_cagr : float;
  m_volatility : float;
  m_sharpe : float;
  m_sortino : float;
  m_max_drawdown : float;
  m_win_rate : float;
  m_calmar : float;
  m_start_date : date;
  m_end_date : date
}.

Definition calculate_all_metrics (L : NumLib) (nav returns : Series float)
  : result Metrics :=
  cagr <- calculate_cagr L nav ;;
  let mdd := calculate_max_drawdown nav in
  final_nav <- iloc_last nav ;;
  start_date <- index0 nav ;;
  end_date <- index_last nav ;;
  ret (mkMetrics final_nav cagr
         (calculate_volatility L returns)
         (calculate_sharpe L returns)
         (calculate_sortino L returns)
         mdd
         (calculate_win_rate returns)
         (calculate_calmar cagr mdd)
         start_date end_date).

(** [nav.resample("YE").last()]: for every calendar year from the first
    to the last label, the last value of the year that is not NaN. *)
Definition last_valid_value (s : Series float) : float :=
  match find (fun p => notna (snd p)) (rev s) with
  | Some (_, x) => x
  | None => NaN
  end.

Definition years_between (y0 y1 : Z) : list Z :=
  map (fun k => (y0 + Z.of_nat k)%Z) (seq 0 (Z.to_nat (y1 - y0 + 1))).

Definition resample_year_end_last (nav : Series float) : list (Z * float) :=
  match nav with
  | [] => []
  | (d0, _) :: _ =>
      let d1 := last (index nav) d0 in
      map (fun y =>
             (y, last_valid_value
                   (filter (fun p => (year_of (fst p) =? y)%Z) nav)))
          (years_between (year_of d0) (year_of d1))
  end.

(** [annual_nav.pct_change().dropna()], in percent by year; the default
    [pct_change] first fills NaN forward. *)
Definition calculate_annual_returns (nav : Series float) : list (Z * float) :=
  let annual_nav := resample_year_end_last nav in
  let annual_ret := pct_change (sffill annual_nav) in
  map (fun p => (fst p, fmul (snd p) (of_Z 100)))
      (filter (fun p => notna (snd p)) annual_ret).

(** ** Data download with caching *)

Definition CACHE_TTL_HOURS : Z := 4.

(** A cache file: its modification time (seconds) and its content, [None]
    when it cannot be unpickled. *)
Record CacheFile : Type := mkCacheFile {
  mtime : Z;
  payload : option DataFrame
}.

(** The cache path is a digest of the pair of date strings; it is
    represented by the pair. *)
Definition CachePath : Type := (date * date)%type.

(** What one call of [yf.download] does: it raises, or returns a table
    (the ["Close"] prices), possibly empty. *)
Inductive Response : Type :=
| Raises
| Returns (raw : DataFrame).

Inductive event : Type :=
| EvCacheStat (path : CachePath)
| EvCacheRead (path : CachePath)
| EvFetch (start end_ : date)
| EvCacheWrite (path : CachePath)
| EvSleep (seconds : Z).

(** The environment of a run: the clock (seconds since the epoch), the
    cache directory, the answers the data provider will give to the next
    calls, and the trace of what was done, the latest event first. *)
Record World : Type := mkWorld {
  now : Z;
  cache : list (CachePath * CacheFile);
  network : list Response;
  trace : list event
}.

Definition log (e : event) (w : World) : World :=
  mkWorld (now w) (cache w) (network w) (e :: trace w).

(** [datetime.now().date()]. *)
Definition today (w : World) : date := (now w / 86400)%Z.

Definition _get_cache_path (start end_ : date) : CachePath := (start, end_).

Definition path_eqb (p q : CachePath) : bool :=
  ((fst p =? fst q) && (snd p =? snd q))%Z.

Definition cache_lookup (w : World) (path : CachePath) : option CacheFile :=
  option_map snd (find (fun e => path_eqb (fst e) path) (cache w)).

Definition _is_cache_valid (w : World) (cache_path : CachePath)
  : bool * World :=
  let w := log (EvCacheStat cache_path) w in
  match cache_lookup w cache_path with
  | None => (false, w)
  | Some f =>
      let age_hours := (inject_Z (now w - mtime f) / inject_Z 3600)%Q in
      (Qltb age_hours (inject_Z CACHE_TTL_HOURS), w)
  end.

(** [pickle.load] of the cache file; [None] when it raises. *)
Definition cache_load (w : World) (path : CachePath)
  : option DataFrame * World :=
  let w := log (EvCacheRead path) w in
  match cache_lookup w path with
  | Some f => (payload f, w)
  | None => (None, w)
  end.

Definition cache_write (w : World) (path : CachePath) (close : DataFrame)
  : World :=
  let entry := (path, mkCacheFile (now w) (Some close)) in
  let others := filter (fun e => negb (path_eqb (fst e) path)) (cache w) in
  mkWorld (now w) (entry :: others) (network w) (EvCacheWrite path :: trace w).

Definition yf_download (w : World) (start end_ : date) : Response * World :=
  let tr := EvFetch start end_ :: trace w in
  match network w with
  | [] => (Raises, mkWorld (now w) (cache w) [] tr)
  | r :: rest => (r, mkWorld (now w) (cache w) rest tr)
  end.

Definition sleep (seconds : Z) (w : World) : World :=
  mkWorld (now w + seconds) (cache w) (network w) (EvSleep seconds :: trace w).

Definition df_empty (df : DataFrame) : bool :=
  match df with [] => true | _ => false end.

(** The retry loop of [download_data]; [None] when every attempt failed. *)
Fixpoint download_attempts (attempts : nat) (cache_path : CachePath)
  (start end_ : date) (w : World) : option DataFrame * World :=
  match attempts with
  | O => (None, w)
  | S attempts' =>
      let (resp, w) := yf_download w start end_ in
      match resp with
      | Returns raw =>
          if negb (df_empty raw) then
            let close := df_bfill (df_ffill raw) in
            (Some close, cache_write w cache_path close)
          else download_attempts attempts' cache_path start end_ (sleep 2 w)
      | Raises =>
          download_attempts attempts' cache_path start end_ (sleep 2 w)
      end
  end.

Definition download_data (w : World) (start end_ : date) (max_retries : nat)
  : result DataFrame * World :=
  let today := today w in
  let end_date := end_ in
  let days_from_today := (today - end_date)%Z in
  let cache_path := _get_cache_path start end_ in
  let (valid, w) := _is_cache_valid w cache_path in
  let (cached, w) := if valid then cache_load w cache_path else (None, w) in
  match cached with
  | Some close => (ret close, w)
  | None =>
      let (fetched, w) :=
        download_attempts max_retries cache_path start end_ w in
      match fetched with
      | Some close => (ret close, w)
      | None =>
          if (days_from_today <=? 1)%Z
          then (raise RuntimeError_end_too_close_to_today, w)
          else if (days_from_today <? 0)%Z
          then (raise RuntimeError_end_in_future, w)
          else (raise RuntimeError_download_failed, w)
      end
  end.

(** ** Main backtest function *)

(** The availability of one ticker: its first and last valid dates, or
    no data. *)
Inductive availability : Type :=
| Available (first_ last_ : date)
| NoData.

Record BacktestResult : Type := mkBacktestResult {
  nav : Series float;
  metrics : Metrics;
  annual_returns : list (Z * float);
  sp500_annual_returns : list (Z * float);
  data_info : list (ticker * availability);
  stock_nav : Series float;
  stock_nav_1x : Series float;
  gold_nav : Series float;
  stock_ma : Series float;
  sp500_nav : Series float;
  signal : Series bool;
  drawdown_series : Series float;
  rolling_sharpe : Series float;
  recovery_days : option Z
}.

Definition EARLIEST_DATA_DATE : date := ymd 1927 1 1.
Definition EARLIEST_RECOMMENDED_START : date := ymd 1928 1 1.

(** The start of the visible window: the requested start, moved forward
    to [EARLIEST_RECOMMENDED_START] when earlier. *)
Definition effective_start (start : date) : date :=
  if (start <? EARLIEST_RECOMMENDED_START)%Z
  then EARLIEST_RECOMMENDED_START else start.

(** The start of the fetched window.  [int(ma_period * 1.5)] truncates
    towards zero. *)
Definition extended_start (user_start : date) (ma_period : Z) : date :=
  let extended := (user_start - (Z.quot (3 * ma_period) 2 + 30))%Z in
  if (extended <? EARLIEST_DATA_DATE)%Z then EARLIEST_DATA_DATE else extended.

(** [np.where(signal, r_stock, r_gold)] on the index of the table. *)
Definition np_where (c : Series bool) (a b : Series float) : Series float :=
  smap2 (fun (ca : bool * float) y => if fst ca then snd ca else y)
        (smap2 pair c a) b.

Definition describe_data (close : DataFrame) : list (ticker * availability) :=
  map (fun t =>
         (t, match first_valid_index (column t close),
                   last_valid_index (column t close) with
             | Some f, Some l => Available f l
             | _, _ => NoData
             end))
      TICKERS.

(** The series computed on the whole fetched table, before trimming. *)
Record FullSpan : Type := mkFullSpan {
  fs_r_strategy : Series float;
  fs_nav_full : Series float;
  fs_stock_nav : Series float;
  fs_stock_nav_1x : Series float;
  fs_gold_nav : Series float;
  fs_stock_ma : Series float;
  fs_signal : Series bool;
  fs_sp500_nav_full : Series float
}.

Definition full_span (close : DataFrame) (ma_period : Z) (leverage : float)
  : result FullSpan :=
  '(r_stock, stock_nav, stock_nav_1x) <- build_stock_returns close leverage ;;
  '(r_gold, gold_nav) <- build_gold_returns close ;;
  '(signal, stock_ma) <- generate_signal stock_nav ma_period ;;
  let r_strategy := np_where signal r_stock r_gold in
  let nav_full := compound r_strategy in
  let sp500_nav_full := compound (fillna0 (pct_change (column GSPC close))) in
  ret (mkFullSpan r_strategy nav_full stock_nav stock_nav_1x gold_nav
         stock_ma signal sp500_nav_full).

(** The first date of the table on or after [user_start]. *)
Definition find_actual_start (close : DataFrame) (user_start : date)
  : result date :=
  let valid_dates := filter (fun d => (user_start <=? d)%Z) (df_index close) in
  match valid_dates with
  | [] => raise RuntimeError_no_data_from_start
  | actual_start :: _ => ret actual_start
  end.

(** Trimming to the visible window, normalisation and the summary. *)
Definition trim_and_summarize (L : NumLib) (close : DataFrame)
  (fs : FullSpan) (actual_start : date) : result BacktestResult :=
  let nav := loc_from actual_start (fs_nav_full fs) in
  let r_strategy_trimmed := loc_from actual_start (fs_r_strategy fs) in
  let stock_nav := loc_from actual_start (fs_stock_nav fs) in
  let stock_nav_1x := loc_from actual_start (fs_stock_nav_1x fs) in
  let gold_nav := loc_from actual_start (fs_gold_nav fs) in
  let stock_ma := loc_from actual_start (fs_stock_ma fs) in
  let signal := loc_from actual_start (fs_signal fs) in
  let sp500_nav := loc_from actual_start (fs_sp500_nav_full fs) in
  stock_nav_scale <- iloc0 stock_nav ;;
  nav <- rebase nav ;;
  let stock_nav := smap (fun x => fdiv x stock_nav_scale) stock_nav in
  stock_nav_1x <- rebase stock_nav_1x ;;
  gold_nav <- rebase gold_nav ;;
  sp500_nav <- rebase sp500_nav ;;
  let stock_ma := smap (fun x => fdiv x stock_nav_scale) stock_ma in
  metrics <- calculate_all_metrics L nav r_strategy_trimmed ;;
  let annual_returns := calculate_annual_returns nav in
  let sp500_annual_returns := calculate_annual_returns sp500_nav in
  let data_info := describe_data close in
  let drawdown_series := calculate_drawdown_series nav in
  rolling_sharpe <- calculate_rolling_sharpe L (fs_r_strategy fs) 252 ;;
  recovery_days <- calculate_recovery_days nav ;;
  ret (mkBacktestResult nav metrics annual_returns sp500_annual_returns
         data_info stock_nav stock_nav_1x gold_nav stock_ma sp500_nav
         signal drawdown_series rolling_sharpe recovery_days).

(** The body of [run_backtest] once the table [close] is fetched. *)
Definition backtest_pipeline (L : NumLib) (close : DataFrame)
  (user_start : date) (ma_period : Z) (leverage : float)
  : result BacktestResult :=
  fs <- full_span close ma_period leverage ;;
  actual_start <- find_actual_start close user_start ;;
  trim_and_summarize L close fs actual_start.

Definition run_backtest (L : NumLib) (w : World) (start end_ : date)
  (ma_period : Z) (leverage : float) : result BacktestResult * World :=
  let user_start := start in
  let user_end := end_ in
  if (user_end <=? user_start)%Z
  then (raise ValueError_start_not_before_end, w)
  else
    let user_start := effective_start user_start in
    let extended_start := extended_start user_start ma_period in
    let (fetched, w) := download_data w extended_start end_ 3 in
    match fetched with
    | inl e => (inl e, w)
    | inr close =>
        (backtest_pipeline L close user_start ma_period leverage, w)
    end.

(** ** A numeric library for concrete runs

    Square roots and powers rounded down to a multiple of [2^-64]; powers
    with an integral exponent are exact.  The properties below hold for
    every [NumLib]; this one serves to evaluate the engine on examples. *)

(** The largest [r] in [[lo, hi)] with [r ^ k <= n]. *)
Fixpoint bisect_root (fuel : nat) (k n lo hi : Z) : Z :=
  match fuel with
  | O => lo
  | S fuel' =>
      if (hi - lo <=? 1)%Z then lo
      else
        let mid := ((lo + hi) / 2)%Z in
        if (mid ^ k <=? n)%Z then bisect_root fuel' k n mid hi
        else bisect_root fuel' k n lo mid
  end.

Definition iroot (k n : Z) : Z :=
  bisect_root (S (Z.to_nat (Z.log2_up (n + 1)))) k n 0 (n + 1).

Definition root_scale : Z := (2 ^ 64)%Z.

(** The [k]-th root of [q >= 0], for [k >= 1]. *)
Definition approx_root (k : Z) (q : Q) : Q :=
  let a := Qnum q in
  let b := Zpos (Qden q) in
  let r := iroot k (a * b ^ (k - 1) * root_scale ^ k) in
  Qred (Qmake r 1 / inject_Z (b * root_scale)).

Definition approx_sqrt (x : float) : float :=
  match x with
  | Fin q => if Qltb q 0 then NaN else Fin (approx_root 2 q)
  | PInf => PInf
  | NInf | NaN => NaN
  end.

(** [a ^ (p / d)] for finite operands. *)
Definition approx_pow_fin (a e : Q) : float :=
  let e := Qred e in
  let p := Qnum e in
  let d := Zpos (Qden e) in
  if (p =? 0)%Z then F1
  else if Qeqb a 0 then (if (0 <? p)%Z then F0 else PInf)
  else if Qltb a 0 && negb (d =? 1)%Z then NaN
  else
    let base := if (0 <? p)%Z then a else Qinv a in
    let powered := Qred (Qpower base (Z.abs p)) in
    if (d =? 1)%Z then Fin powered else Fin (approx_root d powered).

Definition approx_pow (x y : float) : float :=
  match x, y with
  | Fin a, Fin e => approx_pow_fin a e
  | _, Fin e => if Qeqb e 0 then F1
                else match x with
                     | PInf => if Qltb e 0 then F0 else PInf
                     | _ => NaN
                     end
  | Fin a, PInf =>
      if Qeqb (Qabs a) 1 then F1
      else if Qltb (Qabs a) 1 then F0 else PInf
  | Fin a, NInf =>
      if Qeqb (Qabs a) 1 then F1
      else if Qltb (Qabs a) 1 then PInf else F0
  | PInf, PInf | NInf, PInf => PInf
  | PInf, NInf | NInf, NInf => F0
  | _, NaN => match x with Fin a => if Qeqb a 1 then F1 else NaN | _ => NaN end
  | NaN, _ => NaN
  end.

Definition approx_lib : NumLib := mkNumLib approx_sqrt approx_pow.

(** ** Example price tables and environments *)

(** Noon of 2025-12-10, in seconds. *)
Definition example_now : Z := (ymd 2025 12 10 * 86400 + 43200)%Z.

(** An environment with an empty cache whose provider answers the first
    call with [raw]. *)
Definition fresh_world (raw : DataFrame) : World :=
  mkWorld example_now [] [Returns raw] [].

(** January and February 2020: every price is flat except the gold fund,
    which halves and recovers in the first week, and loses a tenth and
    recovers in February. *)
Definition table_2020 : DataFrame :=
  let row d iau := mkRow d (Fin 3300) (Fin 9000) (Fin 8800) (Fin 215)
                         (Fin 22) (Fin iau) (Fin 1550) in
  [ row (ymd 2020 1 6) 100;
    row (ymd 2020 1 7) 50;
    row (ymd 2020 1 8) 100;
    row (ymd 2020 1 9) 100;
    row (ymd 2020 1 10) 100;
    row (ymd 2020 2 10) 100;
    row (ymd 2020 2 11) 90;
    row (ymd 2020 2 21) 100;
    row (ymd 2020 2 24) 100 ].

(** The turn of 1927 to 1928, and a last row a year later: only the broad
    index has prices. *)
Definition table_1927 : DataFrame :=
  let row d sp := mkRow d (Fin sp) NaN NaN NaN NaN NaN NaN in
  [ row (ymd 1927 11 28) 17;
    row (ymd 1927 11 29) 17.1;
    row (ymd 1927 11 30) 17.2;
    row (ymd 1927 12 1) 17.3;
    row (ymd 1927 12 2) 17.2;
    row (ymd 1928 1 3) 17.6;
    row (ymd 1928 1 4) 17.5;
    row (ymd 1928 1 5) 17.7;
    row (ymd 1929 1 2) 24.8 ].

(** Early 2005, and a last row a year later: the technology fund halves
    on the second day.  The leveraged fund has no price in the period. *)
Definition table_2005 : DataFrame :=
  let row d sp qqq gcf := mkRow d (Fin sp) (Fin 2100) (Fin 1600) (Fin qqq)
                                NaN (Fin 42) (Fin gcf) in
  [ row (ymd 2005 1 4) 1190 40 428;
    row (ymd 2005 1 5) 1185 20 427;
    row (ymd 2005 1 6) 1187 20 422;
    row (ymd 2005 1 7) 1186 21 419;
    row (ymd 2005 1 10) 1190 22 420;
    row (ymd 2005 2 10) 1197 22 418;
    row (ymd 2005 2 11) 1205 23 422;
    row (ymd 2005 2 14) 1206 24 426;
    row (ymd 2006 2 10) 1266 26 552 ].

(** Around the first trading day of the leveraged fund (2010-02-11), as
    the provider returns it, and after the gaps are filled. *)
Definition table_2010_raw : DataFrame :=
  let row d qqq tqqq := mkRow d (Fin 1100) (Fin 2200) (Fin 1800) (Fin qqq)
                              tqqq (Fin 11) (Fin 1100) in
  [ row (ymd 2009 12 30) 45 NaN;
    row (ymd 2009 12 31) 46 NaN;
    row (ymd 2010 1 4) 46.5 NaN;
    row (ymd 2010 1 5) 46 NaN;
    row (ymd 2010 2 11) 44 (Fin 0.4);
    row (ymd 2010 2 12) 44.5 (Fin 0.41) ].

Definition table_2010 : DataFrame := df_bfill (df_ffill table_2010_raw).

(** The gold fund starts on the third day; the futures price is known
    throughout. *)
Definition table_gold : DataFrame :=
  let row d iau gcf := mkRow d (Fin 1200) (Fin 2050) (Fin 1500) (Fin 37)
                             NaN iau (Fin gcf) in
  [ row (ymd 2005 1 26) NaN 426;
    row (ymd 2005 1 27) NaN 427;
    row (ymd 2005 1 28) (Fin 42.6) 426;
    row (ymd 2005 1 31) (Fin 42.2) 422 ].

(** Two environments that hold the same fresh cache entry for the window
    of a run from 2020-02-10 to 2020-03-01 with a 5-day average; they
    differ in their clock and in what the provider would answer. *)
Definition warm_world_1 : World :=
  mkWorld example_now
          [((ymd 2020 1 4, ymd 2020 3 1),
            mkCacheFile (example_now - 3600) (Some table_2020))]
          [] [].

Definition warm_world_2 : World :=
  mkWorld (example_now + 7200)
          [((ymd 2020 1 4, ymd 2020 3 1),
            mkCacheFile (example_now - 3600) (Some table_2020))]
          [Returns table_2005] [EvSleep 2].

(** An environment whose provider raises on every call. *)
Definition offline_world : World := mkWorld example_now [] [] [].

(** ** Notions used to state the properties *)

(** The table a run reads from the cache: the entry under [path], when
    there is one, it is younger than the time to live at the clock of [w],
    and it can be unpickled. *)
Definition warm_cache_entry (w : World) (path : CachePath)
  : option DataFrame :=
  match cache_lookup w path with
  | Some f =>
      if Qltb (inject_Z (now w - mtime f) / inject_Z 3600)
              (inject_Z CACHE_TTL_HOURS)
      then payload f else None
  | None => None
  end.

(** The [w] values of [vals] that end at position [k], the latest first,
    and their mean: NaN when fewer than [w] values are available or one
    of them is NaN. *)
Definition trailing_window (w : nat) (vals : list float) (k : nat)
  : list float :=
  firstn w (rev (firstn (S k) vals)).

Definition trailing_mean (w : nat) (vals : list float) (k : nat) : float :=
  let win := trailing_window w vals k in
  if (length win <? w)%nat || existsb isnan win then NaN
  else fdiv (fsum win) (of_nat (length win)).

(** The value of the day before position [t]; NaN at the first position. *)
Definition prev_value (vals : list float) (t : nat) : float :=
  match t with
  | O => NaN
  | S k => nth k vals NaN
  end.

(** What [replace([inf, -inf], nan).fillna(0)] makes of a value. *)
Definition clean (x : float) : float :=
  match x with Fin q => Fin q | _ => F0 end.

(** [fillna(0)] on one value. *)
Definition fillna_0 (x : float) : float := if isnan x then F0 else x.

(** A number other than 0: the values [x] for which [x / x] is 1. *)
Definition finite_nonzero (x : float) : bool :=
  match x with
  | Fin q => negb (Qeqb q 0)
  | _ => false
  end.

(** The series [s] starts at the date [a]: its first label is [a] and
    none of its labels is before [a]. *)
Definition starts_at {A} (a : date) (s : Series A) : Prop :=
  index0 s = inr a /\ Forall (fun d => (a <= d)%Z) (index s).

(** [a] is the first date of [l] on or after [u]. *)
Definition first_date_from (l : list date) (u a : date) : Prop :=
  exists pre post,
    l = pre ++ a :: post /\ Forall (fun d => (d < u)%Z) pre /\ (u <= a)%Z.

(** [res] is the recovery time of the NAV series [nav]: the number of days
    from the date of the maximum drawdown (a date at which the drawdown
    series takes its minimum) to the first date, from that date on, at
    which the NAV is at least the running maximum it had on the date of
    the maximum drawdown; [None] when there is no such date. *)
Definition is_recovery_days (nav : Series float) (res : option Z) : Prop :=
  exists mdd_date peak,
    idxmin (calculate_drawdown_series nav) = inr mdd_date /\
    In (mdd_date, calculate_max_drawdown nav)
       (calculate_drawdown_series nav) /\
    loc_at mdd_date (cummax nav) = Some peak /\
    match res with
    | Some n =>
        exists before d v after,
          loc_from mdd_date nav = before ++ (d, v) :: after /\
          Forall (fun p => fge (snd p) peak = false) before /\
          fge v peak = true /\
          n = (d - mdd_date)%Z
    | None =>
        Forall (fun p => fge (snd p) peak = false) (loc_from mdd_date nav)
    end.

(** The recovery time computed on the whole fetched span, before
    trimming. *)
Definition full_span_recovery_days (close : DataFrame) (ma_period : Z)
  (leverage : float) : result (option Z) :=
  fs <- full_span close ma_period leverage ;;
  calculate_recovery_days (fs_nav_full fs).

(** ** Proof automation *)

(** From [H : (x <- m ;; k) = inr b], the value [a] that [m] returns, with
    [Ha : m = inr a], and [H : k a = inr b]. *)
Ltac inv_bind H :=
  let a := fresh "a" in
  let Ha := fresh "Ha" in
  let E := fresh "E" in
  match type of H with
  | bind ?m ?k = inr ?b =>
      assert (E : exists x, m = inr x /\ k x = inr b)
        by (revert H; destruct m; intros H;
            [discriminate H | eexists; split; [reflexivity | exact H]]);
      clear H; destruct E as [a [Ha H]]; cbv beta in H
  end.

(** ** The HTTP layer

    The handler of [Backtest/api.py].  Query parameters are taken as
    parsed; the JSON encoding of the response is not modelled. *)

(** [safe_value]: [None] for NaN and the infinities. *)
Definition safe_value (v : float) : option float :=
  if isnan v then None
  else match fabs v with
       | PInf => None
       | _ => Some v
       end.

(** Day of the week, Monday being 0, and the Sunday that closes the week
    of a date. *)
Definition weekday (d : date) : Z := ((d + 3) mod 7)%Z.

Definition week_label (d : date) : date := (d + (6 - weekday d))%Z.

Definition weeks_between (a b : date) : list date :=
  map (fun k => (a + 7 * Z.of_nat k)%Z) (seq 0 (Z.to_nat ((b - a) / 7 + 1))).

(** [s.resample("W").last()]: for every week from the first to the last
    label, closed by its Sunday, the last value of the week that is not
    NaN. *)
Definition resample_week_last (s : Series float) : Series float :=
  match s with
  | [] => []
  | (d0, _) :: _ =>
      let d1 := last (index s) d0 in
      map (fun lbl =>
             (lbl, last_valid_value
                     (filter (fun p => (week_label (fst p) =? lbl)%Z) s)))
          (weeks_between (week_label d0) (week_label d1))
  end.

(** A series as it is sent: weekly when it has more than 1000 points,
    each value through [safe_value], the points without a value
    dropped.  [scale] is applied to the values first (the drawdown is sent
    in percent). *)
Definition downsample (s : Series float) : Series float :=
  if (1000 <? length s)%nat then resample_week_last s else s.

Definition has_value (p : date * option float) : bool :=
  match snd p with Some _ => true | None => false end.

Definition chart_series (scale : float -> float) (s : Series float)
  : list (date * option float) :=
  let points :=
    map (fun p => (fst p, safe_value (scale (snd p)))) (downsample s) in
  filter has_value points.

(** A period in which the signal keeps one value. *)
Record Zone : Type := mkZone {
  zone_start : date;
  zone_end : date;
  is_stock : bool
}.

(** The loop over the signal: a zone is closed at every date where the
    signal changes, and the last one at the last date. *)
Fixpoint zones_loop (current_signal : bool) (zone_start last_date : date)
  (items : Series bool) : list Zone :=
  match items with
  | [] => [mkZone zone_start last_date current_signal]
  | (d, sig) :: rest =>
      if negb (Bool.eqb sig current_signal)
      then mkZone zone_start d current_signal
           :: zones_loop sig d last_date rest
      else zones_loop current_signal zone_start last_date rest
  end.

Definition signal_zones (signal_data : Series bool) : list Zone :=
  match signal_data with
  | [] => []
  | (d0, s0) :: _ => zones_loop s0 d0 (last (index signal_data) d0) signal_data
  end.

Inductive bad_request : Type :=
| ma_period_out_of_range
| leverage_out_of_range.

Record ChartPayload : Type := mkChartPayload {
  c_metrics : Metrics;
  c_recovery_days : option Z;
  c_annual_returns : list (Z * float);
  c_sp500_annual_returns : list (Z * float);
  c_nav_series : list (date * option float);
  c_stock_series : list (date * option float);
  c_stock_1x_series : list (date * option float);
  c_gold_series : list (date * option float);
  c_ma_series : list (date * option float);
  c_sp500_series : list (date * option float);
  c_signal_zones : list Zone;
  c_drawdown_series : list (date * option float);
  c_rolling_sharpe_series : list (date * option float);
  c_data_info : list (ticker * availability);
  c_parameters : date * date * Z * float
}.

Inductive HttpResponse : Type :=
| Ok200 (body : ChartPayload)
| Error400 (why : bad_request)
| Error500 (e : exn).

(** The stock, unleveraged stock and gold series are downsampled
    together, on the length of the stock series. *)
Definition chart_series_as (reference s : Series float)
  : list (date * option float) :=
  let data := if (1000 <? length reference)%nat
              then resample_week_last s else s in
  filter has_value (map (fun p => (fst p, safe_value (snd p))) data).

Definition to_payload (r : BacktestResult) (start end_ : date)
  (ma_period : Z) (leverage : float) : ChartPayload :=
  mkChartPayload
    (metrics r) (recovery_days r)
    (annual_returns r) (sp500_annual_returns r)
    (chart_series (fun v => v) (nav r))
    (chart_series_as (stock_nav r) (stock_nav r))
    (chart_series_as (stock_nav r) (stock_nav_1x r))
    (chart_series_as (stock_nav r) (gold_nav r))
    (chart_series (fun v => v) (stock_ma r))
    (chart_series (fun v => v) (sp500_nav r))
    (signal_zones (signal r))
    (chart_series (fun v => fmul v (of_Z 100)) (drawdown_series r))
    (chart_series (fun v => v) (rolling_sharpe r))
    (data_info r)
    (start, end_, ma_period, leverage).

Definition backtest_endpoint (L : NumLib) (w : World) (start end_ : date)
  (ma_period : Z) (leverage : float) : HttpResponse * World :=
  if ((ma_period <? 5) || (500 <? ma_period))%Z
  then (Error400 ma_period_out_of_range, w)
  else if flt leverage (of_Z 1) || fgt leverage (of_Z 5)
  then (Error400 leverage_out_of_range, w)
  else
    let (res, w) := run_backtest L w start end_ ma_period leverage in
    match res with
    | inr r => (Ok200 (to_payload r start end_ ma_period leverage), w)
    | inl e => (Error500 e, w)
    end.

(** ** Further notions used to state the properties *)

(** The instrument whose percent change is the unleveraged stock return
    on a date; none before 1927. *)
Definition era_ticker (d : date) : option ticker :=
  if (d <? ymd 1927 1 1)%Z then None
  else if (d <? ymd 1971 1 1)%Z then Some GSPC
  else if (d <? ymd 1986 1 1)%Z then Some IXIC
  else if (d <? ymd 2000 1 1)%Z then Some NDX
  else Some QQQ.


(** A finite value above 0. *)
Definition positive_finite (x : float) : bool :=
  match x with
  | Fin q => Qltb 0 q
  | _ => false
  end.

(** A running maximum that is not a negative number: a number that is at
    least 0, or an infinity. *)
Definition nonneg_or_inf (x : float) : bool :=
  match x with
  | Fin q => Qle_bool 0 q
  | PInf | NInf => true
  | NaN => false
  end.

(** Zones that follow one another: each ends on the date the next one
    starts, and their allocations alternate. *)
Fixpoint zones_chained (zs : list Zone) : Prop :=
  match zs with
  | z1 :: ((z2 :: _) as rest) =>
      zone_end z1 = zone_start z2 /\
      is_stock z2 = negb (is_stock z1) /\
      zones_chained rest
  | _ => True
  end.

(** The series of a response. *)
Definition payload_series (c : ChartPayload)
  : list (list (date * option float)) :=
  [c_nav_series c; c_stock_series c; c_stock_1x_series c; c_gold_series c;
   c_ma_series c; c_sp500_series c; c_drawdown_series c;
   c_rolling_sharpe_series c].

(** In the goal, every date constant by its day number. *)
Ltac eval_dates :=
  repeat match goal with
         | |- context [ymd ?y ?m ?d] =>
             let v := eval vm_compute in (ymd y m d) in
             change (ymd y m d) with v
         end.

(** * Properties *)

Unset Implicit Arguments.
Local Open Scope nat_scope.

(** ** Fetching *)

Lemma is_cache_valid_cache w path :
  cache (snd (_is_cache_valid w path)) = cache w /\
  now (snd (_is_cache_valid w path)) = now w.
Proof.
  unfold _is_cache_valid, cache_lookup; simpl.
  destruct (find _ (cache w)); simpl; auto.
Qed.

(** Reading a warm entry returns its table and leaves the cache as it
    is. *)
Lemma download_data_warm w start end_ n close :
  warm_cache_entry w (_get_cache_path start end_) = Some close ->
  fst (download_data w start end_ n) = inr close /\
  cache (snd (download_data w start end_ n)) = cache w.
Proof.
  unfold warm_cache_entry, download_data, _is_cache_valid, cache_load,
    cache_lookup; simpl.
  destruct (find _ (cache w)) as [[p f] |] eqn:Hfind; simpl; [| discriminate].
  destruct (Qltb _ _) eqn:Hage; [| discriminate].
  simpl. rewrite Hfind; simpl.
  intros ->; simpl; auto.
Qed.

(** C8.  When the requested start is on or after the requested end, the
    run raises the parameter error and the environment is left exactly as
    it was: nothing is appended to the trace, so no fetch, cache read or
    cache write takes place, and the cache and the provider are
    untouched. *)
Theorem run_backtest_rejects_unordered_dates :
  forall (L : NumLib) (w : World) (start end_ : date) (ma_period : Z)
         (leverage : float),
    (end_ <= start)%Z ->
    run_backtest L w start end_ ma_period leverage
    = (inl ValueError_start_not_before_end, w).
Proof.
  intros L w start end_ ma_period leverage Hle.
  unfold run_backtest.
  destruct (Z.leb_spec end_ start) as [_ | Hlt]; [reflexivity | lia].
Qed.

Lemma run_backtest_rejects_unordered_dates_witness :
  (ymd 2020 1 1 <= ymd 2024 12 1)%Z /\
  run_backtest approx_lib (fresh_world table_2020)
               (ymd 2024 12 1) (ymd 2020 1 1) 200 (Fin 3)
  = (inl ValueError_start_not_before_end, fresh_world table_2020).
Proof.
  split.
  - vm_compute; discriminate.
  - apply run_backtest_rejects_unordered_dates. vm_compute; discriminate.
Defined.

(** The branch of [download_data] that reports an end date in the future
    is never taken: a negative [days_from_today] is at most 1. *)
Lemma download_data_never_reports_future w start end_ n :
  fst (download_data w start end_ n) <> inl RuntimeError_end_in_future.
Proof.
  unfold download_data.
  destruct (_is_cache_valid w _) as [valid w1].
  destruct (if valid then _ else _) as [[close |] w2]; simpl; [discriminate |].
  destruct (download_attempts _ _ _ _ _) as [[close |] w3]; simpl;
    [discriminate |].
  destruct (Z.leb_spec (today w - end_) 1) as [Hle | Hgt]; simpl;
    [discriminate |].
  destruct (Z.ltb_spec (today w - end_) 0) as [Hlt | Hge]; simpl;
    [lia | discriminate].
Qed.

(** C5.  With the provider failing on every attempt and an end date five
    weeks after today, [download_data] raises the error of the
    data-lag case, not the error for an end date in the future. *)
Theorem download_data_future_end_reports_lag :
  (today offline_world < ymd 2026 1 15)%Z /\
  fst (download_data offline_world (ymd 2025 1 1) (ymd 2026 1 15) 3)
  = inl RuntimeError_end_too_close_to_today.
Proof.
  split; vm_compute; reflexivity.
Qed.

(** Runs on a warm cache.  Two runs with the same parameters that both
    find the same table in a warm cache entry return the same result,
    whatever else differs between their environments (clock, other cache
    entries, provider, trace): neither calls the provider, the result is
    [backtest_pipeline] applied to the cached table and the parameters,
    and the run leaves the cache as it found it. *)
Theorem run_backtest_warm_cache_deterministic :
  forall (L : NumLib) (w1 w2 : World) (start end_ : date) (ma_period : Z)
         (leverage : float) (close : DataFrame),
    let path :=
      _get_cache_path (extended_start (effective_start start) ma_period)
                      end_ in
    warm_cache_entry w1 path = Some close ->
    warm_cache_entry w2 path = Some close ->
    fst (run_backtest L w1 start end_ ma_period leverage)
    = fst (run_backtest L w2 start end_ ma_period leverage) /\
    ((start < end_)%Z ->
     fst (run_backtest L w1 start end_ ma_period leverage)
     = backtest_pipeline L close (effective_start start) ma_period leverage) /\
    cache (snd (run_backtest L w1 start end_ ma_period leverage)) = cache w1.
Proof.
  intros L w1 w2 start end_ ma_period leverage close path H1 H2.
  unfold run_backtest.
  destruct (Z.leb_spec end_ start) as [Hle | Hlt].
  - simpl. split; [reflexivity |]. split; [intros; lia | reflexivity].
  - destruct (download_data_warm w1 _ _ 3 _ H1) as [E1 C1].
    destruct (download_data_warm w2 _ _ 3 _ H2) as [E2 _].
    destruct (download_data w1 _ end_ 3) as [f1 w1'].
    destruct (download_data w2 _ end_ 3) as [f2 w2'].
    simpl in *. subst f1 f2. simpl. auto.
Qed.

Lemma run_backtest_warm_cache_deterministic_witness :
  warm_cache_entry warm_world_1 (ymd 2020 1 4, ymd 2020 3 1)
  = Some table_2020 /\
  warm_cache_entry warm_world_2 (ymd 2020 1 4, ymd 2020 3 1)
  = Some table_2020 /\
  fst (run_backtest approx_lib warm_world_1 (ymd 2020 2 10) (ymd 2020 3 1)
                    5 (Fin 3))
  = fst (run_backtest approx_lib warm_world_2 (ymd 2020 2 10) (ymd 2020 3 1)
                      5 (Fin 3)).
Proof.
  split; [vm_compute; reflexivity |].
  split; [vm_compute; reflexivity |].
  apply (run_backtest_warm_cache_deterministic approx_lib warm_world_1
           warm_world_2 (ymd 2020 2 10) (ymd 2020 3 1) 5 (Fin 3)
           table_2020); vm_compute; reflexivity.
Defined.

(** ** Series: index, length and positions *)

Lemma index_length {A} (s : Series A) : length (index s) = length s.
Proof. apply length_map. Qed.

Lemma values_length {A} (s : Series A) : length (values s) = length s.
Proof. apply length_map. Qed.

Lemma series_nth_error {A} (s : Series A) (t : nat) (d0 : date) (a0 : A) :
  t < length s ->
  nth_error s t = Some (nth t (index s) d0, nth t (values s) a0).
Proof.
  revert t; induction s as [| [d a] s IH]; intros t Ht; simpl in *.
  - lia.
  - destruct t as [| t]; simpl; [reflexivity | apply IH; lia].
Qed.

Lemma index_smap {A B} (f : A -> B) (s : Series A) :
  index (smap f s) = index s.
Proof.
  unfold index, smap. rewrite map_map. apply map_ext. reflexivity.
Qed.

Lemma values_smap {A B} (f : A -> B) (s : Series A) :
  values (smap f s) = map f (values s).
Proof.
  unfold values, smap. rewrite !map_map. apply map_ext. reflexivity.
Qed.

Lemma index_smap2 {A B C} (f : A -> B -> C) (s : Series A) (t : Series B) :
  length s = length t -> index (smap2 f s t) = index s.
Proof.
  unfold index, smap2. rewrite map_map. simpl.
  revert t; induction s as [| [d a] s IH]; intros [| [e b] t] H; simpl in *;
    try discriminate; try reflexivity.
  f_equal. apply IH. lia.
Qed.

Lemma values_smap2_nth {A B C} (f : A -> B -> C) (s : Series A)
  (t : Series B) (k : nat) (a0 : A) (b0 : B) (c0 : C) :
  length s = length t -> k < length s ->
  nth k (values (smap2 f s t)) c0
  = f (nth k (values s) a0) (nth k (values t) b0).
Proof.
  unfold values, smap2. rewrite map_map. simpl.
  revert t k; induction s as [| [d a] s IH]; intros [| [e b] t] k H Hk;
    simpl in *; try discriminate; try lia.
  destruct k as [| k]; [reflexivity | apply IH; lia].
Qed.

Lemma index_shift_from (p : float) (s : Series float) :
  index (shift_from p s) = index s.
Proof.
  revert p; induction s as [| [d x] s IH]; intros p; simpl;
    [reflexivity | f_equal; apply IH].
Qed.

Lemma values_shift_from_nth (p : float) (s : Series float) (t : nat) :
  t < length s ->
  nth t (values (shift_from p s)) NaN
  = match t with O => p | S k => nth k (values s) NaN end.
Proof.
  revert p t; induction s as [| [d x] s IH]; intros p t Ht; simpl in *.
  - lia.
  - destruct t as [| t]; [reflexivity |].
    rewrite IH by lia. destruct t; reflexivity.
Qed.

Lemma values_shift_nth (s : Series float) (t : nat) :
  t < length s -> nth t (values (shift s)) NaN = prev_value (values s) t.
Proof.
  intros Ht. unfold shift. rewrite values_shift_from_nth by exact Ht.
  destruct t; reflexivity.
Qed.

Lemma index_rolling_from w f hist (s : Series float) :
  index (rolling_from w f hist s) = index s.
Proof.
  revert hist; induction s as [| [d x] s IH]; intros hist; simpl;
    [reflexivity | f_equal; apply IH].
Qed.

Lemma values_rolling_from_nth w f hist (s : Series float) (k : nat) :
  k < length s ->
  nth k (values (rolling_from w f hist s)) NaN
  = window_apply w f (rev (firstn (S k) (values s)) ++ hist).
Proof.
  revert hist k; induction s as [| [d x] s IH]; intros hist k Hk; simpl in *.
  - lia.
  - destruct k as [| k].
    + reflexivity.
    + rewrite IH by lia. f_equal.
      simpl. rewrite <- !app_assoc. reflexivity.
Qed.

Lemma dropna_values_id (l : list float) :
  existsb isnan l = false -> dropna_values l = l.
Proof.
  induction l as [| x l IH]; simpl; [reflexivity |].
  unfold notna. destruct (isnan x); simpl; [discriminate |].
  intros H. f_equal. apply IH, H.
Qed.

(** The rolling mean of the code is the trailing mean. *)
Lemma rolling_mean_nth (w : nat) (s : Series float) (k : nat) :
  k < length s ->
  nth k (values (rolling_from w mean [] s)) NaN
  = trailing_mean w (values s) k.
Proof.
  intros Hk. rewrite values_rolling_from_nth by exact Hk.
  rewrite app_nil_r. unfold window_apply, trailing_mean, trailing_window.
  destruct (_ || _) eqn:E; [reflexivity |].
  apply orb_false_elim in E. destruct E as [_ E].
  unfold mean. rewrite (dropna_values_id _ E). reflexivity.
Qed.



(** ** Signal generation *)

Lemma generate_signal_eq (stock_nav : Series float) (ma_period : Z) :
  (0 <= ma_period)%Z ->
  generate_signal stock_nav ma_period
  = inr (smap2 fgt (shift stock_nav)
               (shift (rolling_from (Z.to_nat ma_period) mean [] stock_nav)),
         rolling_from (Z.to_nat ma_period) mean [] stock_nav).
Proof.
  intros H. unfold generate_signal, rolling.
  destruct (Z.ltb_spec ma_period 0); [lia | reflexivity].
Qed.

Lemma length_rolling_from w f hist (s : Series float) :
  length (rolling_from w f hist s) = length s.
Proof.
  rewrite <- (index_length (rolling_from w f hist s)), index_rolling_from.
  apply index_length.
Qed.

Lemma length_shift (s : Series float) : length (shift s) = length s.
Proof.
  unfold shift. rewrite <- (index_length (shift_from NaN s)), index_shift_from.
  apply index_length.
Qed.

(** The value of the signal at position [t], from the NAV values alone. *)
Lemma signal_value (w : nat) (s : Series float) (t : nat) :
  t < length s ->
  nth t (values (smap2 fgt (shift s) (shift (rolling_from w mean [] s))))
      false
  = fgt (prev_value (values s) t)
        (prev_value (values (rolling_from w mean [] s)) t).
Proof.
  intros Ht.
  rewrite (values_smap2_nth fgt _ _ t NaN NaN false).
  - rewrite !values_shift_nth; [reflexivity | | exact Ht].
    rewrite length_rolling_from. exact Ht.
  - rewrite !length_shift, length_rolling_from. reflexivity.
  - rewrite length_shift. exact Ht.
Qed.





(** ** Returns calculation *)

Lemma index_column (t : ticker) (close : DataFrame) :
  index (column t close) = df_index close.
Proof.
  unfold index, column, df_index. rewrite map_map. reflexivity.
Qed.

Lemma length_column (t : ticker) (close : DataFrame) :
  length (column t close) = length close.
Proof. apply length_map. Qed.

Lemma index_empty_series (close : DataFrame) :
  index (empty_series close) = df_index close.
Proof.
  unfold index, empty_series, df_index. rewrite map_map. reflexivity.
Qed.

Lemma length_smap {A B} (f : A -> B) (s : Series A) :
  length (smap f s) = length s.
Proof. apply length_map. Qed.

Lemma length_smap2 {A B C} (f : A -> B -> C) (s : Series A) (t : Series B) :
  length s = length t -> length (smap2 f s t) = length s.
Proof.
  intros H. rewrite <- (index_length (smap2 f s t)), index_smap2 by exact H.
  apply index_length.
Qed.

Lemma index_pct_change (s : Series float) : index (pct_change s) = index s.
Proof.
  unfold pct_change. apply index_smap2. symmetry. apply length_shift.
Qed.

Lemma length_pct_change (s : Series float) :
  length (pct_change s) = length s.
Proof.
  rewrite <- (index_length (pct_change s)), index_pct_change.
  apply index_length.
Qed.

Lemma values_pct_change_nth (s : Series float) (k : nat) :
  k < length s ->
  nth k (values (pct_change s)) NaN
  = fsub (fdiv (nth k (values s) NaN) (prev_value (values s) k)) F1.
Proof.
  intros Hk. unfold pct_change.
  rewrite (values_smap2_nth _ _ _ k NaN NaN NaN).
  - rewrite values_shift_nth by exact Hk. reflexivity.
  - symmetry. apply length_shift.
  - exact Hk.
Qed.

Lemma index_loc_assign sel (target source : Series float) :
  length target = length source ->
  index (loc_assign sel target source) = index target.
Proof.
  unfold index, loc_assign. rewrite map_map. simpl.
  revert source; induction target as [| [d a] s IH]; intros [| [e b] t] H;
    simpl in *; try discriminate; try reflexivity.
  f_equal. apply IH. lia.
Qed.

Lemma length_loc_assign sel (target source : Series float) :
  length target = length source ->
  length (loc_assign sel target source) = length target.
Proof.
  intros H. rewrite <- (index_length (loc_assign _ _ _)), index_loc_assign
    by exact H.
  apply index_length.
Qed.

Lemma values_loc_assign_nth sel (target source : Series float) (k : nat) :
  length target = length source -> k < length target ->
  nth k (values (loc_assign sel target source)) NaN
  = if sel (nth k (index target) 0%Z)
    then nth k (values source) NaN
    else nth k (values target) NaN.
Proof.
  unfold values, index, loc_assign. rewrite map_map. simpl.
  revert source k; induction target as [| [d a] s IH];
    intros [| [e b] t] k H Hk; simpl in *; try discriminate; try lia.
  destruct k as [| k]; [reflexivity | apply IH; lia].
Qed.

Lemma values_smap_nth {A B} (f : A -> B) (s : Series A) (k : nat)
  (a0 : A) (b0 : B) :
  k < length s -> nth k (values (smap f s)) b0 = f (nth k (values s) a0).
Proof.
  intros Hk. rewrite values_smap.
  rewrite (nth_indep _ b0 (f a0)) by (rewrite length_map, values_length; lia).
  apply map_nth.
Qed.

Lemma values_clean_nth (s : Series float) (k : nat) :
  k < length s ->
  nth k (values (fillna0 (replace_inf_nan s))) NaN
  = clean (nth k (values s) NaN).
Proof.
  intros Hk. unfold fillna0, replace_inf_nan.
  rewrite (values_smap_nth _ _ k NaN NaN)
    by (rewrite length_smap; exact Hk).
  rewrite (values_smap_nth _ _ k NaN NaN) by exact Hk.
  destruct (nth k (values s) NaN); reflexivity.
Qed.

Lemma index_clean (s : Series float) :
  index (fillna0 (replace_inf_nan s)) = index s.
Proof. unfold fillna0, replace_inf_nan. rewrite !index_smap. reflexivity. Qed.

(** The first valid label of a series: its position, and the NaN before
    it. *)
Lemma first_valid_index_spec (s : Series float) (d : date) :
  first_valid_index s = Some d ->
  exists i, i < length s /\
            nth i (index s) 0%Z = d /\
            isnan (nth i (values s) NaN) = false /\
            forall j, j < i -> nth j (values s) NaN = NaN.
Proof.
  unfold first_valid_index.
  induction s as [| [e x] s IH]; simpl; [discriminate |].
  unfold notna at 1; simpl.
  destruct (isnan x) eqn:Hx; simpl.
  - intros H. destruct (IH H) as (i & Hi & Hd & Hv & Hpre).
    exists (S i). repeat split; simpl; try assumption; try lia.
    intros [| j] Hj; simpl.
    + destruct x; try discriminate; reflexivity.
    + apply Hpre. lia.
  - intros [= <-]. exists 0. repeat split; simpl; try assumption; try lia.
Qed.

Lemma index_cumprod_from acc (s : Series float) :
  index (cumprod_from acc s) = index s.
Proof.
  revert acc; induction s as [| [d x] s IH]; intros acc; simpl;
    [reflexivity |].
  destruct (isnan x); simpl; f_equal; apply IH.
Qed.

Lemma index_compound (r : Series float) : index (compound r) = index r.
Proof.
  unfold compound, cumprod. rewrite index_cumprod_from. apply index_smap.
Qed.

Lemma rebase_inr (s : Series float) :
  s <> [] ->
  exists x0, iloc0 s = inr x0 /\ rebase s = inr (smap (fun x => fdiv x x0) s).
Proof.
  destruct s as [| [d x] s]; [congruence |].
  intros _. exists x. split; reflexivity.
Qed.

Lemma index_nonempty {A} (s : Series A) : index s <> [] -> s <> [].
Proof. destruct s; simpl; congruence. Qed.

Lemma index_gold_returns (close : DataFrame) :
  index (gold_returns close) = df_index close.
Proof.
  unfold gold_returns. rewrite index_clean.
  rewrite !index_loc_assign.
  - apply index_empty_series.
  - rewrite length_pct_change, length_column. apply length_map.
  - rewrite length_loc_assign;
      rewrite length_pct_change, length_column; unfold empty_series;
      rewrite length_map; reflexivity.
Qed.

Lemma fdiv_nan_r (x : float) : fdiv x NaN = NaN.
Proof. destruct x; reflexivity. Qed.

(** The gold return on the first valid date of the gold fund is the
    cleaned percent change of the fund, which is undefined there. *)
Lemma gold_returns_at_first_valid (close : DataFrame) (iau_start : date)
  (i : nat) :
  first_valid_index (column IAU close) = Some iau_start ->
  i < length close ->
  nth i (df_index close) 0%Z = iau_start ->
  (forall j, j < i -> nth j (values (column IAU close)) NaN = NaN) ->
  nth i (values (gold_returns close)) NaN = F0.
Proof.
  intros Hfirst Hi Hd Hpre.
  unfold gold_returns. rewrite Hfirst.
  assert (Hlen0 : length (empty_series close) = length close)
    by apply length_map.
  assert (Hlen1 :
    length (loc_assign (upto_opt (Some iau_start)) (empty_series close)
              (pct_change (column GCF close))) = length close).
  { rewrite length_loc_assign; [exact Hlen0 |].
    rewrite length_pct_change, length_column. exact Hlen0. }
  rewrite values_clean_nth
    by (rewrite length_loc_assign;
        rewrite ?length_pct_change, ?length_column; lia).
  rewrite values_loc_assign_nth
    by (rewrite ?length_pct_change, ?length_column; lia).
  rewrite index_loc_assign
    by (rewrite length_pct_change, length_column; exact Hlen0).
  rewrite index_empty_series, Hd.
  unfold from_opt, from_day. rewrite Z.leb_refl.
  rewrite values_pct_change_nth by (rewrite length_column; exact Hi).
  replace (prev_value (values (column IAU close)) i) with NaN.
  - rewrite fdiv_nan_r. reflexivity.
  - destruct i as [| j]; [reflexivity |]. simpl. symmetry. apply Hpre. lia.
Qed.

(** C10.  In a table with distinct dates in which the gold fund has a
    first valid date, [build_gold_returns] returns, and the gold return it
    assigns to that date is exactly 0. *)
Theorem gold_return_zero_at_first_valid_date :
  forall (close : DataFrame) (iau_start : date),
    first_valid_index (column IAU close) = Some iau_start ->
    NoDup (df_index close) ->
    exists r_gold gold_nav,
      build_gold_returns close = inr (r_gold, gold_nav) /\
      index r_gold = df_index close /\
      loc_at iau_start r_gold = Some F0 /\
      forall v, In (iau_start, v) r_gold -> v = F0.
Proof.
  intros close iau_start Hfirst Hnodup.
  destruct (first_valid_index_spec _ _ Hfirst) as (i & Hi & Hd & _ & Hpre).
  rewrite length_column in Hi. rewrite index_column in Hd.
  pose proof (gold_returns_at_first_valid close iau_start i Hfirst Hi Hd Hpre)
    as Hzero.
  pose proof (index_gold_returns close) as Hidx.
  assert (Hlen : length (gold_returns close) = length close).
  { rewrite <- (index_length (gold_returns close)), Hidx. apply length_map. }
  assert (Hne : compound (gold_returns close) <> []).
  { apply index_nonempty. rewrite index_compound, Hidx.
    destruct close; simpl in *; [lia | congruence]. }
  destruct (rebase_inr _ Hne) as (x0 & _ & Hreb).
  exists (gold_returns close), (smap (fun x => fdiv x x0)
                                  (compound (gold_returns close))).
  split; [unfold build_gold_returns; rewrite Hreb; reflexivity |].
  split; [exact Hidx |].
  assert (Hall : forall v, In (iau_start, v) (gold_returns close) -> v = F0).
  { intros v Hin. apply In_nth_error in Hin. destruct Hin as [j Hj].
    assert (Hjlt : j < length (gold_returns close))
      by (apply nth_error_Some; rewrite Hj; discriminate).
    rewrite (series_nth_error _ j 0%Z NaN Hjlt) in Hj.
    injection Hj as Hjd Hjv.
    rewrite Hidx in Hjd.
    assert (j = i).
    { apply (proj1 (NoDup_nth (df_index close) 0%Z) Hnodup);
        unfold df_index; rewrite ?length_map; try lia.
      fold (df_index close). congruence. }
    subst j. congruence. }
  split; [| exact Hall].
  unfold loc_at.
  match goal with
  | |- option_map snd ?f = _ => destruct f as [[d v] |] eqn:Hfind; simpl
  end.
  - apply find_some in Hfind. destruct Hfind as [Hin Hdate]. simpl in Hdate.
    apply Z.eqb_eq in Hdate. subst d. f_equal. apply Hall, Hin.
  - exfalso.
    assert (Hin : In (iau_start, F0) (gold_returns close)).
    { apply (nth_error_In _ i).
      rewrite (series_nth_error _ i 0%Z NaN) by lia.
      rewrite Hidx, Hd, Hzero. reflexivity. }
    pose proof (find_none _ _ Hfind _ Hin) as Hno. simpl in Hno.
    rewrite Z.eqb_refl in Hno. discriminate.
Qed.

Lemma gold_return_zero_at_first_valid_date_witness :
  first_valid_index (column IAU table_gold) = Some (ymd 2005 1 28) /\
  NoDup (df_index table_gold) /\
  exists r_gold gold_nav,
    build_gold_returns table_gold = inr (r_gold, gold_nav) /\
    loc_at (ymd 2005 1 28) r_gold = Some F0.
Proof.
  assert (Hfirst : first_valid_index (column IAU table_gold)
                   = Some (ymd 2005 1 28)) by (vm_compute; reflexivity).
  assert (Hnodup : NoDup (df_index table_gold)).
  { vm_compute. repeat constructor; simpl; intuition discriminate. }
  split; [exact Hfirst |]. split; [exact Hnodup |].
  destruct (gold_return_zero_at_first_valid_date table_gold (ymd 2005 1 28)
              Hfirst Hnodup) as (r_gold & gold_nav & Hb & _ & Hat & _).
  exists r_gold, gold_nav. split; assumption.
Defined.

Lemma index_stitch_stock_returns (close : DataFrame) :
  index (stitch_stock_returns close) = df_index close.
Proof.
  unfold stitch_stock_returns. rewrite index_clean.
  assert (H : forall sel tgt t,
             length tgt = length close -> index tgt = df_index close ->
             length (loc_assign sel tgt (pct_change (column t close)))
             = length close /\
             index (loc_assign sel tgt (pct_change (column t close)))
             = df_index close).
  { intros sel tgt t Hl Hi.
    assert (Hs : length tgt = length (pct_change (column t close)))
      by (rewrite length_pct_change, length_column; exact Hl).
    rewrite length_loc_assign, index_loc_assign by exact Hs. auto. }
  assert (H0 : length (empty_series close) = length close /\
               index (empty_series close) = df_index close)
    by (split; [apply length_map | apply index_empty_series]).
  destruct H0 as [L0 I0].
  destruct (H (in_years 1927 1970) _ GSPC L0 I0) as [L1 I1].
  destruct (H (in_years 1971 1985) _ IXIC L1 I1) as [L2 I2].
  destruct (H (in_years 1986 1999) _ NDX L2 I2) as [L3 I3].
  destruct (H (in_years 2000 2009) _ QQQ L3 I3) as [L4 I4].
  destruct (H (from_year 2010) _ QQQ L4 I4) as [L5 I5].
  exact I5.
Qed.

Lemma length_stitch_stock_returns (close : DataFrame) :
  length (stitch_stock_returns close) = length close.
Proof.
  rewrite <- (index_length (stitch_stock_returns close)).
  rewrite index_stitch_stock_returns. apply length_map.
Qed.

Lemma length_leveraged_stock_returns (close : DataFrame) (leverage : float) :
  length (leveraged_stock_returns close leverage) = length close.
Proof.
  unfold leveraged_stock_returns.
  rewrite length_loc_assign; rewrite ?length_smap;
    unfold fillna0; rewrite ?length_smap, ?length_pct_change, ?length_column;
    apply length_stitch_stock_returns.
Qed.

Lemma index_leveraged_stock_returns (close : DataFrame) (leverage : float) :
  index (leveraged_stock_returns close leverage) = df_index close.
Proof.
  unfold leveraged_stock_returns.
  rewrite index_loc_assign.
  - rewrite index_smap. apply index_stitch_stock_returns.
  - unfold fillna0.
    rewrite !length_smap, length_pct_change, length_column.
    apply length_stitch_stock_returns.
Qed.

(** The leveraged return, date by date. *)
Lemma leveraged_stock_returns_nth (close : DataFrame) (leverage : float)
  (k : nat) :
  k < length close ->
  nth k (values (leveraged_stock_returns close leverage)) NaN
  = if from_day (ymd 2010 1 1) (nth k (df_index close) 0%Z)
    then fillna_0 (nth k (values (pct_change (column TQQQ close))) NaN)
    else fmul (nth k (values (stitch_stock_returns close)) NaN) leverage.
Proof.
  intros Hk. unfold leveraged_stock_returns.
  assert (Hl : length (smap (fun r => fmul r leverage)
                         (stitch_stock_returns close))
               = length (fillna0 (pct_change (column TQQQ close)))).
  { unfold fillna0.
    rewrite !length_smap, length_pct_change, length_column.
    apply length_stitch_stock_returns. }
  rewrite values_loc_assign_nth;
    [| exact Hl | rewrite length_smap, length_stitch_stock_returns; exact Hk].
  rewrite index_smap, index_stitch_stock_returns.
  destruct (from_day _ _).
  - unfold fillna0.
    apply (values_smap_nth fillna_0 _ k NaN NaN).
    rewrite length_pct_change, length_column. exact Hk.
  - apply (values_smap_nth (fun r => fmul r leverage) _ k NaN NaN).
    rewrite length_stitch_stock_returns. exact Hk.
Qed.

Lemma build_stock_returns_inr (close : DataFrame) (leverage : float) :
  close <> [] ->
  exists stock_nav stock_nav_1x,
    build_stock_returns close leverage
    = inr (leveraged_stock_returns close leverage, stock_nav, stock_nav_1x).
Proof.
  intros Hne. unfold build_stock_returns.
  assert (H1 : compound (stitch_stock_returns close) <> []).
  { apply index_nonempty. rewrite index_compound, index_stitch_stock_returns.
    destruct close; simpl; congruence. }
  assert (H3 : compound (leveraged_stock_returns close leverage) <> []).
  { apply index_nonempty.
    rewrite index_compound, index_leveraged_stock_returns.
    destruct close; simpl; congruence. }
  destruct (rebase_inr _ H1) as (x1 & _ & E1).
  destruct (rebase_inr _ H3) as (x3 & _ & E3).
  rewrite E1; cbn [bind]. rewrite E3; cbn [bind].
  eexists; eexists; reflexivity.
Qed.

(** C4, as the code has it.  On a table that is not empty,
    [build_stock_returns] returns, and its leveraged return on each date
    before 2010-01-01 is the stitched unleveraged return times the
    leverage, and on each date from 2010-01-01 on is the percent change of
    the leveraged fund's own price, 0 where that change is undefined.  The
    switch is at this fixed date, not at the first valid date of the
    fund's prices. *)
Theorem leveraged_return_switches_at_2010 :
  forall (close : DataFrame) (leverage : float),
    close <> [] ->
    exists r_stock_3x stock_nav stock_nav_1x,
      build_stock_returns close leverage
      = inr (r_stock_3x, stock_nav, stock_nav_1x) /\
      index r_stock_3x = df_index close /\
      forall k, k < length close ->
        ((nth k (df_index close) 0 < ymd 2010 1 1)%Z ->
         nth k (values r_stock_3x) NaN
         = fmul (nth k (values (stitch_stock_returns close)) NaN) leverage) /\
        ((ymd 2010 1 1 <= nth k (df_index close) 0)%Z ->
         nth k (values r_stock_3x) NaN
         = fillna_0 (nth k (values (pct_change (column TQQQ close))) NaN)).
Proof.
  intros close leverage Hne.
  destruct (build_stock_returns_inr close leverage Hne) as (n3 & n1 & E).
  exists (leveraged_stock_returns close leverage), n3, n1.
  split; [exact E |].
  split; [apply index_leveraged_stock_returns |].
  intros k Hk. rewrite leveraged_stock_returns_nth by exact Hk.
  unfold from_day.
  destruct (Z.leb_spec (ymd 2010 1 1) (nth k (df_index close) 0%Z));
    split; intros; try reflexivity; lia.
Qed.

Lemma leveraged_return_switches_at_2010_witness :
  table_2010 <> [] /\
  exists r_stock_3x stock_nav stock_nav_1x,
    build_stock_returns table_2010 (Fin 3)
    = inr (r_stock_3x, stock_nav, stock_nav_1x) /\
    nth 1 (values r_stock_3x) NaN
    = fmul (nth 1 (values (stitch_stock_returns table_2010)) NaN) (Fin 3) /\
    nth 5 (values r_stock_3x) NaN
    = fillna_0 (nth 5 (values (pct_change (column TQQQ table_2010))) NaN).
Proof.
  assert (Hne : table_2010 <> []) by (vm_compute; discriminate).
  split; [exact Hne |].
  destruct (leveraged_return_switches_at_2010 table_2010 (Fin 3) Hne)
    as (r & n3 & n1 & E & _ & H).
  exists r, n3, n1. split; [exact E |]. split.
  - apply (H 1); [vm_compute; lia | vm_compute; reflexivity].
  - apply (H 5); [vm_compute; lia | vm_compute; discriminate].
Defined.

(** C4, as stated, fails.  In [table_2010], whose gaps are filled, the
    first valid date of the leveraged fund is the first row, 2009-12-30;
    on 2009-12-31 the fund's own return is 0 but the leveraged return is
    three times the return of the unleveraged fund.  In [table_2010_raw]
    the first valid date of the leveraged fund is 2010-02-11; on
    2010-01-05, before it, the leveraged return is 0 and not three times
    the unleveraged return. *)
Lemma leveraged_return_ignores_first_valid_date :
  first_valid_index (column TQQQ table_2010) = Some (ymd 2009 12 30) /\
  ('(r_stock_3x, _, _) <- build_stock_returns table_2010 (Fin 3) ;;
   ret (loc_at (ymd 2009 12 31) r_stock_3x))
  = inr (Some (Fin (1 # 15))) /\
  loc_at (ymd 2009 12 31) (pct_change (column TQQQ table_2010))
  = Some (Fin 0) /\
  first_valid_index (column TQQQ table_2010_raw) = Some (ymd 2010 2 11) /\
  ('(r_stock_3x, _, _) <- build_stock_returns table_2010_raw (Fin 3) ;;
   ret (loc_at (ymd 2010 1 5) r_stock_3x))
  = inr (Some (Fin 0)) /\
  loc_at (ymd 2010 1 5)
         (smap (fun r => fmul r (Fin 3)) (stitch_stock_returns table_2010_raw))
  = Some (Fin (-1 # 31)).
Proof.
  repeat split; vm_compute; reflexivity.
Qed.

(** ** Order on floating-point values *)

Lemma fle_refl (x : float) : isnan x = false -> fle x x = true.
Proof.
  destruct x; simpl; try reflexivity; try discriminate.
  intros _. apply Qle_bool_iff. apply Qle_refl.
Qed.

Lemma fle_trans (x y z : float) :
  fle x y = true -> fle y z = true -> fle x z = true.
Proof.
  destruct x, y, z; simpl; try reflexivity; try discriminate.
  rewrite !Qle_bool_iff. apply Qle_trans.
Qed.

Lemma flt_fle (x y : float) : flt x y = true -> fle x y = true.
Proof.
  destruct x, y; simpl; try reflexivity; try discriminate.
  unfold Qltb. rewrite negb_true_iff. intros H.
  apply Qle_bool_iff. apply Qlt_le_weak. apply Qnot_le_lt.
  intros Hle. apply Qle_bool_iff in Hle. congruence.
Qed.

Lemma flt_false_fle (x y : float) :
  isnan x = false -> isnan y = false -> flt x y = false -> fle y x = true.
Proof.
  destruct x, y; simpl; try reflexivity; try discriminate.
  unfold Qltb. rewrite negb_false_iff. auto.
Qed.

Lemma Qltb_lt (a b : Q) : Qltb a b = true <-> (a < b)%Q.
Proof.
  unfold Qltb. rewrite negb_true_iff. split.
  - intros H. apply Qnot_le_lt. intros Hle.
    apply Qle_bool_iff in Hle. congruence.
  - intros H. destruct (Qle_bool b a) eqn:E; [| reflexivity].
    apply Qle_bool_iff in E. exfalso. apply (Qlt_not_le _ _ H E).
Qed.

Lemma Qltb_ge (a b : Q) : Qltb a b = false <-> (b <= a)%Q.
Proof.
  unfold Qltb. rewrite negb_false_iff. apply Qle_bool_iff.
Qed.

Lemma fmin_notnan (x y : float) :
  isnan x = false -> isnan y = false -> isnan (fmin x y) = false.
Proof. unfold fmin. destruct (flt y x); auto. Qed.

Lemma fmin_le_l (x y : float) :
  isnan x = false -> isnan y = false -> fle (fmin x y) x = true.
Proof.
  intros Hx Hy. unfold fmin. destruct (flt y x) eqn:E.
  - apply flt_fle, E.
  - apply fle_refl, Hx.
Qed.

Lemma fmin_le_r (x y : float) :
  isnan x = false -> isnan y = false -> fle (fmin x y) y = true.
Proof.
  intros Hx Hy. unfold fmin. destruct (flt y x) eqn:E.
  - apply fle_refl, Hy.
  - apply flt_false_fle; assumption.
Qed.

(** The running minimum from a value that is not NaN: the result is not
    NaN, is the start value or a value of the list, and is below the
    start value and every value of the list that is not NaN. *)
Lemma min_from_spec (l : list float) (best : float) :
  isnan best = false ->
  isnan (min_from best l) = false /\
  (min_from best l = best \/ In (min_from best l) l) /\
  fle (min_from best l) best = true /\
  forall v, In v l -> isnan v = false -> fle (min_from best l) v = true.
Proof.
  revert best; induction l as [| x l IH]; intros best Hb; simpl.
  - split; [exact Hb |]. split; [left; reflexivity |].
    split; [apply fle_refl, Hb |]. intros v [].
  - destruct (isnan x) eqn:Hx.
    + destruct (IH best Hb) as (H1 & H2 & H3 & H4).
      split; [exact H1 |]. split; [| split; [exact H3 |]].
      * destruct H2; auto.
      * intros v [<- | Hv] Hn; [congruence | auto].
    + rewrite Hb.
      pose proof (fmin_notnan best x Hb Hx) as Hm.
      destruct (IH (fmin best x) Hm) as (H1 & H2 & H3 & H4).
      split; [exact H1 |]. split; [| split].
      * destruct H2 as [H2 | H2]; [| auto].
        rewrite H2. unfold fmin. destruct (flt x best); auto.
      * apply (fle_trans _ _ _ H3). apply fmin_le_l; assumption.
      * intros v [<- | Hv] Hn; [| auto].
        apply (fle_trans _ _ _ H3). apply fmin_le_r; assumption.
Qed.

Lemma fdiv_self (q : Q) : ~ (q == 0)%Q -> fdiv (Fin q) (Fin q) = F1.
Proof.
  intros Hq. simpl. unfold Qeqb.
  destruct (Qeq_bool q 0) eqn:E.
  - apply Qeq_bool_iff in E. contradiction.
  - unfold fin, F1. f_equal.
    change 1%Q with (Qred 1). apply Qred_complete.
    field. exact Hq.
Qed.

Lemma fsub_1_1 : fsub F1 F1 = F0.
Proof. reflexivity. Qed.

(** ** Drawdown *)

Lemma drawdown_series_head (d : date) (q : Q) (rest : Series float) :
  ~ (q == 0)%Q ->
  exists tl, calculate_drawdown_series ((d, Fin q) :: rest) = (d, F0) :: tl.
Proof.
  intros Hq. unfold calculate_drawdown_series, cummax.
  change (cummax_from NInf ((d, Fin q) :: rest))
    with ((d, Fin q) :: cummax_from (Fin q) rest).
  unfold smap2. cbn [combine map fst snd].
  rewrite (fdiv_self q Hq), fsub_1_1.
  eexists; reflexivity.
Qed.

Lemma min_from_nan_spec (l : list float) :
  existsb notna l = true ->
  isnan (min_from NaN l) = false /\
  In (min_from NaN l) l /\
  forall v, In v l -> isnan v = false -> fle (min_from NaN l) v = true.
Proof.
  induction l as [| x l IH]; simpl; [discriminate |].
  unfold notna at 1. destruct (isnan x) eqn:Hx; simpl.
  - intros H. destruct (IH H) as (H1 & H2 & H3).
    split; [exact H1 |]. split; [right; exact H2 |].
    intros v [<- | Hv] Hn; [congruence | auto].
  - intros _.
    destruct (min_from_spec l x Hx) as (H1 & H2 & H3 & H4).
    split; [exact H1 |]. split.
    + destruct H2 as [H2 | H2]; [left; symmetry; exact H2 | right; exact H2].
    + intros v [<- | Hv] Hn; [exact H3 | auto].
Qed.

Lemma min_from_nan_all_nan (l : list float) :
  existsb notna l = false -> min_from NaN l = NaN.
Proof.
  induction l as [| x l IH]; simpl; [reflexivity |].
  unfold notna at 1. destruct (isnan x); simpl; [exact IH | discriminate].
Qed.

(** The drawdown of a value [q] under a positive running maximum [p] that
    is not below it. *)
Lemma drawdown_value_nonpositive (q p : Q) :
  (0 < p)%Q -> (q <= p)%Q ->
  fle (fsub (fdiv (Fin q) (Fin p)) F1) F0 = true.
Proof.
  intros Hp Hqp. unfold fdiv, Qeqb.
  destruct (Qeq_bool p 0) eqn:E.
  { apply Qeq_bool_iff in E. rewrite E in Hp. discriminate Hp. }
  unfold fsub, fneg, F1, F0, fin, fadd, fin, fle. apply Qle_bool_iff.
  rewrite !Qred_correct.
  assert (H : (q / p <= 1)%Q).
  { apply Qle_shift_div_r; [exact Hp |]. rewrite Qmult_1_l. exact Hqp. }
  apply (Qplus_le_l _ _ 1). ring_simplify. exact H.
Qed.

(** One step of the running maximum, from a maximum [acc] that is not a
    negative number: the drawdown of the new value is 0, or it is NaN or
    at most 0 and the new maximum is not a negative number either. *)
Lemma drawdown_step (acc x : float) :
  nonneg_or_inf acc = true -> isnan x = false ->
  let v := fsub (fdiv x (fmax acc x)) F1 in
  v = F0 \/
  (nonneg_or_inf (fmax acc x) = true /\
   (isnan v = true \/ fle v F0 = true)).
Proof.
  intros Hacc Hx v. subst v. unfold fmax.
  destruct acc as [p | | |]; try discriminate;
    destruct x as [q | | |]; try discriminate; cbn [flt].
  - (* a number under a number *)
    cbn [nonneg_or_inf] in Hacc. apply Qle_bool_iff in Hacc.
    destruct (Qltb p q) eqn:E.
    + left. apply Qltb_lt in E.
      rewrite fdiv_self; [reflexivity |].
      intros Hq. rewrite Hq in E. apply (Qlt_not_le _ _ E Hacc).
    + right. split; [apply Qle_bool_iff, Hacc |].
      apply Qltb_ge in E.
      destruct (Qeq_bool p 0) eqn:Ep.
      * assert (Hq0 : (q <= 0)%Q).
        { apply Qeq_bool_iff in Ep. rewrite <- Ep. exact E. }
        cbn [fdiv]. unfold Qeqb. rewrite Ep.
        destruct q as [[| n | n] dq]; cbn [Qsgn Qnum Z.sgn signed_inf].
        -- left. reflexivity.
        -- exfalso. unfold Qle in Hq0. simpl in Hq0. lia.
        -- right. reflexivity.
      * right. apply drawdown_value_nonpositive; [| exact E].
        apply Qle_lt_or_eq in Hacc. destruct Hacc as [Hlt | Heq];
          [exact Hlt |].
        exfalso. symmetry in Heq. apply Qeq_bool_iff in Heq. congruence.
  - right. split; [reflexivity | left; reflexivity].
  - right. split; [exact Hacc |]. right.
    cbn [nonneg_or_inf] in Hacc. apply Qle_bool_iff in Hacc.
    cbn [fdiv].
    assert (E : Qltb p 0 = false) by (apply Qltb_ge; exact Hacc).
    rewrite E. reflexivity.
  - right. split; [reflexivity | right; reflexivity].
  - right. split; [reflexivity | left; reflexivity].
  - right. split; [reflexivity | left; reflexivity].
  - destruct (Qeq_bool q 0) eqn:Eq.
    + right. split.
      * cbn [nonneg_or_inf]. apply Qle_bool_iff.
        apply Qeq_bool_iff in Eq. rewrite Eq. apply Qle_refl.
      * left. cbn [fdiv]. unfold Qeqb. rewrite Eq.
        apply Qeq_bool_iff in Eq.
        destruct q as [[| n | n] dq]; try reflexivity;
          unfold Qeq in Eq; simpl in Eq; lia.
    + left. rewrite fdiv_self; [reflexivity |].
      intros Hq. apply Qeq_bool_iff in Hq. congruence.
  - right. split; [reflexivity | left; reflexivity].
  - right. split; [reflexivity | left; reflexivity].
Qed.

(** A drawdown series with a value that is not NaN has a value that is at
    most 0. *)
Lemma drawdown_has_nonpositive (s : Series float) (acc : float) :
  nonneg_or_inf acc = true ->
  existsb notna
    (values (smap2 (fun n h => fsub (fdiv n h) F1) s (cummax_from acc s)))
  = true ->
  exists w,
    In w (values (smap2 (fun n h => fsub (fdiv n h) F1) s
                    (cummax_from acc s))) /\
    fle w F0 = true.
Proof.
  revert acc; induction s as [| [d x] s IH]; intros acc Hacc; [discriminate |].
  cbn [cummax_from]. destruct (isnan x) eqn:Hx.
  - destruct x; try discriminate.
    unfold smap2. cbn [combine map fst snd values existsb].
    change (notna (fsub (fdiv NaN NaN) F1)) with false. cbn [orb].
    intros H. destruct (IH acc Hacc H) as (w & Hw & Hle).
    exists w. split; [right; exact Hw | exact Hle].
  - unfold smap2. cbn [combine map fst snd values existsb].
    destruct (drawdown_step acc x Hacc Hx) as [H0 | [Ha [Hn | Hle]]].
    + intros _. exists F0. split; [left; exact H0 | reflexivity].
    + unfold notna at 1. rewrite Hn. cbn [negb orb].
      intros H. destruct (IH _ Ha H) as (w & Hw & Hle).
      exists w. split; [right; exact Hw | exact Hle].
    + intros _. eexists. split; [left; reflexivity | exact Hle].
Qed.

Lemma fle_notnan_l (x y : float) : fle x y = true -> isnan x = false.
Proof. destruct x; try reflexivity. discriminate. Qed.

(** C7.  For a NAV series whose drawdown series has a value that is not
    NaN, the maximum drawdown is a number that is at most 0, and it is the
    minimum of the drawdown series: equal to [min()] of that series, one
    of its values, and at most each of its values that is not NaN. *)
Theorem max_drawdown_nonpositive :
  forall (nav : Series float),
    existsb notna (values (calculate_drawdown_series nav)) = true ->
    fle (calculate_max_drawdown nav) F0 = true /\
    smin (calculate_drawdown_series nav) = calculate_max_drawdown nav /\
    In (calculate_max_drawdown nav) (values (calculate_drawdown_series nav)) /\
    forall v, In v (values (calculate_drawdown_series nav)) ->
              isnan v = false ->
              fle (calculate_max_drawdown nav) v = true.
Proof.
  intros nav Hdef.
  change (calculate_max_drawdown nav)
    with (smin (calculate_drawdown_series nav)).
  unfold smin.
  destruct (min_from_nan_spec _ Hdef) as (_ & Hin & Hmin).
  destruct (drawdown_has_nonpositive nav NInf eq_refl Hdef) as (w & Hw & Hle).
  split; [| split; [reflexivity | split; [exact Hin | exact Hmin]]].
  apply (fle_trans _ w); [| exact Hle].
  apply Hmin; [exact Hw | apply (fle_notnan_l _ _ Hle)].
Qed.

Lemma max_drawdown_nonpositive_witness :
  existsb notna
    (values (calculate_drawdown_series
               [(ymd 2020 2 7, NaN); (ymd 2020 2 10, Fin 1);
                (ymd 2020 2 11, Fin 0.9); (ymd 2020 2 21, Fin 1)])) = true /\
  fle (calculate_max_drawdown
         [(ymd 2020 2 7, NaN); (ymd 2020 2 10, Fin 1);
          (ymd 2020 2 11, Fin 0.9); (ymd 2020 2 21, Fin 1)]) F0 = true.
Proof.
  assert (H : existsb notna
                (values (calculate_drawdown_series
                   [(ymd 2020 2 7, NaN); (ymd 2020 2 10, Fin 1);
                    (ymd 2020 2 11, Fin 0.9); (ymd 2020 2 21, Fin 1)]))
              = true) by reflexivity.
  split; [exact H |].
  exact (proj1 (max_drawdown_nonpositive _ H)).
Defined.

(** C7, as stated, fails.  The maximum drawdown of a series that is not
    empty can be NaN, which is not at most 0: a NAV of 0 has the drawdown
    0/0 - 1, and a NAV without a valid value has no drawdown at all. *)
Lemma max_drawdown_nan_without_valid_drawdown :
  [(ymd 2020 2 10, F0)] <> [] /\
  calculate_max_drawdown [(ymd 2020 2 10, F0)] = NaN /\
  fle (calculate_max_drawdown [(ymd 2020 2 10, F0)]) F0 = false /\
  fle (calculate_max_drawdown [(ymd 2020 2 10, F0); (ymd 2020 2 11, F0)])
      F0 = false /\
  fle (calculate_max_drawdown [(ymd 2020 2 10, NaN); (ymd 2020 2 11, NaN)])
      F0 = false.
Proof.
  split; [discriminate |]. repeat split; reflexivity.
Qed.

(** A series that starts with a number other than 0, as a rebased NAV
    does, has a drawdown that is not NaN: 0 on its first date. *)
Lemma drawdown_defined_from_valid_start (d : date) (q : Q)
  (rest : Series float) :
  ~ (q == 0)%Q ->
  existsb notna (values (calculate_drawdown_series ((d, Fin q) :: rest)))
  = true.
Proof.
  intros Hq. destruct (drawdown_series_head d q rest Hq) as [tl ->].
  reflexivity.
Qed.

(** Without a valid drawdown the maximum drawdown is NaN. *)
Lemma max_drawdown_undefined (nav : Series float) :
  existsb notna (values (calculate_drawdown_series nav)) = false ->
  calculate_max_drawdown nav = NaN.
Proof.
  intros H. change (calculate_max_drawdown nav)
    with (smin (calculate_drawdown_series nav)).
  apply min_from_nan_all_nan, H.
Qed.

(** ** The orchestrator *)

Lemma rebase_inv (s s' : Series float) :
  rebase s = inr s' ->
  exists x0, iloc0 s = inr x0 /\ s' = smap (fun x => fdiv x x0) s.
Proof.
  unfold rebase. intros H. inv_bind H. exists a. split; [exact Ha |].
  injection H as <-. reflexivity.
Qed.

Lemma build_stock_returns_inv close leverage r_stock stock_nav stock_nav_1x :
  build_stock_returns close leverage = inr (r_stock, stock_nav, stock_nav_1x) ->
  r_stock = leveraged_stock_returns close leverage /\
  index stock_nav = df_index close /\
  index stock_nav_1x = df_index close.
Proof.
  unfold build_stock_returns. intros H.
  inv_bind H. inv_bind H. injection H as <- <- <-.
  apply rebase_inv in Ha, Ha0.
  destruct Ha as (x1 & _ & ->), Ha0 as (x3 & _ & ->).
  rewrite !index_smap, !index_compound.
  rewrite index_leveraged_stock_returns, index_stitch_stock_returns.
  auto.
Qed.

Lemma build_gold_returns_inv close r_gold gold_nav :
  build_gold_returns close = inr (r_gold, gold_nav) ->
  r_gold = gold_returns close /\ index gold_nav = df_index close.
Proof.
  unfold build_gold_returns. intros H.
  inv_bind H. injection H as <- <-.
  apply rebase_inv in Ha. destruct Ha as (x & _ & ->).
  rewrite index_smap, index_compound, index_gold_returns. auto.
Qed.

Lemma generate_signal_inv stock_nav ma_period signal ma :
  generate_signal stock_nav ma_period = inr (signal, ma) ->
  index signal = index stock_nav /\ index ma = index stock_nav.
Proof.
  intros H.
  destruct (Z.ltb_spec ma_period 0) as [Hneg | Hpos].
  - unfold generate_signal, rolling in H.
    destruct (Z.ltb_spec ma_period 0); [discriminate | lia].
  - rewrite (generate_signal_eq _ _ Hpos) in H. injection H as <- <-.
    split; [| apply index_rolling_from].
    rewrite index_smap2; [apply index_shift_from |].
    rewrite !length_shift, length_rolling_from. reflexivity.
Qed.

Lemma length_of_index {A B} (s : Series A) (t : Series B) :
  index s = index t -> length s = length t.
Proof.
  intros H. rewrite <- (index_length s), <- (index_length t), H. reflexivity.
Qed.

Lemma index_np_where (c : Series bool) (a b : Series float) :
  index a = index c -> index b = index c ->
  index (np_where c a b) = index c.
Proof.
  intros Ha Hb. unfold np_where.
  assert (Hca : length c = length a)
    by (symmetry; apply length_of_index, Ha).
  rewrite index_smap2; [apply index_smap2, Hca |].
  rewrite (length_smap2 _ _ _ Hca).
  symmetry; apply length_of_index, Hb.
Qed.

(** Every series of the full span is on the index of the table. *)
Lemma full_span_index close ma_period leverage fs :
  full_span close ma_period leverage = inr fs ->
  index (fs_r_strategy fs) = df_index close /\
  index (fs_nav_full fs) = df_index close /\
  index (fs_stock_nav fs) = df_index close /\
  index (fs_stock_nav_1x fs) = df_index close /\
  index (fs_gold_nav fs) = df_index close /\
  index (fs_stock_ma fs) = df_index close /\
  index (fs_signal fs) = df_index close /\
  index (fs_sp500_nav_full fs) = df_index close.
Proof.
  unfold full_span. intros H.
  inv_bind H. destruct a as [[r_stock stock_nav] stock_nav_1x].
  inv_bind H. destruct a as [r_gold gold_nav].
  inv_bind H. destruct a as [signal ma].
  injection H as <-. simpl.
  apply build_stock_returns_inv in Ha. destruct Ha as (-> & I3 & I1).
  apply build_gold_returns_inv in Ha0. destruct Ha0 as (-> & Ig).
  apply generate_signal_inv in Ha1. destruct Ha1 as (Is & Im).
  rewrite I3 in Is, Im.
  assert (Hr : index (np_where signal (leveraged_stock_returns close leverage)
                        (gold_returns close)) = df_index close).
  { rewrite index_np_where; [exact Is | |].
    - rewrite index_leveraged_stock_returns. symmetry; exact Is.
    - rewrite index_gold_returns. symmetry; exact Is. }
  repeat split; try assumption.
  - rewrite index_compound. exact Hr.
  - rewrite index_compound. unfold fillna0.
    rewrite index_smap, index_pct_change. apply index_column.
Qed.

Lemma run_backtest_inv L w start end_ ma_period leverage r w' :
  run_backtest L w start end_ ma_period leverage = (inr r, w') ->
  (start < end_)%Z /\
  exists close fs actual_start,
    fst (download_data w (extended_start (effective_start start) ma_period)
           end_ 3) = inr close /\
    full_span close ma_period leverage = inr fs /\
    find_actual_start close (effective_start start) = inr actual_start /\
    trim_and_summarize L close fs actual_start = inr r.
Proof.
  unfold run_backtest.
  destruct (Z.leb_spec end_ start) as [Hle | Hlt]; [discriminate |].
  destruct (download_data w _ end_ 3) as [[e | close] w1]; [discriminate |].
  intros H. injection H as H _. split; [exact Hlt |].
  unfold backtest_pipeline in H. inv_bind H. inv_bind H.
  exists close, a, a0. simpl. auto.
Qed.

(** What the fields of a result are, in terms of the full-span series and
    the trim point. *)
Lemma trim_and_summarize_inv L close fs a r :
  trim_and_summarize L close fs a = inr r ->
  exists scale x_nav x_1x x_gold x_sp,
    iloc0 (loc_from a (fs_stock_nav fs)) = inr scale /\
    iloc0 (loc_from a (fs_nav_full fs)) = inr x_nav /\
    iloc0 (loc_from a (fs_stock_nav_1x fs)) = inr x_1x /\
    iloc0 (loc_from a (fs_gold_nav fs)) = inr x_gold /\
    iloc0 (loc_from a (fs_sp500_nav_full fs)) = inr x_sp /\
    nav r = smap (fun x => fdiv x x_nav) (loc_from a (fs_nav_full fs)) /\
    stock_nav r = smap (fun x => fdiv x scale) (loc_from a (fs_stock_nav fs)) /\
    stock_nav_1x r
    = smap (fun x => fdiv x x_1x) (loc_from a (fs_stock_nav_1x fs)) /\
    gold_nav r = smap (fun x => fdiv x x_gold) (loc_from a (fs_gold_nav fs)) /\
    sp500_nav r
    = smap (fun x => fdiv x x_sp) (loc_from a (fs_sp500_nav_full fs)) /\
    stock_ma r = smap (fun x => fdiv x scale) (loc_from a (fs_stock_ma fs)) /\
    signal r = loc_from a (fs_signal fs) /\
    drawdown_series r = calculate_drawdown_series (nav r) /\
    calculate_rolling_sharpe L (fs_r_strategy fs) 252
    = inr (rolling_sharpe r) /\
    calculate_recovery_days (nav r) = inr (recovery_days r).
Proof.
  unfold trim_and_summarize. intros H.
  inv_bind H. rename a0 into scale, Ha into Hscale.
  inv_bind H. apply rebase_inv in Ha. destruct Ha as (x_nav & Hnav & ->).
  inv_bind H. apply rebase_inv in Ha. destruct Ha as (x_1x & H1x & ->).
  inv_bind H. apply rebase_inv in Ha. destruct Ha as (x_gold & Hgold & ->).
  inv_bind H. apply rebase_inv in Ha. destruct Ha as (x_sp & Hsp & ->).
  inv_bind H. inv_bind H. inv_bind H.
  injection H as <-. simpl.
  exists scale, x_nav, x_1x, x_gold, x_sp.
  repeat (split; [first [assumption | reflexivity] |]).
  assumption.
Qed.

Lemma index_loc_from {A} (a : date) (s : Series A) :
  index (loc_from a s) = filter (fun d => (a <=? d)%Z) (index s).
Proof.
  unfold index, loc_from.
  induction s as [| [d x] s IH]; simpl; [reflexivity |].
  destruct (a <=? d)%Z; simpl; rewrite IH; reflexivity.
Qed.

Lemma filter_head {A} (P : A -> bool) (l : list A) (x : A) (rest : list A) :
  filter P l = x :: rest ->
  exists pre post,
    l = pre ++ x :: post /\ Forall (fun y => P y = false) pre /\ P x = true.
Proof.
  induction l as [| y l IH]; simpl; [discriminate |].
  destruct (P y) eqn:Hy.
  - intros [= -> _]. exists [], l. auto.
  - intros H. destruct (IH H) as (pre & post & -> & Hpre & Hx).
    exists (y :: pre), post. auto.
Qed.

Lemma filter_nil {A} (P : A -> bool) (l : list A) :
  filter P l = [] -> Forall (fun y => P y = false) l.
Proof.
  induction l as [| y l IH]; simpl; [constructor |].
  destruct (P y) eqn:Hy; [discriminate |]. auto.
Qed.

Lemma find_actual_start_spec close u a :
  find_actual_start close u = inr a -> first_date_from (df_index close) u a.
Proof.
  unfold find_actual_start.
  destruct (filter (fun d => (u <=? d)%Z) (df_index close))
    as [| d rest] eqn:E; [discriminate |].
  intros [= ->].
  destruct (filter_head _ _ _ _ E) as (pre & post & Hl & Hpre & Ha).
  exists pre, post. split; [exact Hl |]. split.
  - eapply Forall_impl; [| exact Hpre]. simpl. intros d Hd.
    apply Z.leb_gt, Hd.
  - apply Z.leb_le, Ha.
Qed.

(** A series on the index of the table, trimmed at the first date on or
    after [u], starts at that date. *)
Lemma trimmed_starts_at {A} (l : list date) (u a : date) (s : Series A) :
  first_date_from l u a -> index s = l -> starts_at a (loc_from a s).
Proof.
  intros (pre & post & Hl & Hpre & Hua) Hs.
  assert (Hidx : index (loc_from a s)
                 = a :: filter (fun d => (a <=? d)%Z) post).
  { rewrite index_loc_from, Hs, Hl, filter_app. simpl.
    rewrite Z.leb_refl.
    replace (filter _ pre) with (@nil date); [reflexivity |].
    symmetry. clear Hl. induction Hpre as [| d pre Hd _ IH]; simpl.
    - reflexivity.
    - destruct (Z.leb_spec a d); [lia | exact IH]. }
  split.
  - destruct (loc_from a s) as [| [d x] t]; simpl in *; [discriminate |].
    injection Hidx as -> _. reflexivity.
  - rewrite index_loc_from. apply Forall_forall. intros d Hd.
    apply filter_In in Hd. apply Z.leb_le, (proj2 Hd).
Qed.

Lemma starts_at_smap {A B} (f : A -> B) (a : date) (s : Series A) :
  starts_at a s -> starts_at a (smap f s).
Proof.
  unfold starts_at. rewrite index_smap.
  intros [H0 Hall]. split; [| exact Hall].
  destruct s as [| [d x] s]; simpl in *; [discriminate | exact H0].
Qed.

Lemma index_calculate_drawdown_series (nav : Series float) :
  index (calculate_drawdown_series nav) = index nav.
Proof.
  unfold calculate_drawdown_series. apply index_smap2.
  unfold cummax.
  rewrite <- (index_length (cummax_from NInf nav)).
  assert (H : forall acc (s : Series float),
             index (cummax_from acc s) = index s).
  { intros acc s; revert acc; induction s as [| [d x] s IH]; intros acc;
      simpl; [reflexivity |].
    destruct (isnan x); simpl; f_equal; apply IH. }
  rewrite H. symmetry. apply index_length.
Qed.

Lemma starts_at_index {A B} (a : date) (s : Series A) (t : Series B) :
  index t = index s -> starts_at a s -> starts_at a t.
Proof.
  unfold starts_at. intros H [H0 Hall]. rewrite H. split; [| exact Hall].
  destruct s as [| [d x] s], t as [| [e y] t]; simpl in *;
    try discriminate; congruence.
Qed.

(** C3, as the code has it.  In every successful run the strategy, leg
    and benchmark NAV series, the moving average, the signal and the
    drawdown series all start at the first date of the fetched table on or
    after the effective start, which is the requested start moved forward
    to 1928-01-01 when it is earlier; none of them has a label before that
    date.  (Nothing is said of the rolling Sharpe series.) *)
Theorem output_series_start_at_trim_point :
  forall (L : NumLib) (w : World) (start end_ : date) (ma_period : Z)
         (leverage : float) (r : BacktestResult) (w' : World),
    run_backtest L w start end_ ma_period leverage = (inr r, w') ->
    exists close actual_start,
      fst (download_data w (extended_start (effective_start start) ma_period)
             end_ 3) = inr close /\
      first_date_from (df_index close) (effective_start start) actual_start /\
      starts_at actual_start (nav r) /\
      starts_at actual_start (stock_nav r) /\
      starts_at actual_start (stock_nav_1x r) /\
      starts_at actual_start (gold_nav r) /\
      starts_at actual_start (stock_ma r) /\
      starts_at actual_start (sp500_nav r) /\
      starts_at actual_start (signal r) /\
      starts_at actual_start (drawdown_series r).
Proof.
  intros L w start end_ ma_period leverage r w' Hrun.
  apply run_backtest_inv in Hrun.
  destruct Hrun as (_ & close & fs & a & Hfetch & Hfs & Ha & Htrim).
  exists close, a. split; [exact Hfetch |].
  pose proof (find_actual_start_spec _ _ _ Ha) as Hfirst.
  split; [exact Hfirst |].
  destruct (full_span_index _ _ _ _ Hfs)
    as (_ & Inav & I3 & I1 & Ig & Im & Is & Isp).
  destruct (trim_and_summarize_inv _ _ _ _ _ Htrim)
    as (scale & x_nav & x_1x & x_gold & x_sp & _ & _ & _ & _ & _ &
        -> & -> & -> & -> & -> & -> & -> & Hdd & _ & _).
  assert (Hnav : starts_at a (smap (fun x => fdiv x x_nav)
                                (loc_from a (fs_nav_full fs))))
    by (apply starts_at_smap, (trimmed_starts_at _ _ _ _ Hfirst Inav)).
  repeat split;
    try (apply starts_at_smap; eapply trimmed_starts_at; eassumption);
    try (eapply trimmed_starts_at; eassumption);
    try (destruct Hnav; assumption).
  - rewrite Hdd.
    refine (proj1 (starts_at_index a _ _ _ Hnav)).
    apply index_calculate_drawdown_series.
  - rewrite Hdd.
    refine (proj2 (starts_at_index a _ _ _ Hnav)).
    apply index_calculate_drawdown_series.
Qed.

Lemma output_series_start_at_trim_point_witness :
  exists r w',
    run_backtest approx_lib (fresh_world table_1927) (ymd 1900 1 1)
                 (ymd 1929 3 1) 5 (Fin 3) = (inr r, w') /\
    exists close actual_start,
      fst (download_data (fresh_world table_1927)
             (extended_start (effective_start (ymd 1900 1 1)) 5)
             (ymd 1929 3 1) 3) = inr close /\
      first_date_from (df_index close) (effective_start (ymd 1900 1 1))
                      actual_start /\
      starts_at actual_start (nav r) /\
      starts_at actual_start (stock_nav r) /\
      starts_at actual_start (stock_nav_1x r) /\
      starts_at actual_start (gold_nav r) /\
      starts_at actual_start (stock_ma r) /\
      starts_at actual_start (sp500_nav r) /\
      starts_at actual_start (signal r) /\
      starts_at actual_start (drawdown_series r).
Proof.
  destruct (run_backtest approx_lib (fresh_world table_1927) (ymd 1900 1 1)
              (ymd 1929 3 1) 5 (Fin 3))
    as [[e | r] w'] eqn:Hrun.
  - exfalso. vm_compute in Hrun. discriminate Hrun.
  - exists r, w'. split; [reflexivity |].
    exact (output_series_start_at_trim_point _ _ _ _ _ _ _ _ Hrun).
Defined.

(** C3, as stated, fails in two ways.  A run requested from 1900-01-01
    fetches [table_1927], whose first date on or after the requested start
    is 1927-11-28, but its NAV series starts on 1928-01-03, the first date
    on or after 1928-01-01.  A run requested from 2020-02-10 fetches
    [table_2020], whose first date on or after the requested start is
    2020-02-10, but its rolling Sharpe series starts on 2020-01-06, the
    first date of the table. *)
Lemma series_start_differs_from_requested_start :
  fst (download_data (fresh_world table_1927)
         (extended_start (effective_start (ymd 1900 1 1)) 5)
         (ymd 1929 3 1) 3) = inr table_1927 /\
  find_actual_start table_1927 (ymd 1900 1 1) = inr (ymd 1927 11 28) /\
  (r <- fst (run_backtest approx_lib (fresh_world table_1927) (ymd 1900 1 1)
                          (ymd 1929 3 1) 5 (Fin 3)) ;;
   index0 (nav r)) = inr (ymd 1928 1 3) /\
  fst (download_data (fresh_world table_2020)
         (extended_start (effective_start (ymd 2020 2 10)) 5)
         (ymd 2020 3 1) 3) = inr table_2020 /\
  find_actual_start table_2020 (ymd 2020 2 10) = inr (ymd 2020 2 10) /\
  (r <- fst (run_backtest approx_lib (fresh_world table_2020) (ymd 2020 2 10)
                          (ymd 2020 3 1) 5 (Fin 3)) ;;
   index0 (rolling_sharpe r)) = inr (ymd 2020 1 6).
Proof.
  repeat split; vm_compute; reflexivity.
Qed.

Lemma fdiv_self_cases (x : float) :
  fdiv x x = if finite_nonzero x then F1 else NaN.
Proof.
  destruct x as [q | | |]; try reflexivity.
  unfold finite_nonzero. destruct (Qeqb q 0) eqn:E; simpl negb; cbv iota.
  - simpl. rewrite E. unfold Qeqb in E. apply Qeq_bool_iff in E.
    unfold Qeq in E. simpl in E. unfold Qsgn.
    replace (Qnum q) with 0%Z by lia. reflexivity.
  - apply fdiv_self. intros H. apply Qeq_bool_iff in H.
    unfold Qeqb in E. congruence.
Qed.

Lemma iloc0_smap {A B} (f : A -> B) (s : Series A) (x0 : A) :
  iloc0 s = inr x0 -> iloc0 (smap f s) = inr (f x0).
Proof.
  destruct s as [| [d x] s]; simpl; [discriminate |].
  intros [= ->]. reflexivity.
Qed.

(** Rebasing, as the code has it.  In every successful run, each
    returned NAV series (strategy, leveraged stock, unleveraged stock,
    gold, benchmark) is its full-span series trimmed at the trim point and
    divided by its own value there; its first value is exactly 1 when
    that value is a number other than 0, and NaN otherwise.  The returned
    moving average
    is the full-span moving average trimmed at the same point and divided
    by the value of the leveraged stock NAV there, the factor the returned
    leveraged stock NAV is divided by. *)
Theorem rebased_series_start_at_one :
  forall (L : NumLib) (w : World) (start end_ : date) (ma_period : Z)
         (leverage : float) (r : BacktestResult) (w' : World),
    run_backtest L w start end_ ma_period leverage = (inr r, w') ->
    exists close fs actual_start scale x_nav x_1x x_gold x_sp,
      fst (download_data w (extended_start (effective_start start) ma_period)
             end_ 3) = inr close /\
      full_span close ma_period leverage = inr fs /\
      first_date_from (df_index close) (effective_start start) actual_start /\
      iloc0 (loc_from actual_start (fs_stock_nav fs)) = inr scale /\
      iloc0 (loc_from actual_start (fs_nav_full fs)) = inr x_nav /\
      iloc0 (loc_from actual_start (fs_stock_nav_1x fs)) = inr x_1x /\
      iloc0 (loc_from actual_start (fs_gold_nav fs)) = inr x_gold /\
      iloc0 (loc_from actual_start (fs_sp500_nav_full fs)) = inr x_sp /\
      iloc0 (nav r) = inr (if finite_nonzero x_nav then F1 else NaN) /\
      iloc0 (stock_nav r) = inr (if finite_nonzero scale then F1 else NaN) /\
      iloc0 (stock_nav_1x r) = inr (if finite_nonzero x_1x then F1 else NaN) /\
      iloc0 (gold_nav r) = inr (if finite_nonzero x_gold then F1 else NaN) /\
      iloc0 (sp500_nav r) = inr (if finite_nonzero x_sp then F1 else NaN) /\
      stock_nav r
      = smap (fun x => fdiv x scale)
             (loc_from actual_start (fs_stock_nav fs)) /\
      stock_ma r
      = smap (fun x => fdiv x scale)
             (loc_from actual_start (fs_stock_ma fs)).
Proof.
  intros L w start end_ ma_period leverage r w' Hrun.
  apply run_backtest_inv in Hrun.
  destruct Hrun as (_ & close & fs & a & Hfetch & Hfs & Ha & Htrim).
  destruct (trim_and_summarize_inv _ _ _ _ _ Htrim)
    as (scale & x_nav & x_1x & x_gold & x_sp & Hs & Hn & H1 & Hg & Hsp &
        En & E3 & E1 & Eg & Esp & Em & _).
  exists close, fs, a, scale, x_nav, x_1x, x_gold, x_sp.
  split; [exact Hfetch |]. split; [exact Hfs |].
  split; [apply find_actual_start_spec, Ha |].
  repeat (split; [assumption |]).
  rewrite En, E3, E1, Eg, Esp, Em.
  rewrite <- !fdiv_self_cases.
  repeat split;
    match goal with
    | |- iloc0 (smap ?f ?s) = _ => apply (iloc0_smap f s); assumption
    end.
Qed.

Lemma rebased_series_start_at_one_witness :
  exists r w',
    run_backtest approx_lib (fresh_world table_2020) (ymd 2020 2 10)
                 (ymd 2020 3 1) 5 (Fin 3) = (inr r, w') /\
    exists close fs actual_start scale x_nav x_1x x_gold x_sp,
      fst (download_data (fresh_world table_2020)
             (extended_start (effective_start (ymd 2020 2 10)) 5)
             (ymd 2020 3 1) 3) = inr close /\
      full_span close 5 (Fin 3) = inr fs /\
      first_date_from (df_index close) (effective_start (ymd 2020 2 10))
                      actual_start /\
      iloc0 (loc_from actual_start (fs_stock_nav fs)) = inr scale /\
      iloc0 (loc_from actual_start (fs_nav_full fs)) = inr x_nav /\
      iloc0 (loc_from actual_start (fs_stock_nav_1x fs)) = inr x_1x /\
      iloc0 (loc_from actual_start (fs_gold_nav fs)) = inr x_gold /\
      iloc0 (loc_from actual_start (fs_sp500_nav_full fs)) = inr x_sp /\
      iloc0 (nav r) = inr (if finite_nonzero x_nav then F1 else NaN) /\
      iloc0 (stock_nav r) = inr (if finite_nonzero scale then F1 else NaN) /\
      iloc0 (stock_nav_1x r) = inr (if finite_nonzero x_1x then F1 else NaN) /\
      iloc0 (gold_nav r) = inr (if finite_nonzero x_gold then F1 else NaN) /\
      iloc0 (sp500_nav r) = inr (if finite_nonzero x_sp then F1 else NaN) /\
      stock_nav r
      = smap (fun x => fdiv x scale)
             (loc_from actual_start (fs_stock_nav fs)) /\
      stock_ma r
      = smap (fun x => fdiv x scale)
             (loc_from actual_start (fs_stock_ma fs)).
Proof.
  destruct (run_backtest approx_lib (fresh_world table_2020) (ymd 2020 2 10)
              (ymd 2020 3 1) 5 (Fin 3))
    as [[e | r] w'] eqn:Hrun.
  - exfalso. vm_compute in Hrun. discriminate Hrun.
  - exists r, w'. split; [reflexivity |].
    exact (rebased_series_start_at_one _ _ _ _ _ _ _ _ Hrun).
Defined.

(** C6.  The returned leveraged stock NAV does not start at 1.0 in the
    run on [table_2005] with a leverage of 2, although the run succeeds.
    The technology fund halves on 2005-01-05, within the warm-up of the
    5-day average, so the leveraged return of that day is -1 and the
    leveraged stock NAV is 0 from then on, also at the trim point
    2005-02-10; the division by the first trimmed value has no guard, and
    the returned leveraged stock NAV is 0/0, NaN, at its first date. *)
Lemma stock_nav_first_value_nan :
  fst (download_data (fresh_world table_2005)
         (extended_start (effective_start (ymd 2005 2 10)) 5)
         (ymd 2006 3 1) 3) = inr table_2005 /\
  (fs <- full_span table_2005 5 (Fin 2) ;;
   iloc0 (loc_from (ymd 2005 2 10) (fs_stock_nav fs))) = inr F0 /\
  (r <- fst (run_backtest approx_lib (fresh_world table_2005) (ymd 2005 2 10)
                          (ymd 2006 3 1) 5 (Fin 2)) ;;
   iloc0 (stock_nav r)) = inr NaN.
Proof.
  repeat split; vm_compute; reflexivity.
Qed.

(** ** Recovery time *)

Lemma loc_scalar_inv {A} (a : date) (s : Series A) (x : A) :
  loc_scalar a s = inr x -> loc_at a s = Some x.
Proof.
  unfold loc_scalar. destruct (loc_at a s); [| discriminate].
  intros [= ->]. reflexivity.
Qed.

(** [idxmin] and [min] scan a series in the same way. *)
Lemma idxmin_from_min_from (s : Series float) (best : option (date * float)) :
  match best with Some (_, b) => isnan b = false | None => True end ->
  match idxmin_from best s with
  | Some (d, v) =>
      v = min_from (match best with Some (_, b) => b | None => NaN end)
                   (values s) /\
      (Some (d, v) = best \/ In (d, v) s)
  | None => best = None
  end.
Proof.
  revert best; induction s as [| [d x] s IH]; intros best Hb; simpl.
  - destruct best as [[e b] |]; auto.
  - destruct (isnan x) eqn:Hx.
    + specialize (IH best Hb).
      destruct (idxmin_from best s) as [[e v] |]; [| exact IH].
      destruct IH as [Hv Hin]. split; [exact Hv |].
      destruct Hin; auto.
    + destruct best as [[e b] |].
      * rewrite Hb. unfold fmin.
        destruct (flt x b) eqn:Hlt.
        -- specialize (IH (Some (d, x)) Hx).
           destruct (idxmin_from (Some (d, x)) s) as [[e' v] |];
             [| discriminate].
           destruct IH as [Hv Hin]. split; [exact Hv |].
           destruct Hin as [Hin | Hin]; [| auto].
           injection Hin as -> ->. auto.
        -- specialize (IH (Some (e, b)) Hb).
           destruct (idxmin_from (Some (e, b)) s) as [[e' v] |];
             [| discriminate].
           destruct IH as [Hv Hin]. split; [exact Hv |].
           destruct Hin; auto.
      * simpl. specialize (IH (Some (d, x)) Hx).
        destruct (idxmin_from (Some (d, x)) s) as [[e' v] |];
          [| discriminate].
        destruct IH as [Hv Hin]. split; [exact Hv |].
        destruct Hin as [Hin | Hin]; [| auto].
        injection Hin as -> ->. auto.
Qed.

(** The label [idxmin] returns carries the minimum of the series. *)
Lemma idxmin_attains_min (s : Series float) (d : date) :
  idxmin s = inr d -> In (d, smin s) s.
Proof.
  unfold idxmin, smin. intros H.
  pose proof (idxmin_from_min_from s None I) as Hspec.
  destruct (idxmin_from None s) as [[e v] |]; [| discriminate].
  injection H as ->. destruct Hspec as [-> [Hin | Hin]];
    [discriminate | exact Hin].
Qed.

(** What [calculate_recovery_days] returns is the recovery time of the
    series it is given. *)
Lemma calculate_recovery_days_spec (nav : Series float) (res : option Z) :
  calculate_recovery_days nav = inr res -> is_recovery_days nav res.
Proof.
  unfold calculate_recovery_days. intros H.
  inv_bind H. rename a into mdd_date, Ha into Hidx.
  inv_bind H. rename a into peak. apply loc_scalar_inv in Ha.
  exists mdd_date, peak. split; [exact Hidx |].
  split; [apply idxmin_attains_min, Hidx |]. split; [exact Ha |].
  destruct (filter _ (loc_from mdd_date nav)) as [| [d v] rest] eqn:E.
  - injection H as <-. apply (filter_nil _ _ E).
  - injection H as <-.
    destruct (filter_head _ _ _ _ E) as (pre & post & Hl & Hpre & Hv).
    exists pre, d, v, post. auto.
Qed.

(** C2, as the code has it.  In every successful run the recovery days
    of the result are the recovery time of the NAV series of the result,
    which is the full-span strategy NAV trimmed at the trim point and
    rebased there: the number of days from the date of the maximum
    drawdown of that trimmed series to the first date from then on at
    which it is back at the running maximum it had on that date, and
    [None] when there is no such date. *)
Theorem recovery_days_of_trimmed_nav :
  forall (L : NumLib) (w : World) (start end_ : date) (ma_period : Z)
         (leverage : float) (r : BacktestResult) (w' : World),
    run_backtest L w start end_ ma_period leverage = (inr r, w') ->
    is_recovery_days (nav r) (recovery_days r) /\
    exists close fs actual_start x_nav,
      fst (download_data w (extended_start (effective_start start) ma_period)
             end_ 3) = inr close /\
      full_span close ma_period leverage = inr fs /\
      first_date_from (df_index close) (effective_start start) actual_start /\
      iloc0 (loc_from actual_start (fs_nav_full fs)) = inr x_nav /\
      nav r = smap (fun x => fdiv x x_nav)
                   (loc_from actual_start (fs_nav_full fs)) /\
      starts_at actual_start (nav r).
Proof.
  intros L w start end_ ma_period leverage r w' Hrun.
  apply run_backtest_inv in Hrun.
  destruct Hrun as (_ & close & fs & a & Hfetch & Hfs & Ha & Htrim).
  destruct (trim_and_summarize_inv _ _ _ _ _ Htrim)
    as (scale & x_nav & x_1x & x_gold & x_sp & _ & Hn & _ & _ & _ &
        En & _ & _ & _ & _ & _ & _ & _ & _ & Hrec).
  split; [apply calculate_recovery_days_spec, Hrec |].
  exists close, fs, a, x_nav.
  pose proof (find_actual_start_spec _ _ _ Ha) as Hfirst.
  repeat (split; [assumption |]).
  rewrite En. apply starts_at_smap.
  destruct (full_span_index _ _ _ _ Hfs) as (_ & Inav & _).
  exact (trimmed_starts_at _ _ _ _ Hfirst Inav).
Qed.

Lemma recovery_days_of_trimmed_nav_witness :
  exists r w',
    run_backtest approx_lib (fresh_world table_2020) (ymd 2020 2 10)
                 (ymd 2020 3 1) 5 (Fin 3) = (inr r, w') /\
    is_recovery_days (nav r) (recovery_days r) /\
    exists close fs actual_start x_nav,
      fst (download_data (fresh_world table_2020)
             (extended_start (effective_start (ymd 2020 2 10)) 5)
             (ymd 2020 3 1) 3) = inr close /\
      full_span close 5 (Fin 3) = inr fs /\
      first_date_from (df_index close) (effective_start (ymd 2020 2 10))
                      actual_start /\
      iloc0 (loc_from actual_start (fs_nav_full fs)) = inr x_nav /\
      nav r = smap (fun x => fdiv x x_nav)
                   (loc_from actual_start (fs_nav_full fs)) /\
      starts_at actual_start (nav r).
Proof.
  destruct (run_backtest approx_lib (fresh_world table_2020) (ymd 2020 2 10)
              (ymd 2020 3 1) 5 (Fin 3))
    as [[e | r] w'] eqn:Hrun.
  - exfalso. vm_compute in Hrun. discriminate Hrun.
  - exists r, w'. split; [reflexivity |].
    exact (recovery_days_of_trimmed_nav _ _ _ _ _ _ _ _ Hrun).
Defined.

(** C2, as stated, fails.  A run requested from 2020-02-10 fetches
    [table_2020].  On the full span the maximum drawdown of the strategy
    NAV is on 2020-01-07 and the NAV has recovered one day later; on the
    trimmed series the maximum drawdown is on 2020-02-11 and the NAV has
    recovered ten days later.  The result reports ten days. *)
Lemma recovery_days_not_from_full_span :
  fst (download_data (fresh_world table_2020)
         (extended_start (effective_start (ymd 2020 2 10)) 5)
         (ymd 2020 3 1) 3) = inr table_2020 /\
  (fs <- full_span table_2020 5 (Fin 3) ;;
   idxmin (calculate_drawdown_series (fs_nav_full fs)))
  = inr (ymd 2020 1 7) /\
  full_span_recovery_days table_2020 5 (Fin 3) = inr (Some 1%Z) /\
  (r <- fst (run_backtest approx_lib (fresh_world table_2020) (ymd 2020 2 10)
                          (ymd 2020 3 1) 5 (Fin 3)) ;;
   idxmin (calculate_drawdown_series (nav r))) = inr (ymd 2020 2 11) /\
  (r <- fst (run_backtest approx_lib (fresh_world table_2020) (ymd 2020 2 10)
                          (ymd 2020 3 1) 5 (Fin 3)) ;;
   ret (recovery_days r)) = inr (Some 10%Z).
Proof.
  repeat split; vm_compute; reflexivity.
Qed.

(** * Further properties of the code *)

(** ** Fetching: what a call leaves behind *)

Lemma path_eqb_refl (p : CachePath) : path_eqb p p = true.
Proof. unfold path_eqb. rewrite !Z.eqb_refl. reflexivity. Qed.

Lemma fresh_entry_is_warm (w : World) (path : CachePath) (close : DataFrame) :
  warm_cache_entry (cache_write w path close) path = Some close.
Proof.
  unfold warm_cache_entry, cache_write, cache_lookup. simpl.
  rewrite path_eqb_refl. simpl.
  rewrite Z.sub_diag. reflexivity.
Qed.

Lemma download_attempts_some n path start end_ w close w' :
  download_attempts n path start end_ w = (Some close, w') ->
  warm_cache_entry w' path = Some close.
Proof.
  revert w; induction n as [| n IH]; intros w; simpl; [discriminate |].
  destruct (yf_download w start end_) as [[| raw] w1].
  - apply IH.
  - destruct (df_empty raw); simpl.
    + apply IH.
    + intros [= <- <-]. apply fresh_entry_is_warm.
Qed.

(** A warm entry is returned without a call to the provider and without a
    change to the cache or the clock. *)
Lemma download_data_warm_world w start end_ n close :
  warm_cache_entry w (_get_cache_path start end_) = Some close ->
  fst (download_data w start end_ n) = inr close /\
  cache (snd (download_data w start end_ n)) = cache w /\
  network (snd (download_data w start end_ n)) = network w /\
  now (snd (download_data w start end_ n)) = now w.
Proof.
  unfold warm_cache_entry, download_data, _is_cache_valid, cache_load,
    cache_lookup; simpl.
  destruct (find _ (cache w)) as [[p f] |] eqn:Hfind; simpl; [| discriminate].
  destruct (Qltb _ _) eqn:Hage; [| discriminate].
  simpl. rewrite Hfind; simpl.
  intros ->; simpl; auto.
Qed.

(** After [download_data] has returned a table, from the cache or from the
    provider, the cache holds that table as a warm entry. *)
Lemma download_data_leaves_warm_entry w start end_ n close w' :
  download_data w start end_ n = (inr close, w') ->
  warm_cache_entry w' (_get_cache_path start end_) = Some close.
Proof.
  unfold download_data.
  destruct (_is_cache_valid w _) as [valid w1] eqn:Hvalid.
  assert (Hw1 : cache w1 = cache w /\ now w1 = now w).
  { pose proof (is_cache_valid_cache w (_get_cache_path start end_)) as H.
    rewrite Hvalid in H. exact H. }
  destruct valid.
  - unfold cache_load.
    destruct (cache_lookup (log _ w1) _) as [f |] eqn:Hlook.
    + destruct (payload f) as [c |] eqn:Hpay.
      * intros [= <- <-].
        unfold _is_cache_valid in Hvalid.
        unfold warm_cache_entry.
        unfold cache_lookup in *. simpl in *.
        destruct Hw1 as [Hc Hn]. rewrite Hc in Hlook.
        rewrite Hlook in Hvalid. rewrite Hc, Hlook.
        injection Hvalid as Hage _. rewrite Hn, Hage. exact Hpay.
      * destruct (download_attempts _ _ _ _ _) as [[c |] w3] eqn:Hatt.
        -- intros [= <- <-]. apply (download_attempts_some _ _ _ _ _ _ _ Hatt).
        -- destruct (_ <=? 1)%Z; [discriminate |].
           destruct (_ <? 0)%Z; discriminate.
    + destruct (download_attempts _ _ _ _ _) as [[c |] w3] eqn:Hatt.
      * intros [= <- <-]. apply (download_attempts_some _ _ _ _ _ _ _ Hatt).
      * destruct (_ <=? 1)%Z; [discriminate |].
        destruct (_ <? 0)%Z; discriminate.
  - destruct (download_attempts _ _ _ _ _) as [[c |] w3] eqn:Hatt.
    + intros [= <- <-]. apply (download_attempts_some _ _ _ _ _ _ _ Hatt).
    + destruct (_ <=? 1)%Z; [discriminate |].
      destruct (_ <? 0)%Z; discriminate.
Qed.

(** X1.  When [download_data] has returned a table, a second call with
    the same dates, made in the environment the first one left, returns
    the same table from the cache: the provider is not called, and the
    cache and the clock stay as they are. *)
Theorem download_data_repeat_hits_cache :
  forall (w : World) (start end_ : date) (n m : nat) (close : DataFrame)
         (w' : World),
    download_data w start end_ n = (inr close, w') ->
    fst (download_data w' start end_ m) = inr close /\
    cache (snd (download_data w' start end_ m)) = cache w' /\
    network (snd (download_data w' start end_ m)) = network w' /\
    now (snd (download_data w' start end_ m)) = now w'.
Proof.
  intros w start end_ n m close w' H.
  apply download_data_warm_world.
  apply (download_data_leaves_warm_entry _ _ _ _ _ _ H).
Qed.

Lemma download_data_repeat_hits_cache_witness :
  exists close w',
    download_data (fresh_world table_2010_raw) (ymd 2009 12 1) (ymd 2010 3 1) 3
    = (inr close, w') /\
    fst (download_data w' (ymd 2009 12 1) (ymd 2010 3 1) 3) = inr close /\
    network (snd (download_data w' (ymd 2009 12 1) (ymd 2010 3 1) 3))
    = network w'.
Proof.
  destruct (download_data (fresh_world table_2010_raw) (ymd 2009 12 1)
              (ymd 2010 3 1) 3) as [[e | close] w'] eqn:H.
  - exfalso. vm_compute in H. discriminate H.
  - exists close, w'. split; [reflexivity |].
    destruct (download_data_repeat_hits_cache _ _ _ 3 3 _ _ H)
      as (H1 & _ & H3 & _).
    split; assumption.
Defined.

Lemma download_attempts_none n path start end_ w w' :
  download_attempts n path start end_ w = (None, w') ->
  cache w' = cache w /\
  now w' = (now w + 2 * Z.of_nat n)%Z /\
  network w' = skipn n (network w).
Proof.
  revert w; induction n as [| n IH]; intros w.
  - simpl. intros [= <-]. repeat split. lia.
  - cbn [download_attempts]. unfold yf_download.
    assert (Hstep : forall w1 : World,
              download_attempts n path start end_ (sleep 2 w1) = (None, w') ->
              cache w' = cache w1 /\
              now w' = (now w1 + 2 * Z.of_nat (S n))%Z /\
              network w' = skipn n (network w1)).
    { intros w1 H. apply IH in H. unfold sleep in H.
      cbn [cache now network] in H.
      destruct H as (Hc & Hn & Hk). repeat split; try assumption. lia. }
    destruct (network w) as [| resp rest] eqn:Hnet.
    + intros H. apply Hstep in H. cbn [cache now network] in H.
      destruct H as (Hc & Hn & Hk). rewrite Hc, Hn, Hk.
      repeat split. destruct n; reflexivity.
    + destruct resp as [| raw].
      * intros H. apply Hstep in H. cbn [cache now network] in H.
        destruct H as (Hc & Hn & Hk). rewrite Hc, Hn, Hk.
        repeat split.
      * destruct (df_empty raw); cbn [negb]; [| discriminate].
        intros H. apply Hstep in H. cbn [cache now network] in H.
        destruct H as (Hc & Hn & Hk). rewrite Hc, Hn, Hk.
        repeat split.
Qed.

(** X2.  When [download_data] raises, every one of the [max_retries]
    attempts has been made and has failed: that many answers of the
    provider are consumed, the clock has advanced by 2 seconds per
    attempt, the cache is as it was, and the error is the data-lag error
    when the end date is at most one day before today (or after it), the
    generic one otherwise. *)
Theorem download_data_failure :
  forall (w : World) (start end_ : date) (max_retries : nat) (e : exn)
         (w' : World),
    download_data w start end_ max_retries = (inl e, w') ->
    cache w' = cache w /\
    now w' = (now w + 2 * Z.of_nat max_retries)%Z /\
    network w' = skipn max_retries (network w) /\
    e = (if (today w - end_ <=? 1)%Z
         then RuntimeError_end_too_close_to_today
         else RuntimeError_download_failed).
Proof.
  intros w start end_ n e w'. unfold download_data.
  destruct (_is_cache_valid w _) as [valid w1] eqn:Hvalid.
  assert (Hw1 : cache w1 = cache w /\ now w1 = now w /\
                network w1 = network w).
  { unfold _is_cache_valid in Hvalid.
    destruct (cache_lookup _ _); injection Hvalid as _ <-; simpl; auto. }
  destruct Hw1 as (Hc1 & Hn1 & Hk1).
  assert (Hfinal : forall w2,
    cache w2 = cache w -> now w2 = now w -> network w2 = network w ->
    (let (fetched, w0) :=
       download_attempts n (_get_cache_path start end_) start end_ w2 in
     match fetched with
     | Some close => (ret close, w0)
     | None =>
         if (today w - end_ <=? 1)%Z
         then (raise RuntimeError_end_too_close_to_today, w0)
         else if (today w - end_ <? 0)%Z
              then (raise RuntimeError_end_in_future, w0)
              else (raise RuntimeError_download_failed, w0)
     end) = (inl e, w') ->
    cache w' = cache w /\
    now w' = (now w + 2 * Z.of_nat n)%Z /\
    network w' = skipn n (network w) /\
    e = (if (today w - end_ <=? 1)%Z
         then RuntimeError_end_too_close_to_today
         else RuntimeError_download_failed)).
  { intros w2 Hc Hn Hk.
    destruct (download_attempts _ _ _ _ w2) as [[c |] w3] eqn:Hatt;
      [discriminate |].
    apply download_attempts_none in Hatt.
    destruct Hatt as (Hc3 & Hn3 & Hk3).
    rewrite Hc, Hn, Hk in *.
    destruct (Z.leb_spec (today w - end_) 1).
    - intros [= <- <-]. auto.
    - destruct (Z.ltb_spec (today w - end_) 0); [lia |].
      intros [= <- <-]. auto. }
  destruct valid.
  - unfold cache_load.
    destruct (cache_lookup (log _ w1) _) as [f |].
    + destruct (payload f) as [c |]; [discriminate |].
      apply Hfinal; simpl; assumption.
    + apply Hfinal; simpl; assumption.
  - apply Hfinal; assumption.
Qed.

Lemma download_data_failure_witness :
  exists e w',
    download_data offline_world (ymd 2020 1 1) (ymd 2020 3 1) 3 = (inl e, w') /\
    now w' = (now offline_world + 2 * Z.of_nat 3)%Z /\
    e = RuntimeError_download_failed.
Proof.
  destruct (download_data offline_world (ymd 2020 1 1) (ymd 2020 3 1) 3)
    as [[e | close] w'] eqn:H.
  - exists e, w'. split; [reflexivity |].
    destruct (download_data_failure _ _ _ _ _ _ H) as (_ & Hn & _ & He).
    split; [exact Hn | exact He].
  - exfalso. vm_compute in H. discriminate H.
Defined.

(** ** Gap filling *)









(** Filling forward from a valid value leaves no NaN. *)
Lemma ffill_from_valid (p : float) (l : list float) :
  isnan p = false -> forallb notna (ffill_from p l) = true.
Proof.
  revert p; induction l as [| x l IH]; intros p Hp; simpl; [reflexivity |].
  destruct (isnan x) eqn:Hx.
  - unfold notna. rewrite Hp. simpl. apply IH, Hp.
  - unfold notna. rewrite Hx. simpl. apply IH, Hx.
Qed.

(** Filling forward from NaN gives NaN up to the first valid value and
    valid values from there on. *)
Lemma ffill_from_nan_shape (l : list float) :
  exists k v,
    ffill_from NaN l = repeat NaN k ++ v /\ forallb notna v = true /\
    (existsb notna l = false -> v = []) /\
    (existsb notna l = true -> v <> []).
Proof.
  induction l as [| x l IH].
  - exists 0, []. simpl. repeat split; auto; discriminate.
  - cbn [ffill_from existsb].
    destruct (isnan x) eqn:Hx.
    + replace (notna x) with false by (unfold notna; rewrite Hx; reflexivity).
      destruct IH as (k & v & E & Hv & H0 & H1).
      exists (S k), v. simpl. rewrite E. auto.
    + replace (notna x) with true by (unfold notna; rewrite Hx; reflexivity).
      exists 0, (x :: ffill_from x l). simpl.
      replace (notna x) with true by (unfold notna; rewrite Hx; reflexivity).
      simpl. repeat split.
      * apply ffill_from_valid, Hx.
      * discriminate.
      * discriminate.
Qed.


Lemma existsb_rev {A} (f : A -> bool) (l : list A) :
  existsb f (rev l) = existsb f l.
Proof.
  induction l as [| x l IH]; simpl; [reflexivity |].
  rewrite existsb_app, IH. simpl. rewrite orb_false_r. apply orb_comm.
Qed.

Lemma ffill_from_nan_all_nan (l : list float) :
  forallb isnan l = true -> ffill_from NaN l = l.
Proof.
  induction l as [| x l IH]; simpl; [reflexivity |].
  destruct (isnan x) eqn:Hx; simpl; [| discriminate].
  intros H. rewrite (IH H). destruct x; try discriminate. reflexivity.
Qed.

Lemma existsb_notna_false (l : list float) :
  existsb notna l = false -> forallb isnan l = true.
Proof.
  induction l as [| x l IH]; simpl; [reflexivity |].
  unfold notna at 1. destruct (isnan x); simpl; [exact IH | discriminate].
Qed.

Lemma existsb_ffill_from (l : list float) :
  existsb notna (ffill_from NaN l) = existsb notna l.
Proof.
  destruct (existsb notna l) eqn:E.
  - destruct (ffill_from_nan_shape l) as (k & v & Ev & Hv & _ & H1).
    rewrite Ev, existsb_app. destruct v as [| y v]; [now elim (H1 E) |].
    simpl in *. apply andb_true_iff in Hv. destruct Hv as [-> _].
    apply orb_true_r.
  - rewrite (ffill_from_nan_all_nan l (existsb_notna_false l E)). exact E.
Qed.


(** Filling forward keeps the length and the valid values. *)
Lemma ffill_from_keeps (p : float) (l : list float) :
  length (ffill_from p l) = length l /\
  forall k, isnan (nth k l NaN) = false ->
            nth k (ffill_from p l) NaN = nth k l NaN.
Proof.
  revert p; induction l as [| x l IH]; intros p; simpl.
  - split; [reflexivity |]. intros [| k]; discriminate.
  - destruct (IH (if isnan x then p else x)) as [Hlen Hk].
    split; [f_equal; exact Hlen |].
    intros [| k] Hv; simpl in *.
    + rewrite Hv. reflexivity.
    + apply Hk, Hv.
Qed.


Lemma download_attempts_from_provider n path start end_ w close w' :
  download_attempts n path start end_ w = (Some close, w') ->
  exists raw,
    In (Returns raw) (network w) /\ raw <> [] /\
    close = df_bfill (df_ffill raw) /\
    cache_lookup w' path = Some (mkCacheFile (now w') (Some close)).
Proof.
  revert w; induction n as [| n IH]; intros w; [discriminate |].
  cbn [download_attempts]. unfold yf_download.
  destruct (network w) as [| resp rest] eqn:Hnet.
  - intros H. apply IH in H. destruct H as (raw & Hin & _).
    destruct Hin.
  - destruct resp as [| raw].
    + intros H. apply IH in H. destruct H as (raw & Hin & H).
      exists raw. split; [right; exact Hin | exact H].
    + destruct raw as [| r raw]; cbn [df_empty negb].
      * intros H. apply IH in H. destruct H as (raw' & Hin & H).
        exists raw'. split; [right; exact Hin | exact H].
      * intros [= <- <-]. exists (r :: raw).
        split; [left; reflexivity |]. split; [discriminate |].
        split; [reflexivity |].
        unfold cache_lookup, cache_write. cbn [cache now find fst snd].
        rewrite path_eqb_refl. reflexivity.
Qed.



(** ** Returns: eras, splices and cleaning *)

Lemma clean_finite (x : float) : isfinite (clean x) = true.
Proof. destruct x; reflexivity. Qed.

Lemma values_clean (s : Series float) :
  values (fillna0 (replace_inf_nan s)) = map clean (values s).
Proof.
  unfold fillna0, replace_inf_nan. rewrite !values_smap, map_map.
  apply map_ext. intros x. destruct x; reflexivity.
Qed.

(** X4.  The unleveraged stock return and the gold return are finite on
    every date: an undefined or infinite percent change becomes 0. *)
Theorem cleaned_returns_are_finite :
  forall (close : DataFrame) (v : float),
    In v (values (stitch_stock_returns close)) \/
    In v (values (gold_returns close)) ->
    isfinite v = true.
Proof.
  intros close v H.
  unfold stitch_stock_returns, gold_returns in H.
  rewrite !values_clean in H.
  destruct H as [H | H]; apply in_map_iff in H;
    destruct H as (x & <- & _); apply clean_finite.
Qed.

Lemma cleaned_returns_are_finite_witness :
  In (nth 1 (values (gold_returns table_gold)) NaN)
     (values (gold_returns table_gold)) /\
  isfinite (nth 1 (values (gold_returns table_gold)) NaN) = true.
Proof.
  assert (H : In (nth 1 (values (gold_returns table_gold)) NaN)
                (values (gold_returns table_gold)))
    by (apply nth_In; vm_compute; lia).
  split; [exact H |].
  exact (cleaned_returns_are_finite table_gold _ (or_intror H)).
Defined.

Lemma values_empty_series_nth (close : DataFrame) (k : nat) :
  nth k (values (empty_series close)) NaN = NaN.
Proof.
  unfold values, empty_series. rewrite map_map. simpl.
  revert k; induction close as [| r close IH]; intros [| k]; simpl; auto.
Qed.

(** The stitched return at a position, as the chain of slice assignments
    leaves it: the last assignment whose slice holds the date wins. *)
Lemma stitch_assignments_nth (close : DataFrame) (k : nat) :
  k < length close ->
  let d := nth k (df_index close) 0%Z in
  let pct t := nth k (values (pct_change (column t close))) NaN in
  nth k (values (stitch_stock_returns close)) NaN
  = clean (if from_year 2010 d then pct QQQ
           else if in_years 2000 2009 d then pct QQQ
           else if in_years 1986 1999 d then pct NDX
           else if in_years 1971 1985 d then pct IXIC
           else if in_years 1927 1970 d then pct GSPC
           else NaN).
Proof.
  intros Hk d pct. unfold stitch_stock_returns.
  assert (H : forall sel tgt t,
             length tgt = length close -> index tgt = df_index close ->
             length (loc_assign sel tgt (pct_change (column t close)))
             = length close /\
             index (loc_assign sel tgt (pct_change (column t close)))
             = df_index close /\
             nth k (values (loc_assign sel tgt (pct_change (column t close))))
                 NaN
             = if sel d then pct t else nth k (values tgt) NaN).
  { intros sel tgt t Hl Hi.
    assert (Hs : length tgt = length (pct_change (column t close)))
      by (rewrite length_pct_change, length_column; exact Hl).
    rewrite length_loc_assign, index_loc_assign by exact Hs.
    rewrite values_loc_assign_nth
      by first [exact Hs | rewrite Hl; exact Hk].
    rewrite Hi. auto. }
  assert (L0 : length (empty_series close) = length close)
    by apply length_map.
  pose proof (index_empty_series close) as I0.
  assert (V0 : nth k (values (empty_series close)) NaN = NaN).
  { apply values_empty_series_nth. }
  destruct (H (in_years 1927 1970) _ GSPC L0 I0) as (L1 & I1 & V1).
  destruct (H (in_years 1971 1985) _ IXIC L1 I1) as (L2 & I2 & V2).
  destruct (H (in_years 1986 1999) _ NDX L2 I2) as (L3 & I3 & V3).
  destruct (H (in_years 2000 2009) _ QQQ L3 I3) as (L4 & I4 & V4).
  destruct (H (from_year 2010) _ QQQ L4 I4) as (L5 & I5 & V5).
  rewrite values_clean_nth by (rewrite L5; exact Hk).
  rewrite V5, V4, V3, V2, V1, V0. reflexivity.
Qed.

(** X5.  The unleveraged stock return on a date is the cleaned percent
    change of the instrument of its era: the broad index from 1927 to
    1970, the composite index to 1985, the technology index to 1999, the
    technology fund from 2000 on; it is 0 before 1927. *)
Theorem stitched_return_follows_eras :
  forall (close : DataFrame) (k : nat),
    k < length close ->
    nth k (values (stitch_stock_returns close)) NaN
    = match era_ticker (nth k (df_index close) 0%Z) with
      | Some t => clean (nth k (values (pct_change (column t close))) NaN)
      | None => F0
      end.
Proof.
  intros close k Hk. rewrite (stitch_assignments_nth close k Hk).
  cbv zeta.
  unfold era_ticker, in_years, from_year.
  set (d := nth k (df_index close) 0%Z).
  change (1970 + 1)%Z with 1971%Z. change (1985 + 1)%Z with 1986%Z.
  change (1999 + 1)%Z with 2000%Z. change (2009 + 1)%Z with 2010%Z.
  eval_dates.
  repeat match goal with
         | |- context [(?a <=? ?b)%Z] => destruct (Z.leb_spec a b)
         | |- context [(?a <? ?b)%Z] => destruct (Z.ltb_spec a b)
         end; simpl; try reflexivity; try lia.
Qed.

Lemma stitched_return_follows_eras_witness :
  1 < length table_2005 /\
  nth 1 (values (stitch_stock_returns table_2005)) NaN
  = clean (nth 1 (values (pct_change (column QQQ table_2005))) NaN).
Proof.
  assert (H : 1 < length table_2005) by (vm_compute; lia).
  split; [exact H |].
  exact (stitched_return_follows_eras table_2005 1 H).
Defined.

Lemma first_valid_index_none (s : Series float) :
  first_valid_index s = None -> forall k, nth k (values s) NaN = NaN.
Proof.
  unfold first_valid_index.
  induction s as [| [d x] s IH]; simpl.
  - intros _ [| k]; reflexivity.
  - unfold notna at 1. simpl. destruct (isnan x) eqn:Hx; simpl;
      [| discriminate].
    intros H [| k]; simpl.
    + destruct x; try discriminate; reflexivity.
    + apply IH, H.
Qed.

Lemma fdiv_nan_l (x : float) : fdiv NaN x = NaN.
Proof. reflexivity. Qed.

(** The gold return at a position, as the two slice assignments leave
    it. *)
Lemma gold_assignments_nth (close : DataFrame) (k : nat) :
  k < length close ->
  let d := nth k (df_index close) 0%Z in
  let iau_start := first_valid_index (column IAU close) in
  nth k (values (gold_returns close)) NaN
  = clean (if from_opt iau_start d
           then nth k (values (pct_change (column IAU close))) NaN
           else if upto_opt iau_start d
                then nth k (values (pct_change (column GCF close))) NaN
                else NaN).
Proof.
  intros Hk d iau. unfold gold_returns. fold iau.
  assert (L0 : length (empty_series close) = length close)
    by apply length_map.
  assert (L1 : length (loc_assign (upto_opt iau) (empty_series close)
                         (pct_change (column GCF close))) = length close).
  { rewrite length_loc_assign; [exact L0 |].
    rewrite length_pct_change, length_column. exact L0. }
  rewrite values_clean_nth
    by (rewrite length_loc_assign;
        rewrite ?length_pct_change, ?length_column; lia).
  rewrite values_loc_assign_nth
    by (rewrite ?length_pct_change, ?length_column; lia).
  rewrite index_loc_assign
    by (rewrite length_pct_change, length_column; exact L0).
  rewrite index_empty_series.
  rewrite values_loc_assign_nth
    by (rewrite ?length_pct_change, ?length_column; lia).
  rewrite index_empty_series.
  rewrite values_empty_series_nth. reflexivity.
Qed.

(** X6.  The gold return on a date before the first valid date of the
    gold fund is the cleaned percent change of the futures price; from
    that date on it is the cleaned percent change of the fund.  When the
    fund has no valid price in the table, the gold return is 0 on every
    date, whatever the futures prices are. *)
Theorem gold_return_follows_splice :
  forall (close : DataFrame) (k : nat),
    k < length close ->
    nth k (values (gold_returns close)) NaN
    = match first_valid_index (column IAU close) with
      | Some iau_start =>
          if (iau_start <=? nth k (df_index close) 0)%Z
          then clean (nth k (values (pct_change (column IAU close))) NaN)
          else clean (nth k (values (pct_change (column GCF close))) NaN)
      | None => F0
      end.
Proof.
  intros close k Hk. rewrite (gold_assignments_nth close k Hk). cbv zeta.
  destruct (first_valid_index (column IAU close)) as [a |] eqn:Hiau;
    unfold from_opt, upto_opt, from_day, upto_day.
  - destruct (Z.leb_spec a (nth k (df_index close) 0%Z)); [reflexivity |].
    destruct (Z.leb_spec (nth k (df_index close) 0%Z) a); [reflexivity | lia].
  - rewrite values_pct_change_nth by (rewrite length_column; exact Hk).
    rewrite (first_valid_index_none _ Hiau k). reflexivity.
Qed.

Lemma gold_return_follows_splice_witness :
  1 < length table_gold /\
  nth 1 (values (gold_returns table_gold)) NaN
  = clean (nth 1 (values (pct_change (column GCF table_gold))) NaN).
Proof.
  assert (H : 1 < length table_gold) by (vm_compute; lia).
  split; [exact H |].
  exact (gold_return_follows_splice table_gold 1 H).
Defined.

(** ** Full-span series *)

Lemma pct_change_first (s : Series float) :
  0 < length s -> nth 0 (values (pct_change s)) NaN = NaN.
Proof.
  intros H. rewrite values_pct_change_nth by exact H.
  simpl. rewrite fdiv_nan_r. reflexivity.
Qed.

Lemma stitch_first (close : DataFrame) :
  0 < length close -> nth 0 (values (stitch_stock_returns close)) NaN = F0.
Proof.
  intros H. rewrite (stitch_assignments_nth close 0 H). cbv zeta.
  rewrite !pct_change_first by (rewrite length_column; exact H).
  repeat match goal with |- context [if ?b then _ else _] => destruct b end;
    reflexivity.
Qed.

Lemma gold_first (close : DataFrame) :
  0 < length close -> nth 0 (values (gold_returns close)) NaN = F0.
Proof.
  intros H. rewrite (gold_assignments_nth close 0 H). cbv zeta.
  rewrite !pct_change_first by (rewrite length_column; exact H).
  repeat match goal with |- context [if ?b then _ else _] => destruct b end;
    reflexivity.
Qed.

Lemma fmul_0_finite (x : float) : isfinite x = true -> fmul F0 x = F0.
Proof.
  destruct x as [q | | |]; try discriminate. intros _. reflexivity.
Qed.

Lemma leveraged_first (close : DataFrame) (leverage : float) :
  0 < length close -> isfinite leverage = true ->
  nth 0 (values (leveraged_stock_returns close leverage)) NaN = F0.
Proof.
  intros H Hl. rewrite leveraged_stock_returns_nth by exact H.
  destruct (from_day _ _).
  - rewrite pct_change_first by (rewrite length_column; exact H). reflexivity.
  - rewrite stitch_first by exact H. apply fmul_0_finite, Hl.
Qed.

(** A return series that starts with 0 compounds to a NAV that starts
    with 1, and rebasing leaves it there. *)
Lemma rebase_compound_first (r s : Series float) :
  nth 0 (values r) NaN = F0 -> r <> [] ->
  rebase (compound r) = inr s -> iloc0 s = inr F1.
Proof.
  destruct r as [| [d x] r]; [congruence |].
  simpl. intros -> _. unfold rebase, compound, cumprod. simpl.
  intros [= <-]. reflexivity.
Qed.

Lemma nonempty_length {A} (l : list A) : l <> [] -> 0 < length l.
Proof. destruct l; simpl; [congruence | lia]. Qed.

Lemma series_nonempty_of_length {A} (s : Series A) (n : nat) :
  length s = n -> 0 < n -> s <> [].
Proof. destruct s; simpl; intros; [lia | discriminate]. Qed.

(** X7.  On a table that is not empty, the leg NAVs built on the full
    fetched span start at exactly 1: the unleveraged stock NAV and the gold
    NAV always, the leveraged stock NAV whenever the leverage is a finite
    number. *)
Theorem full_span_navs_start_at_one :
  forall (close : DataFrame) (leverage : float),
    close <> [] ->
    exists r_stock stock_nav stock_nav_1x r_gold gold_nav,
      build_stock_returns close leverage
      = inr (r_stock, stock_nav, stock_nav_1x) /\
      build_gold_returns close = inr (r_gold, gold_nav) /\
      iloc0 stock_nav_1x = inr F1 /\
      iloc0 gold_nav = inr F1 /\
      (isfinite leverage = true -> iloc0 stock_nav = inr F1).
Proof.
  intros close leverage Hne.
  pose proof (nonempty_length _ Hne) as Hlen.
  destruct (build_stock_returns_inr close leverage Hne) as (n3 & n1 & E).
  assert (Hg : compound (gold_returns close) <> []).
  { apply index_nonempty. rewrite index_compound, index_gold_returns.
    destruct close; simpl; congruence. }
  destruct (rebase_inr _ Hg) as (xg & _ & Eg).
  exists (leveraged_stock_returns close leverage), n3, n1,
         (gold_returns close),
         (smap (fun x => fdiv x xg) (compound (gold_returns close))).
  split; [exact E |].
  split; [unfold build_gold_returns; rewrite Eg; reflexivity |].
  unfold build_stock_returns in E.
  inv_bind E. inv_bind E. injection E as <- <-.
  split; [| split].
  - apply (rebase_compound_first _ _ (stitch_first close Hlen)); [| exact Ha].
    apply (series_nonempty_of_length _ _ (length_stitch_stock_returns close)
             Hlen).
  - apply (rebase_compound_first _ _ (gold_first close Hlen)); [| exact Eg].
    apply (series_nonempty_of_length _ (length close)); [| exact Hlen].
    rewrite <- (index_length (gold_returns close)), index_gold_returns.
    apply length_map.
  - intros Hl.
    apply (rebase_compound_first _ _ (leveraged_first close leverage Hlen Hl));
      [| exact Ha0].
    apply (series_nonempty_of_length _ _
             (length_leveraged_stock_returns close leverage) Hlen).
Qed.

Lemma full_span_navs_start_at_one_witness :
  table_1927 <> [] /\
  exists r_stock stock_nav stock_nav_1x r_gold gold_nav,
    build_stock_returns table_1927 (Fin 3)
    = inr (r_stock, stock_nav, stock_nav_1x) /\
    build_gold_returns table_1927 = inr (r_gold, gold_nav) /\
    iloc0 stock_nav_1x = inr F1 /\
    iloc0 gold_nav = inr F1 /\
    (isfinite (Fin 3) = true -> iloc0 stock_nav = inr F1).
Proof.
  assert (H : table_1927 <> []) by (vm_compute; discriminate).
  split; [exact H |].
  exact (full_span_navs_start_at_one table_1927 (Fin 3) H).
Defined.

Lemma values_np_where_nth (c : Series bool) (a b : Series float) (t : nat) :
  length a = length c -> length b = length c -> t < length c ->
  nth t (values (np_where c a b)) NaN
  = if nth t (values c) false
    then nth t (values a) NaN
    else nth t (values b) NaN.
Proof.
  intros Ha Hb Ht. unfold np_where.
  rewrite (values_smap2_nth _ _ _ t (false, NaN) NaN NaN).
  - rewrite (values_smap2_nth pair _ _ t false NaN (false, NaN));
      [reflexivity | symmetry; exact Ha | exact Ht].
  - rewrite length_smap2 by (symmetry; exact Ha). symmetry; exact Hb.
  - rewrite length_smap2 by (symmetry; exact Ha). exact Ht.
Qed.

Lemma trailing_mean_short (w : nat) (vals : list float) (k : nat) :
  S k < w -> trailing_mean w vals k = NaN.
Proof.
  intros H. unfold trailing_mean, trailing_window.
  assert (Hlen : length (firstn w (rev (firstn (S k) vals))) <= S k).
  { rewrite length_firstn, length_rev, length_firstn. lia. }
  destruct (Nat.ltb_spec (length (firstn w (rev (firstn (S k) vals)))) w);
    [reflexivity | lia].
Qed.

(** The signal is false on the first [w] dates. *)
Lemma signal_warm_up (w : nat) (s : Series float) (t : nat) :
  t < length s -> t < w ->
  nth t (values (smap2 fgt (shift s) (shift (rolling_from w mean [] s))))
      false = false.
Proof.
  intros Ht Hw. rewrite signal_value by exact Ht.
  destruct t as [| k]; [reflexivity |].
  simpl. rewrite rolling_mean_nth by lia.
  rewrite trailing_mean_short by exact Hw.
  unfold fgt. reflexivity.
Qed.

(** X8.  On the first [ma_period] dates of the fetched table the moving
    average is not yet defined where the signal reads it, the signal is
    false, and the strategy return is the gold return: the strategy holds
    gold during the warm-up of the moving average. *)
Theorem strategy_holds_gold_during_warm_up :
  forall (close : DataFrame) (ma_period : Z) (leverage : float)
         (fs : FullSpan) (t : nat),
    full_span close ma_period leverage = inr fs ->
    t < length close ->
    (Z.of_nat t < ma_period)%Z ->
    nth t (values (fs_signal fs)) false = false /\
    nth t (values (fs_r_strategy fs)) NaN
    = nth t (values (gold_returns close)) NaN.
Proof.
  intros close ma_period leverage fs t H Ht Hw.
  unfold full_span in H.
  inv_bind H. destruct a as [[r_stock stock_nav] stock_nav_1x].
  inv_bind H. destruct a as [r_gold gold_nav].
  inv_bind H. destruct a as [sig ma].
  injection H as <-. cbn [fs_signal fs_r_strategy].
  apply build_stock_returns_inv in Ha. destruct Ha as (-> & I3 & _).
  apply build_gold_returns_inv in Ha0. destruct Ha0 as (-> & _).
  assert (Hpos : (0 <= ma_period)%Z) by lia.
  rewrite (generate_signal_eq _ _ Hpos) in Ha1. injection Ha1 as <- <-.
  assert (Hn : length stock_nav = length close).
  { rewrite <- (index_length stock_nav), I3. apply length_map. }
  assert (Hsig : nth t (values (smap2 fgt (shift stock_nav)
                   (shift (rolling_from (Z.to_nat ma_period) mean []
                             stock_nav)))) false = false).
  { apply signal_warm_up; lia. }
  split; [exact Hsig |].
  rewrite values_np_where_nth.
  - rewrite Hsig. reflexivity.
  - rewrite length_leveraged_stock_returns.
    rewrite length_smap2; rewrite !length_shift, ?length_rolling_from; lia.
  - rewrite length_smap2; rewrite !length_shift, ?length_rolling_from;
      try lia.
    rewrite <- (index_length (gold_returns close)), index_gold_returns.
    rewrite Hn. apply length_map.
  - rewrite length_smap2; rewrite !length_shift, ?length_rolling_from; lia.
Qed.

Lemma strategy_holds_gold_during_warm_up_witness :
  exists fs,
    full_span table_1927 5 (Fin 3) = inr fs /\
    4 < length table_1927 /\
    (Z.of_nat 4 < 5)%Z /\
    nth 4 (values (fs_signal fs)) false = false /\
    nth 4 (values (fs_r_strategy fs)) NaN
    = nth 4 (values (gold_returns table_1927)) NaN.
Proof.
  destruct (full_span table_1927 5 (Fin 3)) as [e | fs] eqn:H.
  - exfalso. vm_compute in H. discriminate H.
  - exists fs. split; [reflexivity |].
    assert (H1 : 4 < length table_1927) by (vm_compute; lia).
    assert (H2 : (Z.of_nat 4 < 5)%Z) by (vm_compute; reflexivity).
    split; [exact H1 |]. split; [exact H2 |].
    exact (strategy_holds_gold_during_warm_up _ _ _ _ 4 H H1 H2).
Defined.

Lemma full_span_total (close : DataFrame) (ma_period : Z) (leverage : float) :
  close <> [] -> (0 <= ma_period)%Z ->
  exists fs, full_span close ma_period leverage = inr fs.
Proof.
  intros Hne Hpos. unfold full_span.
  destruct (build_stock_returns_inr close leverage Hne) as (n3 & n1 & ->).
  cbn [bind].
  assert (Hg : compound (gold_returns close) <> []).
  { apply index_nonempty. rewrite index_compound, index_gold_returns.
    destruct close; simpl; congruence. }
  destruct (rebase_inr _ Hg) as (xg & _ & Eg).
  unfold build_gold_returns. rewrite Eg. cbn [bind ret].
  rewrite (generate_signal_eq _ _ Hpos). cbn [bind].
  eexists. reflexivity.
Qed.

(** X9.  When the fetched table has dates but none on or after the
    effective start, the run stops with the error that no data is
    available from the start, whatever the prices are. *)
Theorem no_data_from_start :
  forall (L : NumLib) (close : DataFrame) (user_start : date)
         (ma_period : Z) (leverage : float),
    close <> [] ->
    (0 <= ma_period)%Z ->
    Forall (fun d => (d < user_start)%Z) (df_index close) ->
    backtest_pipeline L close user_start ma_period leverage
    = inl RuntimeError_no_data_from_start.
Proof.
  intros L close user_start ma_period leverage Hne Hpos Hall.
  unfold backtest_pipeline.
  destruct (full_span_total close ma_period leverage Hne Hpos) as [fs ->].
  cbn [bind]. unfold find_actual_start.
  replace (filter _ (df_index close)) with (@nil date); [reflexivity |].
  symmetry. induction Hall as [| d l Hd _ IH]; simpl; [reflexivity |].
  destruct (Z.leb_spec user_start d); [lia | exact IH].
Qed.

Lemma no_data_from_start_witness :
  table_2005 <> [] /\ (0 <= 5)%Z /\
  Forall (fun d => (d < ymd 2007 1 1)%Z) (df_index table_2005) /\
  backtest_pipeline approx_lib table_2005 (ymd 2007 1 1) 5 (Fin 3)
  = inl RuntimeError_no_data_from_start.
Proof.
  assert (H1 : table_2005 <> []) by (vm_compute; discriminate).
  assert (H2 : (0 <= 5)%Z) by lia.
  assert (H3 : Forall (fun d => (d < ymd 2007 1 1)%Z) (df_index table_2005)).
  { vm_compute. repeat constructor. }
  split; [exact H1 |]. split; [exact H2 |]. split; [exact H3 |].
  exact (no_data_from_start approx_lib table_2005 (ymd 2007 1 1) 5 (Fin 3)
           H1 H2 H3).
Defined.

(** X10.  The window of a run.  The effective start is the requested
    start, or 1928-01-01 when that is later.  For a period that is not
    negative, the fetch starts [1.5 * ma_period + 30] days (rounded down)
    before the effective start, or on 1927-01-01 when that is later; it
    is always before the effective start. *)
Theorem fetch_window_bounds :
  forall (start : date) (ma_period : Z),
    (0 <= ma_period)%Z ->
    let user_start := effective_start start in
    let fetch_start := extended_start user_start ma_period in
    user_start = Z.max start (ymd 1928 1 1) /\
    fetch_start = Z.max (user_start - (3 * ma_period / 2 + 30)) (ymd 1927 1 1) /\
    (fetch_start < user_start)%Z.
Proof.
  intros start ma_period Hpos. cbv zeta.
  unfold effective_start, extended_start, EARLIEST_RECOMMENDED_START,
    EARLIEST_DATA_DATE.
  rewrite Z.quot_div_nonneg by lia.
  eval_dates.
  assert (0 <= 3 * ma_period / 2)%Z by (apply Z.div_pos; lia).
  destruct (Z.ltb_spec start (-15341));
    destruct (Z.ltb_spec (Z.max start (-15341) - (3 * ma_period / 2 + 30))
                (-15706));
    repeat match goal with
           | |- context [(?a <? ?b)%Z] => destruct (Z.ltb_spec a b)
           end; lia.
Qed.

Lemma fetch_window_bounds_witness :
  (0 <= 200)%Z /\
  extended_start (effective_start (ymd 1990 1 1)) 200
  = Z.max (effective_start (ymd 1990 1 1) - (3 * 200 / 2 + 30)) (ymd 1927 1 1).
Proof.
  assert (H : (0 <= 200)%Z) by lia.
  split; [exact H |].
  exact (proj1 (proj2 (fetch_window_bounds (ymd 1990 1 1) 200 H))).
Defined.

(** ** Metrics *)

Lemma filter_filter_le (u a : date) (l : list date) :
  (u <= a)%Z ->
  filter (fun d => (a <=? d)%Z) (filter (fun d => (u <=? d)%Z) l)
  = filter (fun d => (a <=? d)%Z) l.
Proof.
  intros Hua. induction l as [| d l IH]; simpl; [reflexivity |].
  destruct (Z.leb_spec u d); simpl.
  - rewrite IH. reflexivity.
  - destruct (Z.leb_spec a d); [lia | exact IH].
Qed.

Lemma index_single {A} (s : Series A) (a : date) :
  index s = [a] -> exists x, s = [(a, x)].
Proof.
  destruct s as [| [d x] [| p s]]; simpl; try discriminate.
  intros [= ->]. exists x. reflexivity.
Qed.

(** X11.  When the visible window has a single trading day (one date of
    the fetched table on or after the effective start), the run fails
    with [ZeroDivisionError]: the growth rate is taken over zero days. *)
Theorem single_day_window_fails :
  forall (L : NumLib) (close : DataFrame) (user_start : date)
         (ma_period : Z) (leverage : float) (a : date),
    (0 <= ma_period)%Z ->
    filter (fun d => (user_start <=? d)%Z) (df_index close) = [a] ->
    backtest_pipeline L close user_start ma_period leverage
    = inl ZeroDivisionError.
Proof.
  intros L close user_start ma_period leverage a Hpos Hone.
  assert (Hne : close <> []) by (destruct close; [discriminate | congruence]).
  unfold backtest_pipeline.
  destruct (full_span_total close ma_period leverage Hne Hpos) as [fs Hfs].
  rewrite Hfs. cbn [bind]. unfold find_actual_start. rewrite Hone.
  cbn [bind ret].
  assert (Hua : (user_start <= a)%Z).
  { assert (Hin : In a (filter (fun d => (user_start <=? d)%Z)
                          (df_index close)))
      by (rewrite Hone; left; reflexivity).
    apply filter_In in Hin. apply Z.leb_le, (proj2 Hin). }
  assert (Hfa : filter (fun d => (a <=? d)%Z) (df_index close) = [a]).
  { rewrite <- (filter_filter_le user_start a _ Hua), Hone. simpl.
    rewrite Z.leb_refl. reflexivity. }
  destruct (full_span_index _ _ _ _ Hfs)
    as (Ir & Inav & I3 & I1 & Ig & Im & Is & Isp).
  assert (Hs : forall s : Series float,
             index s = df_index close -> exists x, loc_from a s = [(a, x)]).
  { intros s Hi. apply index_single. rewrite index_loc_from, Hi. exact Hfa. }
  unfold trim_and_summarize.
  destruct (Hs _ I3) as [x3 ->]. destruct (Hs _ Inav) as [xn ->].
  destruct (Hs _ I1) as [x1 ->]. destruct (Hs _ Ig) as [xg ->].
  destruct (Hs _ Isp) as [xs ->].
  cbn [iloc0 bind ret rebase smap map fst snd].
  unfold calculate_all_metrics, calculate_cagr.
  cbn [index_last index0 iloc_last iloc0 bind ret].
  rewrite Z.sub_diag. reflexivity.
Qed.

Lemma single_day_window_fails_witness :
  (0 <= 5)%Z /\
  filter (fun d => (ymd 2006 1 1 <=? d)%Z) (df_index table_2005)
  = [ymd 2006 2 10] /\
  backtest_pipeline approx_lib table_2005 (ymd 2006 1 1) 5 (Fin 3)
  = inl ZeroDivisionError.
Proof.
  assert (H1 : (0 <= 5)%Z) by lia.
  assert (H2 : filter (fun d => (ymd 2006 1 1 <=? d)%Z) (df_index table_2005)
               = [ymd 2006 2 10]) by (vm_compute; reflexivity).
  split; [exact H1 |]. split; [exact H2 |].
  exact (single_day_window_fails approx_lib table_2005 (ymd 2006 1 1) 5
           (Fin 3) (ymd 2006 2 10) H1 H2).
Defined.

(** The drawdown of a positive value below a positive running maximum. *)
Lemma drawdown_value_range (q h : Q) :
  (0 < q)%Q -> (q <= h)%Q ->
  exists r, fsub (fdiv (Fin q) (Fin h)) F1 = Fin r /\
            (-1 < r)%Q /\ (r <= 0)%Q.
Proof.
  intros Hq Hqh.
  assert (Hh : (0 < h)%Q) by (eapply Qlt_le_trans; eassumption).
  assert (Hh0 : ~ (h == 0)%Q).
  { intros E. rewrite E in Hh. apply (Qlt_irrefl 0), Hh. }
  unfold fdiv. unfold Qeqb.
  destruct (Qeq_bool h 0) eqn:E;
    [apply Qeq_bool_iff in E; contradiction |].
  unfold fsub, fneg, F1, fin, fadd, fin.
  eexists. split; [reflexivity |].
  rewrite !Qred_correct.
  assert (Hdiv_pos : (0 < q / h)%Q).
  { apply Qlt_shift_div_l; [exact Hh |]. rewrite Qmult_0_l. exact Hq. }
  assert (Hdiv_le : (q / h <= 1)%Q).
  { apply Qle_shift_div_r; [exact Hh |]. rewrite Qmult_1_l. exact Hqh. }
  split.
  - apply (Qplus_lt_l _ _ 1). ring_simplify. exact Hdiv_pos.
  - apply (Qplus_le_l _ _ 1). ring_simplify. exact Hdiv_le.
Qed.

Lemma drawdown_range_from (acc : float) (s : Series float) :
  (acc = NInf \/ exists h, acc = Fin h /\ (0 < h)%Q) ->
  forallb positive_finite (values s) = true ->
  forall v,
    In v (values (smap2 (fun n h => fsub (fdiv n h) F1) s (cummax_from acc s))) ->
    exists r, v = Fin r /\ (-1 < r)%Q /\ (r <= 0)%Q.
Proof.
  revert acc; induction s as [| [d x] s IH]; intros acc Hacc Hpos v Hin.
  - destruct Hin.
  - cbn [values map snd forallb] in Hpos.
    apply andb_true_iff in Hpos. destruct Hpos as [Hx Hrest].
    destruct x as [q | | |]; try discriminate.
    cbn [positive_finite] in Hx. apply Qltb_lt in Hx.
    cbn [cummax_from isnan] in Hin.
    assert (Hmax : exists m, fmax acc (Fin q) = Fin m /\ (q <= m)%Q).
    { destruct Hacc as [-> | (h & -> & Hh)].
      - exists q. split; [reflexivity | apply Qle_refl].
      - unfold fmax, flt. destruct (Qltb h q) eqn:E.
        + exists q. split; [reflexivity | apply Qle_refl].
        + exists h. split; [reflexivity | apply Qltb_ge, E]. }
    destruct Hmax as (m & Em & Hqm). rewrite Em in Hin.
    unfold smap2 in Hin. cbn [combine map fst snd values] in Hin.
    destruct Hin as [<- | Hin].
    + apply drawdown_value_range; assumption.
    + apply (IH (Fin m)); [| exact Hrest | exact Hin].
      right. exists m. split; [reflexivity |].
      eapply Qlt_le_trans; eassumption.
Qed.

(** X12.  For a NAV series whose values are all finite and above 0, every
    value of the drawdown series is a number between -1 and 0. *)
Theorem drawdown_between_minus_one_and_zero :
  forall (nav : Series float) (v : float),
    forallb positive_finite (values nav) = true ->
    In v (values (calculate_drawdown_series nav)) ->
    exists r, v = Fin r /\ (-1 <= r)%Q /\ (r <= 0)%Q.
Proof.
  intros nav v Hpos Hin.
  destruct (drawdown_range_from NInf nav) with (v := v)
    as (r & Hv & Hlo & Hhi); auto.
  exists r. split; [exact Hv |]. split; [apply Qlt_le_weak, Hlo | exact Hhi].
Qed.

Lemma drawdown_between_minus_one_and_zero_witness :
  forallb positive_finite
    (values [(ymd 2020 2 10, Fin 1); (ymd 2020 2 11, Fin 0.9)]) = true /\
  In (Fin (-0.1))
     (values (calculate_drawdown_series
                [(ymd 2020 2 10, Fin 1); (ymd 2020 2 11, Fin 0.9)])) /\
  exists r, Fin (-0.1) = Fin r /\ (-1 <= r)%Q /\ (r <= 0)%Q.
Proof.
  assert (H1 : forallb positive_finite
                 (values [(ymd 2020 2 10, Fin 1); (ymd 2020 2 11, Fin 0.9)])
               = true) by reflexivity.
  assert (H2 : In (Fin (-0.1))
                 (values (calculate_drawdown_series
                    [(ymd 2020 2 10, Fin 1); (ymd 2020 2 11, Fin 0.9)])))
    by (right; left; reflexivity).
  split; [exact H1 |]. split; [exact H2 |].
  exact (drawdown_between_minus_one_and_zero _ _ H1 H2).
Defined.

(** X13.  The win rate of a return series that is not empty is a number
    between 0 and 1. *)
Theorem win_rate_between_zero_and_one :
  forall (returns : Series float),
    returns <> [] ->
    exists q, calculate_win_rate returns = Fin q /\
              (0 <= q)%Q /\ (q <= 1)%Q.
Proof.
  intros returns Hne. unfold calculate_win_rate.
  set (c := length (filter (fun x => fgt x F0) (values returns))).
  set (n := length returns).
  assert (Hc : c <= n).
  { subst c n. rewrite <- (values_length returns). apply filter_length_le. }
  assert (Hn : 0 < n) by (subst n; destruct returns; simpl; [congruence | lia]).
  unfold fdiv, of_nat, of_Z, Qeqb.
  destruct (Qeq_bool (inject_Z (Z.of_nat n)) 0) eqn:E.
  { apply Qeq_bool_iff in E. unfold Qeq in E. simpl in E. lia. }
  unfold fin. eexists. split; [reflexivity |].
  rewrite Qred_correct.
  assert (Hnq : (0 < inject_Z (Z.of_nat n))%Q).
  { unfold Qlt. simpl. lia. }
  split.
  - apply Qle_shift_div_l; [exact Hnq |]. rewrite Qmult_0_l.
    unfold Qle. simpl. lia.
  - apply Qle_shift_div_r; [exact Hnq |]. rewrite Qmult_1_l.
    unfold Qle. simpl. lia.
Qed.

Lemma win_rate_between_zero_and_one_witness :
  stitch_stock_returns table_2005 <> [] /\
  exists q, calculate_win_rate (stitch_stock_returns table_2005) = Fin q /\
            (0 <= q)%Q /\ (q <= 1)%Q.
Proof.
  assert (H : stitch_stock_returns table_2005 <> [])
    by (vm_compute; discriminate).
  split; [exact H |].
  exact (win_rate_between_zero_and_one _ H).
Defined.

(** X14.  The recovery time is never negative. *)
Theorem recovery_days_not_negative :
  forall (nav : Series float) (n : Z),
    calculate_recovery_days nav = inr (Some n) -> (0 <= n)%Z.
Proof.
  intros nav n H. apply calculate_recovery_days_spec in H.
  destruct H as (mdd & peak & _ & _ & _ & before & d & v & after & Hl & _ & _
                 & ->).
  assert (Hin : In (d, v) (loc_from mdd nav))
    by (rewrite Hl; apply in_or_app; right; left; reflexivity).
  unfold loc_from in Hin. apply filter_In in Hin.
  destruct Hin as [_ Hd]. simpl in Hd. apply Z.leb_le in Hd. lia.
Qed.

Lemma recovery_days_not_negative_witness :
  calculate_recovery_days
    [(ymd 2020 2 10, Fin 1); (ymd 2020 2 11, Fin 0.9); (ymd 2020 2 21, Fin 1)]
  = inr (Some 10%Z) /\ (0 <= 10)%Z.
Proof.
  assert (H : calculate_recovery_days
                [(ymd 2020 2 10, Fin 1); (ymd 2020 2 11, Fin 0.9);
                 (ymd 2020 2 21, Fin 1)] = inr (Some 10%Z))
    by (vm_compute; reflexivity).
  split; [exact H |].
  exact (recovery_days_not_negative _ _ H).
Defined.

Lemma window_apply_short (w : nat) (f : list float -> float)
  (hist : list float) :
  length hist < w -> window_apply w f hist = NaN.
Proof.
  intros H. unfold window_apply.
  assert (Hlen : length (firstn w hist) <= length hist)
    by (rewrite length_firstn; lia).
  destruct (Nat.ltb_spec (length (firstn w hist)) w); [reflexivity | lia].
Qed.

Lemma fmul_nan_l (x : float) : fmul NaN x = NaN.
Proof. reflexivity. Qed.

(** X15.  For a window that is not negative, the rolling Sharpe series is
    on the index of the returns, is undefined on the first [window - 1]
    dates, and is never infinite. *)
Theorem rolling_sharpe_shape :
  forall (L : NumLib) (returns : Series float) (window : Z),
    (0 <= window)%Z ->
    exists rs,
      calculate_rolling_sharpe L returns window = inr rs /\
      index rs = index returns /\
      (forall k, k < length returns -> S k < Z.to_nat window ->
                 nth k (values rs) NaN = NaN) /\
      (forall v, In v (values rs) -> v <> PInf /\ v <> NInf).
Proof.
  intros L returns window Hpos.
  unfold calculate_rolling_sharpe, rolling.
  destruct (Z.ltb_spec window 0) as [Hneg | _]; [lia |].
  cbn [bind ret]. eexists. split; [reflexivity |].
  set (w := Z.to_nat window).
  assert (Hlen : forall f, length (rolling_from w f [] returns)
                           = length returns)
    by (intros f; apply length_rolling_from).
  split; [| split].
  - unfold replace_inf_nan. rewrite index_smap, index_smap2.
    + rewrite index_smap. apply index_rolling_from.
    + rewrite !length_smap, !Hlen. reflexivity.
  - intros k Hk Hw.
    unfold replace_inf_nan.
    rewrite (values_smap_nth _ _ k NaN NaN)
      by (rewrite length_smap2; rewrite !length_smap, ?Hlen; auto).
    rewrite (values_smap2_nth fdiv _ _ k NaN NaN NaN)
      by (rewrite !length_smap, ?Hlen; auto).
    rewrite (values_smap_nth (fun x => fmul x (of_Z 252)) _ k NaN NaN)
      by (rewrite Hlen; exact Hk).
    rewrite values_rolling_from_nth by exact Hk.
    rewrite window_apply_short; [reflexivity |].
    rewrite app_nil_r, length_rev, length_firstn. lia.
  - intros v Hin. unfold replace_inf_nan in Hin.
    rewrite values_smap in Hin. apply in_map_iff in Hin.
    destruct Hin as (x & <- & _). destruct x; split; discriminate.
Qed.

Lemma rolling_sharpe_shape_witness :
  (0 <= 3)%Z /\
  exists rs,
    calculate_rolling_sharpe approx_lib (stitch_stock_returns table_2005) 3
    = inr rs /\
    index rs = index (stitch_stock_returns table_2005).
Proof.
  assert (H : (0 <= 3)%Z) by lia.
  split; [exact H |].
  destruct (rolling_sharpe_shape approx_lib (stitch_stock_returns table_2005)
              3 H) as (rs & E & Hi & _).
  exists rs. split; assumption.
Defined.

(** ** Runs *)

Lemma run_backtest_world L w start end_ ma_period leverage res w' :
  run_backtest L w start end_ ma_period leverage = (res, w') ->
  (start < end_)%Z ->
  exists fetched,
    download_data w (extended_start (effective_start start) ma_period) end_ 3
    = (fetched, w') /\
    res = match fetched with
          | inl e => inl e
          | inr close =>
              backtest_pipeline L close (effective_start start) ma_period
                                leverage
          end.
Proof.
  unfold run_backtest. intros H Hlt.
  destruct (Z.leb_spec end_ start) as [Hle | _]; [lia |].
  destruct (download_data w _ end_ 3) as [fetched w1].
  exists fetched. destruct fetched; injection H as <- <-; auto.
Qed.

(** X16.  In every successful run the strategy, leg and benchmark NAV
    series, the moving average, the signal and the drawdown series are on
    one and the same index: the dates of the fetched table on or after the
    trim point, all of them and in the order of the table. *)
Theorem output_series_share_index :
  forall (L : NumLib) (w : World) (start end_ : date) (ma_period : Z)
         (leverage : float) (r : BacktestResult) (w' : World),
    run_backtest L w start end_ ma_period leverage = (inr r, w') ->
    exists close actual_start,
      fst (download_data w (extended_start (effective_start start) ma_period)
             end_ 3) = inr close /\
      first_date_from (df_index close) (effective_start start) actual_start /\
      let visible := filter (fun d => (actual_start <=? d)%Z) (df_index close) in
      index (nav r) = visible /\
      index (stock_nav r) = visible /\
      index (stock_nav_1x r) = visible /\
      index (gold_nav r) = visible /\
      index (stock_ma r) = visible /\
      index (sp500_nav r) = visible /\
      index (signal r) = visible /\
      index (drawdown_series r) = visible.
Proof.
  intros L w start end_ ma_period leverage r w' Hrun.
  apply run_backtest_inv in Hrun.
  destruct Hrun as (_ & close & fs & a & Hfetch & Hfs & Ha & Htrim).
  exists close, a. split; [exact Hfetch |].
  split; [apply find_actual_start_spec, Ha |].
  destruct (full_span_index _ _ _ _ Hfs)
    as (_ & Inav & I3 & I1 & Ig & Im & Is & Isp).
  destruct (trim_and_summarize_inv _ _ _ _ _ Htrim)
    as (scale & x_nav & x_1x & x_gold & x_sp & _ & _ & _ & _ & _ &
        En & E3 & E1 & Eg & Esp & Em & Es & Hdd & _ & _).
  cbv zeta.
  rewrite Hdd, index_calculate_drawdown_series.
  rewrite En, E3, E1, Eg, Esp, Em, Es.
  rewrite !index_smap, !index_loc_from.
  rewrite Inav, I3, I1, Ig, Im, Is, Isp.
  repeat split.
Qed.

Lemma output_series_share_index_witness :
  exists r w',
    run_backtest approx_lib (fresh_world table_2005) (ymd 2005 2 10)
                 (ymd 2006 3 1) 5 (Fin 2) = (inr r, w') /\
    index (nav r) = index (stock_ma r) /\
    index (nav r) = index (signal r).
Proof.
  destruct (run_backtest approx_lib (fresh_world table_2005) (ymd 2005 2 10)
              (ymd 2006 3 1) 5 (Fin 2)) as [[e | r] w'] eqn:Hrun.
  - exfalso. vm_compute in Hrun. discriminate Hrun.
  - exists r, w'. split; [reflexivity |].
    destruct (output_series_share_index _ _ _ _ _ _ _ _ Hrun)
      as (close & a & _ & _ & Hn & _ & _ & _ & Hm & _ & Hs & _).
    split; congruence.
Defined.

(** X17.  A successful run can be repeated: a second run with the same
    parameters, started in the environment the first one left, returns the
    same result from the cache, without a call to the provider and
    without a change to the cache. *)
Theorem run_backtest_repeat :
  forall (L : NumLib) (w : World) (start end_ : date) (ma_period : Z)
         (leverage : float) (r : BacktestResult) (w' : World),
    run_backtest L w start end_ ma_period leverage = (inr r, w') ->
    fst (run_backtest L w' start end_ ma_period leverage) = inr r /\
    network (snd (run_backtest L w' start end_ ma_period leverage))
    = network w' /\
    cache (snd (run_backtest L w' start end_ ma_period leverage)) = cache w'.
Proof.
  intros L w start end_ ma_period leverage r w' Hrun.
  pose proof (run_backtest_inv _ _ _ _ _ _ _ _ Hrun) as [Hlt _].
  destruct (run_backtest_world _ _ _ _ _ _ _ _ Hrun Hlt) as (fetched & Hd & Hres).
  destruct fetched as [e | close]; [discriminate |].
  destruct (download_data_warm_world _ _ _ 3 _
              (download_data_leaves_warm_entry _ _ _ _ _ _ Hd))
    as (H1 & H2 & H3 & _).
  unfold run_backtest.
  destruct (Z.leb_spec end_ start) as [Hle | _]; [lia |].
  destruct (download_data w' _ end_ 3) as [f2 w2].
  simpl in H1, H2, H3. subst f2. simpl. auto.
Qed.

Lemma run_backtest_repeat_witness :
  exists r w',
    run_backtest approx_lib (fresh_world table_2005) (ymd 2005 2 10)
                 (ymd 2006 3 1) 5 (Fin 2) = (inr r, w') /\
    fst (run_backtest approx_lib w' (ymd 2005 2 10) (ymd 2006 3 1) 5 (Fin 2))
    = inr r.
Proof.
  destruct (run_backtest approx_lib (fresh_world table_2005) (ymd 2005 2 10)
              (ymd 2006 3 1) 5 (Fin 2)) as [[e | r] w'] eqn:Hrun.
  - exfalso. vm_compute in Hrun. discriminate Hrun.
  - exists r, w'. split; [reflexivity |].
    exact (proj1 (run_backtest_repeat _ _ _ _ _ _ _ _ Hrun)).
Defined.

(** ** The HTTP layer *)

(** X18.  A request whose period is outside 5..500 or whose leverage is
    below 1 or above 5 is answered with status 400 and does not reach the
    engine: the environment is left as it was. *)
Theorem endpoint_rejects_bad_parameters :
  forall (L : NumLib) (w : World) (start end_ : date) (ma_period : Z)
         (leverage : float),
    (ma_period < 5)%Z \/ (500 < ma_period)%Z \/
    flt leverage (of_Z 1) = true \/ fgt leverage (of_Z 5) = true ->
    exists why,
      backtest_endpoint L w start end_ ma_period leverage = (Error400 why, w).
Proof.
  intros L w start end_ ma_period leverage H. unfold backtest_endpoint.
  destruct ((ma_period <? 5)%Z || (500 <? ma_period)%Z) eqn:Ema;
    [eexists; reflexivity |].
  apply orb_false_elim in Ema. destruct Ema as [E1 E2].
  apply Z.ltb_ge in E1, E2.
  destruct H as [H | [H | H]]; try lia.
  destruct (flt leverage (of_Z 1) || fgt leverage (of_Z 5)) eqn:El;
    [eexists; reflexivity |].
  apply orb_false_elim in El. destruct El as [E3 E4].
  destruct H; congruence.
Qed.

Lemma endpoint_rejects_bad_parameters_witness :
  ((3 < 5)%Z \/ (500 < 3)%Z \/
   flt (Fin 3) (of_Z 1) = true \/ fgt (Fin 3) (of_Z 5) = true) /\
  exists why,
    backtest_endpoint approx_lib (fresh_world table_2020) (ymd 2020 2 10)
                      (ymd 2020 3 1) 3 (Fin 3)
    = (Error400 why, fresh_world table_2020).
Proof.
  assert (H : (3 < 5)%Z \/ (500 < 3)%Z \/
              flt (Fin 3) (of_Z 1) = true \/ fgt (Fin 3) (of_Z 5) = true)
    by (left; lia).
  split; [exact H |].
  exact (endpoint_rejects_bad_parameters approx_lib (fresh_world table_2020)
           (ymd 2020 2 10) (ymd 2020 3 1) 3 (Fin 3) H).
Defined.

Lemma safe_value_finite (v x : float) :
  safe_value v = Some x -> x = v /\ isfinite v = true.
Proof.
  unfold safe_value. destruct v; simpl; try discriminate.
  intros [= <-]. auto.
Qed.

Lemma safe_points_finite (data : Series float) (f : float -> float)
  (p : date * option float) :
  In p (filter has_value (map (fun p => (fst p, safe_value (f (snd p)))) data)) ->
  exists d v, In (d, v) data /\ fst p = d /\ snd p = Some (f v) /\
              isfinite (f v) = true.
Proof.
  intros H. apply filter_In in H. destruct H as [Hin Hv].
  apply in_map_iff in Hin. destruct Hin as ([d v] & <- & Hin).
  unfold has_value in Hv. simpl in *.
  destruct (safe_value (f v)) as [x |] eqn:E; [| discriminate].
  apply safe_value_finite in E. destruct E as [-> Hf].
  exists d, v. auto.
Qed.

(** X19.  Every point of every series of a response carries a finite
    value: NaN and the infinities are dropped before the series are
    sent. *)
Theorem payload_values_are_finite :
  forall (r : BacktestResult) (start end_ : date) (ma_period : Z)
         (leverage : float) (series : list (date * option float))
         (p : date * option float),
    In series (payload_series (to_payload r start end_ ma_period leverage)) ->
    In p series ->
    exists v, snd p = Some v /\ isfinite v = true.
Proof.
  intros r start end_ ma_period leverage series p Hs Hp.
  unfold payload_series, to_payload in Hs. cbn [c_nav_series c_stock_series
    c_stock_1x_series c_gold_series c_ma_series c_sp500_series
    c_drawdown_series c_rolling_sharpe_series] in Hs.
  unfold chart_series, chart_series_as in Hs.
  repeat (destruct Hs as [<- | Hs];
          [first [apply (safe_points_finite _ (fun v => v)) in Hp
                 | apply (safe_points_finite _ (fun v => fmul v (of_Z 100)))
                     in Hp];
           destruct Hp as (d & v & _ & _ & E & Hf);
           eexists; split; [exact E | exact Hf] |]).
  destruct Hs.
Qed.

Lemma payload_values_are_finite_witness :
  exists r w',
    run_backtest approx_lib (fresh_world table_2005) (ymd 2005 2 10)
                 (ymd 2006 3 1) 5 (Fin 2) = (inr r, w') /\
    forall p,
      In p (c_nav_series (to_payload r (ymd 2005 2 10) (ymd 2006 3 1) 5
                            (Fin 2))) ->
      exists v, snd p = Some v /\ isfinite v = true.
Proof.
  destruct (run_backtest approx_lib (fresh_world table_2005) (ymd 2005 2 10)
              (ymd 2006 3 1) 5 (Fin 2)) as [[e | r] w'] eqn:Hrun.
  - exfalso. vm_compute in Hrun. discriminate Hrun.
  - exists r, w'. split; [reflexivity |].
    intros p Hp.
    apply (payload_values_are_finite r (ymd 2005 2 10) (ymd 2006 3 1) 5
             (Fin 2) _ p (or_introl eq_refl) Hp).
Defined.

Lemma last_cons_same {A} (c : A) (l : list A) : last (c :: l) c = last l c.
Proof. destruct l; reflexivity. Qed.

Lemma last_nonempty_default {A} (l : list A) (y c1 c2 : A) :
  last (y :: l) c1 = last (y :: l) c2.
Proof.
  revert y; induction l as [| z l IH]; intros y; [reflexivity |].
  change (last (y :: z :: l) c1) with (last (z :: l) c1).
  change (last (y :: z :: l) c2) with (last (z :: l) c2).
  apply IH.
Qed.

Lemma last_cons_other {A} (c x : A) (l : list A) :
  last (x :: l) c = last l x.
Proof.
  destruct l as [| y l]; [reflexivity |].
  change (last (x :: y :: l) c) with (last (y :: l) c).
  apply last_nonempty_default.
Qed.

Lemma zones_loop_spec (items : Series bool) (current : bool)
  (start_ last_date : date) :
  let zs := zones_loop current start_ last_date items in
  exists z rest,
    zs = z :: rest /\
    zone_start z = start_ /\
    is_stock z = current /\
    zone_end (last zs z) = last_date /\
    is_stock (last zs z) = last (values items) current /\
    zones_chained zs.
Proof.
  revert current start_; induction items as [| [d sig] items IH];
    intros current start_; cbv zeta.
  - simpl. eexists; eexists. repeat split.
  - cbn [zones_loop].
    destruct (Bool.eqb sig current) eqn:E; cbn [negb].
    + apply Bool.eqb_prop in E. subst sig.
      destruct (IH current start_) as (z & rest & Ez & H1 & H2 & H3 & H4 & H5).
      exists z, rest. rewrite Ez in *.
      repeat split; try assumption.
      rewrite H4. cbn [values map snd].
      symmetry. apply last_cons_same.
    + destruct (IH sig d) as (z & rest & Ez & H1 & H2 & H3 & H4 & H5).
      rewrite Ez in *.
      eexists; eexists. split; [reflexivity |].
      cbn [zone_start is_stock].
      split; [reflexivity |]. split; [reflexivity |].
      split; [| split].
      * rewrite last_cons_other, (last_nonempty_default rest z _ z).
        exact H3.
      * rewrite last_cons_other, (last_nonempty_default rest z _ z).
        rewrite H4. cbn [values map snd]. symmetry. apply last_cons_other.
      * cbn [zones_chained zone_end is_stock].
        split; [symmetry; exact H1 |]. split; [| exact H5].
        rewrite H2. destruct sig, current; try reflexivity; discriminate.
Qed.

(** X20.  The zones computed from a signal that is not empty follow one
    another without a gap: the first starts on the first date with the
    first value of the signal, each zone ends on the date the next one
    starts and has the opposite allocation, and the last ends on the last
    date with the last value of the signal. *)
Theorem signal_zones_chain :
  forall (d0 : date) (s0 : bool) (rest : Series bool),
    let signal_data := (d0, s0) :: rest in
    exists z zs,
      signal_zones signal_data = z :: zs /\
      zone_start z = d0 /\
      is_stock z = s0 /\
      zone_end (last (z :: zs) z) = last (index signal_data) d0 /\
      is_stock (last (z :: zs) z) = last (values signal_data) s0 /\
      zones_chained (z :: zs).
Proof.
  intros d0 s0 rest signal_data. unfold signal_zones. subst signal_data.
  destruct (zones_loop_spec ((d0, s0) :: rest) s0 d0
              (last (index ((d0, s0) :: rest)) d0))
    as (z & zs & Ez & H1 & H2 & H3 & H4 & H5).
  exists z, zs. rewrite Ez in *. auto 10.
Qed.

(** ** Annual returns *)

Lemma length_ffill_from (p : float) (l : list float) :
  length (ffill_from p l) = length l.
Proof. apply (proj1 (ffill_from_keeps p l)). Qed.

Lemma index_combine {A} (a : list date) (b : list A) :
  length a = length b -> index (combine a b) = a.
Proof.
  revert b; induction a as [| x a IH]; intros [| y b] H; simpl in *;
    try discriminate; try reflexivity.
  f_equal. apply IH. lia.
Qed.

Lemma index_sffill (s : Series float) : index (sffill s) = index s.
Proof.
  unfold sffill. apply index_combine.
  unfold ffill_values. rewrite length_ffill_from, index_length, values_length.
  reflexivity.
Qed.

Lemma index_resample_year_end_last (nav : Series float) (d0 : date)
  (x0 : float) (rest : Series float) :
  nav = (d0, x0) :: rest ->
  index (resample_year_end_last nav)
  = years_between (year_of d0) (year_of (last (index nav) d0)).
Proof.
  intros ->. unfold resample_year_end_last, index.
  rewrite map_map. simpl. apply map_id.
Qed.

Lemma years_between_nth (y0 y1 : Z) (k : nat) :
  k < length (years_between y0 y1) ->
  nth k (years_between y0 y1) 0%Z = (y0 + Z.of_nat k)%Z /\
  (y0 + Z.of_nat k <= y1)%Z.
Proof.
  unfold years_between. rewrite length_map, length_seq. intros Hk.
  split.
  - rewrite (nth_indep _ 0%Z (y0 + Z.of_nat 0)%Z)
      by (rewrite length_map, length_seq; exact Hk).
    pose proof (map_nth (fun k => (y0 + Z.of_nat k)%Z)
                  (seq 0 (Z.to_nat (y1 - y0 + 1))) 0 k) as E.
    cbv beta in E. rewrite E, seq_nth by exact Hk. reflexivity.
  - lia.
Qed.

Lemma fmul_100_notnan (v : float) :
  isnan v = false -> isnan (fmul v (of_Z 100)) = false.
Proof. destruct v; try discriminate; reflexivity. Qed.

(** X21.  The annual returns of a NAV series have an entry only for
    calendar years after the year of its first date and up to the year of
    its last date, and no entry is NaN; a series within one calendar year
    has no annual return. *)
Theorem annual_returns_years :
  forall (nav : Series float) (d0 : date) (x0 : float) (rest : Series float)
         (y : Z) (v : float),
    nav = (d0, x0) :: rest ->
    In (y, v) (calculate_annual_returns nav) ->
    (year_of d0 < y)%Z /\
    (y <= year_of (last (index nav) d0))%Z /\
    isnan v = false.
Proof.
  intros nav d0 x0 rest y v Hnav Hin.
  unfold calculate_annual_returns in Hin.
  apply in_map_iff in Hin. destruct Hin as ([y' v'] & E & Hin).
  simpl in E. injection E as -> <-.
  apply filter_In in Hin. destruct Hin as [Hin Hv]. simpl in Hv.
  unfold notna in Hv. apply negb_true_iff in Hv.
  split; [| split; [| apply fmul_100_notnan, Hv]];
    apply In_nth_error in Hin; destruct Hin as [k Hk];
    set (s := sffill (resample_year_end_last nav)) in *;
    assert (Hklt : k < length (pct_change s))
      by (apply nth_error_Some; rewrite Hk; discriminate);
    rewrite (series_nth_error _ k 0%Z NaN Hklt) in Hk;
    injection Hk as Hy Hval;
    rewrite length_pct_change in Hklt;
    rewrite index_pct_change in Hy;
    unfold s in Hy, Hklt;
    rewrite index_sffill, (index_resample_year_end_last _ _ _ _ Hnav) in Hy;
    rewrite <- (index_length (sffill _)), index_sffill,
      (index_resample_year_end_last _ _ _ _ Hnav) in Hklt;
    destruct (years_between_nth _ _ k Hklt) as [Enth Hle];
    assert (Hy' : y = (year_of d0 + Z.of_nat k)%Z)
      by (transitivity (nth k (years_between (year_of d0) (year_of (last (index nav) d0))) 0%Z);
          [symmetry; exact Hy | exact Enth]).
  - destruct k as [| k]; [| lia].
    exfalso.
    assert (Hs0 : 0 < length s).
    { unfold s. rewrite <- (index_length (sffill _)), index_sffill,
        (index_resample_year_end_last _ _ _ _ Hnav). exact Hklt. }
    rewrite (pct_change_first s Hs0) in Hval. subst v'. discriminate.
  - lia.
Qed.

Lemma annual_returns_years_witness :
  In (1929%Z, Fin (292 # 7))
     (calculate_annual_returns
        [(ymd 1928 1 3, Fin 1); (ymd 1928 1 4, Fin (175 # 176));
         (ymd 1929 1 2, Fin (31 # 22))]) /\
  (year_of (ymd 1928 1 3) < 1929)%Z.
Proof.
  assert (H : In (1929%Z, Fin (292 # 7))
                (calculate_annual_returns
                   [(ymd 1928 1 3, Fin 1); (ymd 1928 1 4, Fin (175 # 176));
                    (ymd 1929 1 2, Fin (31 # 22))]))
    by (vm_compute; left; reflexivity).
  split; [exact H |].
  exact (proj1 (annual_returns_years _ _ _ _ _ _ eq_refl H)).
Defined.

(** ** The age of a cache entry *)

Lemma age_below_ttl (age : Z) :
  Qltb (inject_Z age / inject_Z 3600) (inject_Z CACHE_TTL_HOURS)
  = (age <? 14400)%Z.
Proof.
  assert (H3600 : (0 < inject_Z 3600)%Q) by reflexivity.
  destruct (Z.ltb_spec age 14400) as [Hlt | Hge].
  - apply Qltb_lt. apply Qlt_shift_div_r; [exact H3600 |].
    unfold CACHE_TTL_HOURS, Qlt. simpl. lia.
  - apply Qltb_ge. apply Qle_shift_div_l; [exact H3600 |].
    unfold CACHE_TTL_HOURS, Qle. simpl. lia.
Qed.

(** X22.  A cache entry that is 4 hours (14400 seconds) old or older is
    not used: the table [download_data] then returns is an answer of the
    provider, not empty and with its gaps filled, and it replaces the
    entry, stamped with the current time. *)
Theorem stale_cache_entry_is_refetched :
  forall (w : World) (start end_ : date) (n : nat) (f : CacheFile)
         (close : DataFrame) (w' : World),
    cache_lookup w (_get_cache_path start end_) = Some f ->
    (14400 <= now w - mtime f)%Z ->
    download_data w start end_ n = (inr close, w') ->
    exists raw,
      In (Returns raw) (network w) /\ raw <> [] /\
      close = df_bfill (df_ffill raw) /\
      cache_lookup w' (_get_cache_path start end_)
      = Some (mkCacheFile (now w') (Some close)).
Proof.
  intros w start end_ n f close w' Hlook Hage H.
  unfold download_data, _is_cache_valid in H.
  assert (Hlook' : cache_lookup (log (EvCacheStat (_get_cache_path start end_)) w)
                     (_get_cache_path start end_) = Some f) by exact Hlook.
  rewrite Hlook' in H.
  cbn [now log] in H. rewrite age_below_ttl in H.
  destruct (Z.ltb_spec (now w - mtime f) 14400) as [Hlt | _]; [lia |].
  destruct (download_attempts _ _ _ _ _) as [[c |] w3] eqn:Hatt.
  - injection H as <- <-.
    apply download_attempts_from_provider in Hatt. exact Hatt.
  - destruct (_ <=? 1)%Z; [discriminate |].
    destruct (_ <? 0)%Z; discriminate.
Qed.

Lemma stale_cache_entry_is_refetched_witness :
  let w := mkWorld example_now
             [((ymd 2020 1 4, ymd 2020 3 1),
               mkCacheFile (example_now - 14400) (Some table_2005))]
             [Returns table_2020] [] in
  exists close w',
    download_data w (ymd 2020 1 4) (ymd 2020 3 1) 3 = (inr close, w') /\
    close = df_bfill (df_ffill table_2020).
Proof.
  intros w.
  destruct (download_data w (ymd 2020 1 4) (ymd 2020 3 1) 3)
    as [[e | close] w'] eqn:H.
  - exfalso. vm_compute in H. discriminate H.
  - exists close, w'. split; [reflexivity |].
    assert (Hage : (14400 <= now w - mtime (mkCacheFile (example_now - 14400)
                                              (Some table_2005)))%Z)
      by (vm_compute; discriminate).
    destruct (stale_cache_entry_is_refetched w (ymd 2020 1 4) (ymd 2020 3 1)
                3 (mkCacheFile (example_now - 14400) (Some table_2005))
                close w' eq_refl Hage H)
      as (raw & Hin & _ & Hclose & _).
    destruct Hin as [Hin | []]. injection Hin as <-. exact Hclose.
Defined.
